(** * Spray-tower scrubber calculator: a shallow embedding

    The calculation pipeline ([calculateSprayTower]), the compliance
    optimizer ([optimizeForCompliance]), the entry point that combines them
    and the validators of inputs and results of the TypeScript sources,
    embedded as Rocq functions.

    Modelling conventions.
    - A JavaScript [number] is an exact rational ([Q]); decimal literals
      denote the decimal fraction they spell.  Rounding and the infinities
      of binary64 are outside the model, a comparison is decided on the
      exact values, and [x / 0] is [0] as in [QArith].
    - The transcendental library calls ([Math.log], [Math.sqrt], [Math.exp],
      [Math.pow]) and number formatting belong to the host runtime, not to
      the repository; they are the fields of the class [JsRuntime] and every
      result holds for any implementation of them.
    - An object used as a table ([POLLUTANT_LIBRARY], [NOZZLE_LIBRARY], the
      emission-limit tables) is a finite map of its own string keys under
      the prototype every object literal has: [objectGet] reads an own key
      as its value, a name of [Object.prototype] as the inherited value and
      any other key as [undefined].
    - Reading a property of [undefined] throws a [TypeError]; a number
      computed from a property an inherited value does not have is NaN.  A
      function where either can happen returns an [Outcome].
    - The part of the optimizer that decides its control flow is embedded a
      second time over binary64 ([Binary64]), where rounding shows, and the
      expressions of its first pass a third time over rationals rounded
      after every operation ([Rounded]). *)

From Stdlib Require Import QArith Qround Qabs Lqa ZArith Lia String List.
From Stdlib Require Import Floats.
From stdpp Require Import gmap strings.
Import ListNotations.

Local Open Scope string_scope.
Local Open Scope Q_scope.

(** ** The host runtime *)

Class JsRuntime := {
  Math_log : Q -> Q;
  Math_sqrt : Q -> Q;
  Math_exp : Q -> Q;
  Math_pow : Q -> Q -> Q;
  (** [x.toFixed(d)] *)
  toFixed : Q -> nat -> string;
  (** a number interpolated in a template literal *)
  Number_toString : Q -> string;
}.

(** 3.141592653589793, the decimal JavaScript prints for [Math.PI]. *)
Definition Math_PI : Q := 3.141592653589793.

Definition Math_abs (x : Q) : Q := Qabs x.
Definition Math_max (x y : Q) : Q := if Qle_bool x y then y else x.
Definition Math_min (x y : Q) : Q := if Qle_bool x y then x else y.
Definition Math_ceil (x : Q) : Q := inject_Z (Qceiling x).

(** [x > y] and [x < y] on numbers. *)
Definition gtb (x y : Q) : bool := negb (Qle_bool x y).
Definition ltb (x y : Q) : bool := negb (Qle_bool y x).
Infix ">?" := gtb (at level 70, no associativity) : Q_scope.
Infix "<?" := ltb (at level 70, no associativity) : Q_scope.
Infix "<=?" := Qle_bool (at level 70, no associativity) : Q_scope.

(** [a || b] where [a] is an optional number: [undefined] and [0] are
    falsy. *)
Definition orElse (a : option Q) (b : Q) : Q :=
  match a with
  | Some q => if Qeq_bool q 0 then b else q
  | None => b
  end.

Definition Boolean_toString (b : bool) : string :=
  if b then "true" else "false".

(** [log.push(line)] *)
Definition push (log : list string) (line : string) : list string :=
  (log ++ [line])%list.

(** ** Exceptions *)

Inductive JsError : Type :=
| TypeError (msg : string).

(** How a call ends: it returns [a]; it throws [e]; or it returns, nothing
    thrown, a value the number model does not hold, which is not described
    further: a record with NaN in a field of type [Q], or a value that is
    no number where one is declared. *)
Inductive Outcome (A : Type) : Type :=
| Ok (a : A)
| Throw (e : JsError)
| NotANumber.
Arguments Ok {A} a.
Arguments Throw {A} e.
Arguments NotANumber {A}.

Definition bind {A B : Type} (m : Outcome A) (k : A -> Outcome B) : Outcome B :=
  match m with
  | Ok a => k a
  | Throw e => Throw e
  | NotANumber => NotANumber
  end.

Notation "'let!' x ':=' m 'in' body" := (bind m (fun x => body))
  (at level 10, x name, m at level 100, body at level 200).

(** ** Objects used as tables *)

(** The property names of [Object.prototype], which every object written as
    a literal inherits. *)
Definition Object_prototype_names : list string :=
  ["constructor"; "hasOwnProperty"; "isPrototypeOf"; "propertyIsEnumerable";
   "toLocaleString"; "toString"; "valueOf"; "__proto__";
   "__defineGetter__"; "__defineSetter__"; "__lookupGetter__";
   "__lookupSetter__"].

Definition inheritedName (key : string) : bool :=
  existsb (String.eqb key) Object_prototype_names.

(** What [object[key]] evaluates to: the value of an own key; the value
    [Object.prototype] has under the name, a function or an object, which is
    truthy, is not a number and has none of the fields of [R]; or
    [undefined]. *)
Inductive Property (R : Type) : Type :=
| Own (r : R)
| Inherited
| Undefined.
Arguments Own {R} r.
Arguments Inherited {R}.
Arguments Undefined {R}.

(** [object[key]] for an object literal with the own entries [object]. *)
Definition objectGet {R : Type} (object : gmap string R) (key : string)
  : Property R :=
  match object !! key with
  | Some r => Own r
  | None => if inheritedName key then Inherited else Undefined
  end.

(** [!value] *)
Definition isFalsy {R : Type} (value : Property R) : bool :=
  match value with
  | Own _ => false
  | Inherited => false
  | Undefined => true
  end.

(** [obj.prop] for a numeric field [prop] that enters arithmetic: on
    [undefined] the read throws; on an inherited value it gives [undefined]
    and the arithmetic NaN. *)
Definition getProp {R A : Type} (obj : Property R) (prop : R -> A) (name : string)
  : Outcome A :=
  match obj with
  | Own r => Ok (prop r)
  | Inherited => NotANumber
  | Undefined =>
      Throw (TypeError ("Cannot read properties of undefined (reading '"
                          +:+ name +:+ "')"))
  end.

(** ** Numbers that can be NaN *)

(** The value of a number-valued field that NaN can reach without any
    other field depending on it (the optional nozzle results): a rational,
    or NaN.  The fields of type [Q] hold no NaN; a call that would put one
    there ends as [NotANumber]. *)
Inductive Numeric : Type :=
| Rational (q : Q)
| NaN.

Definition Numeric_map (f : Q -> Q) (x : Numeric) : Numeric :=
  match x with
  | Rational q => Rational (f q)
  | NaN => NaN
  end.

(** ** types/index.ts *)

Inductive RegulatoryFramework : Type := EU | US.
Inductive UnitSystem : Type := metric | imperial.
Inductive ApplicationType : Type :=
  gas_absorption | particulate_removal | cooling | odor_control.

Definition RegulatoryFramework_toString (f : RegulatoryFramework) : string :=
  match f with EU => "EU" | US => "US" end.

Record GasStreamProperties : Type := {
  gasFlowRate : Q;            (* Nm3/h *)
  temperature : Q;            (* degrees C *)
  pressure : Q;               (* kPa *)
  gasViscosity : option Q;    (* Pa.s, optional override *)
}.

(** [type] is a string at run time; the declared [PollutantType] names the
    four keys of [POLLUTANT_LIBRARY]. *)
Record PollutantProperties : Type := {
  type : string;
  inletConcentration : Q;     (* mg/Nm3 *)
  targetEfficiency : Q;       (* 0-1 *)
}.

Record TowerParameters : Type := {
  lgRatio : Q;
  liquidDensity : Q;
  liquidViscosity : Q;
  gasVelocity : Q;
  dropletSize : Q;            (* mm *)
  nozzleType : option string;
  nozzlePressure : Q;
  kgaOverride : option Q;
  frictionFactor : Q;
  pumpHead : Q;
  naohStoichiometry : Q;
}.

Record SystemSettings : Type := {
  unitSystem : UnitSystem;
  regulatoryFramework : RegulatoryFramework;
  applicationType : ApplicationType;
}.

Record CalculatorInput : Type := {
  gasStream : GasStreamProperties;
  pollutant : PollutantProperties;
  tower : TowerParameters;
  settings : SystemSettings;
}.

Record PollutantData : Type := {
  henryConstant : Q;
  diffusivity : Q;
  molarMass : Q;              (* g/mol *)
}.

Record NozzleData : Type := {
  nozzle_type : string;
  k : Q;
  description : string;
}.

Record ParticulateEfficiency : Type := {
  coarse_10um : Q;
  medium_2um : Q;
  fine_1um : Q;
}.

Record ComplianceStatus : Type := {
  framework : RegulatoryFramework;
  emissionLimitsMet : bool;
  pressureVesselCode : string;
  safetyClassification : option string;
}.

Record CalculationResults : Type := {
  towerDiameter : Q;
  requiredHeight : Q;
  gasResidenceTime : Q;
  pressureDrop : Q;
  outletConcentration : Q;
  overallKGa : Q;
  interfacialArea : Q;
  gasDensity : Q;
  liquidRate : Q;
  naohConsumption : Q;
  operatingGasFlow : Q;
  towerArea : Q;
  liquidFlowRate : Q;
  nozzleFlowPerNozzle : option Numeric;
  requiredNozzles : option Numeric;
  molesRemoved : Q;
  numberOfTransferUnits : Q;
  dropletTerminalVelocity : Q;
  relativeVelocity : Q;
  dropletContactTime : Q;
  reynoldsNumber : Q;
  schmidtNumber : Q;
  sherwoodNumber : Q;
  particulateEfficiency : option ParticulateEfficiency;
  complianceStatus : ComplianceStatus;
}.

(** Object spread with one field replaced, as the optimizer writes it. *)
Definition with_lgRatio (t : TowerParameters) (v : Q) : TowerParameters :=
  {| lgRatio := v; liquidDensity := liquidDensity t;
     liquidViscosity := liquidViscosity t; gasVelocity := gasVelocity t;
     dropletSize := dropletSize t; nozzleType := nozzleType t;
     nozzlePressure := nozzlePressure t; kgaOverride := kgaOverride t;
     frictionFactor := frictionFactor t; pumpHead := pumpHead t;
     naohStoichiometry := naohStoichiometry t |}.

Definition with_gasVelocity (t : TowerParameters) (v : Q) : TowerParameters :=
  {| lgRatio := lgRatio t; liquidDensity := liquidDensity t;
     liquidViscosity := liquidViscosity t; gasVelocity := v;
     dropletSize := dropletSize t; nozzleType := nozzleType t;
     nozzlePressure := nozzlePressure t; kgaOverride := kgaOverride t;
     frictionFactor := frictionFactor t; pumpHead := pumpHead t;
     naohStoichiometry := naohStoichiometry t |}.

Definition with_dropletSize (t : TowerParameters) (v : Q) : TowerParameters :=
  {| lgRatio := lgRatio t; liquidDensity := liquidDensity t;
     liquidViscosity := liquidViscosity t; gasVelocity := gasVelocity t;
     dropletSize := v; nozzleType := nozzleType t;
     nozzlePressure := nozzlePressure t; kgaOverride := kgaOverride t;
     frictionFactor := frictionFactor t; pumpHead := pumpHead t;
     naohStoichiometry := naohStoichiometry t |}.

Definition with_targetEfficiency (p : PollutantProperties) (v : Q)
  : PollutantProperties :=
  {| type := type p; inletConcentration := inletConcentration p;
     targetEfficiency := v |}.

Definition with_tower (i : CalculatorInput) (t : TowerParameters)
  : CalculatorInput :=
  {| gasStream := gasStream i; pollutant := pollutant i; tower := t;
     settings := settings i |}.

Definition with_pollutant (i : CalculatorInput) (p : PollutantProperties)
  : CalculatorInput :=
  {| gasStream := gasStream i; pollutant := p; tower := tower i;
     settings := settings i |}.

(** ** lib/constants.ts *)

Definition R_GAS : Q := 8.314462618.
Definition M_AIR : Q := 0.02897.
Definition MU_GAS_DEFAULT : Q := 0.0000185.

Definition POLLUTANT_LIBRARY : gmap string PollutantData :=
  <["SO2" := {| henryConstant := 1230; diffusivity := 0.000012;
                molarMass := 64.066 |}]>
  (<["HCl" := {| henryConstant := 0.194; diffusivity := 0.000016;
                 molarMass := 36.461 |}]>
  (<["NH3" := {| henryConstant := 6600; diffusivity := 0.000021;
                 molarMass := 17.031 |}]>
  (<["H2S" := {| henryConstant := 930; diffusivity := 0.000014;
                 molarMass := 34.08 |}]> ∅))).

Definition NOZZLE_LIBRARY : gmap string NozzleData :=
  <["FullCone-1/2-15" := {| nozzle_type := "FullCone-1/2-15"; k := 1.5;
                            description := "Medium flow" |}]>
  (<["HollowCone-3/4-25" := {| nozzle_type := "HollowCone-3/4-25"; k := 2.6;
                               description := "Higher flow" |}]>
  (<["Spiral-1/2-10" := {| nozzle_type := "Spiral-1/2-10"; k := 1.2;
                           description := "Fine droplets" |}]> ∅)).

(** The entries of [UNIT_CONVERSIONS] and [CORRELATIONS] the pipeline reads. *)
Definition kPa_to_Pa : Q := 1000.
Definition Pa_to_inH2O : Q := 0.00401463.
Definition C_to_K : Q := 273.15.
Definition mm_to_m : Q := 0.001.
Definition m_to_ft : Q := 3.28084.
Definition m2_to_ft2 : Q := 10.7639.
Definition m3h_to_acfm : Q := 0.588578.
Definition m3h_to_gpm : Q := 4.40287.
Definition kg_m3_to_lb_ft3 : Q := 0.062428.
Definition m_s_to_ft_s : Q := 3.28084.
Definition h_to_s : Q := 3600.

Definition STANDARD_TEMP : Q := 273.15.
Definition STANDARD_PRESSURE : Q := 101325.
Definition SHERWOOD_CONSTANT_A : Q := 2.
Definition SHERWOOD_CONSTANT_B : Q := 0.6.
Definition SHERWOOD_REYNOLDS_EXP : Q := 0.5.
Definition SHERWOOD_SCHMIDT_EXP : Q := 1 / 3.

Definition DEFAULT_VALUES : CalculatorInput :=
  {| gasStream := {| gasFlowRate := 20000; temperature := 40;
                     pressure := 101.325; gasViscosity := None |};
     pollutant := {| type := "SO2"; inletConcentration := 1500;
                     targetEfficiency := 0.9 |};
     tower := {| lgRatio := 0.015; liquidDensity := 1000;
                 liquidViscosity := 0.001; gasVelocity := 3;
                 dropletSize := 0.8; nozzleType := None;
                 nozzlePressure := 1.5; kgaOverride := None;
                 frictionFactor := 0.02; pumpHead := 10;
                 naohStoichiometry := 1 |};
     settings := {| unitSystem := metric; regulatoryFramework := EU;
                    applicationType := gas_absorption |} |}.

(** ** lib/calculations/gas-properties.ts *)

Module GasProperties.

Record GasPropertiesResults : Type := {
  operatingTemp : Q;          (* K *)
  operatingPressure : Q;      (* Pa *)
  gasDensity : Q;             (* kg/m3 *)
  operatingGasFlow : Q;       (* m3/s *)
  effectiveGasViscosity : Q;  (* Pa.s *)
}.

Definition calculateGasProperties (gasStream : GasStreamProperties)
  : GasPropertiesResults :=
  let operatingTemp := temperature gasStream + C_to_K in
  let operatingPressure := pressure gasStream * kPa_to_Pa in
  let gasDensity :=
    (operatingPressure * M_AIR) / (R_GAS * operatingTemp) in
  let standardFlow_m3s := gasFlowRate gasStream / h_to_s in
  let operatingGasFlow :=
    standardFlow_m3s * (operatingTemp / STANDARD_TEMP)
      * (STANDARD_PRESSURE / operatingPressure) in
  let effectiveGasViscosity :=
    orElse (gasViscosity gasStream) MU_GAS_DEFAULT in
  {| operatingTemp := operatingTemp;
     operatingPressure := operatingPressure;
     gasDensity := gasDensity;
     operatingGasFlow := operatingGasFlow;
     effectiveGasViscosity := effectiveGasViscosity |}.

End GasProperties.

(** ** lib/calculations/tower-sizing.ts *)

Module TowerSizing.

Record TowerSizingResults : Type := {
  towerArea : Q;
  towerDiameter : Q;
  liquidFlowRate : Q;
  liquidRate : Q;
  liquidFlux : Q;
}.

Section WithRuntime.
Context `{JsRuntime}.

Definition calculateTowerSizing (operatingGasFlow gasVelocity lgRatio : Q)
  : TowerSizingResults :=
  let towerArea := operatingGasFlow / gasVelocity in
  let towerDiameter := Math_sqrt ((4 * towerArea) / Math_PI) in
  let liquidFlowRate := lgRatio * operatingGasFlow in
  let liquidRate := liquidFlowRate * 3600 in
  let liquidFlux := liquidFlowRate / towerArea in
  {| towerArea := towerArea;
     towerDiameter := towerDiameter;
     liquidFlowRate := liquidFlowRate;
     liquidRate := liquidRate;
     liquidFlux := liquidFlux |}.

End WithRuntime.
End TowerSizing.

(** ** lib/calculations/mass-transfer.ts *)

Module MassTransfer.

Record MassTransferResults : Type := {
  dropletDiameter : Q;
  relativeVelocity : Q;
  reynoldsNumber : Q;
  schmidtNumber : Q;
  sherwoodNumber : Q;
  gasFilmCoefficient : Q;
  interfacialArea : Q;
  overallKGa : Q;
}.

Section WithRuntime.
Context `{JsRuntime}.

(** The empirical correlation K_G a = 0.1586 G_m^0.8 L^0.4, guarded by
    [liquidFlux > 0]. *)
Definition calculatedKGa (gasDensity gasVelocity liquidFlux : Q) : Q :=
  if liquidFlux >? 0 then
    let approximateGasMolarFlow := (gasDensity * gasVelocity * 1) / 29 in
    let liquidFluxLiterPerSm2 := liquidFlux * 1000 in
    0.1586 * Math_pow approximateGasMolarFlow 0.8
      * Math_pow liquidFluxLiterPerSm2 0.4
  else 0.

Definition calculateMassTransfer
  (pollutant : PollutantProperties) (tower : TowerParameters)
  (gasDensity gasViscosity gasVelocity liquidFlux : Q)
  : Outcome MassTransferResults :=
  let pollutantData := objectGet POLLUTANT_LIBRARY (type pollutant) in
  let dropletDiameter := dropletSize tower * mm_to_m in
  let relativeVelocity := gasVelocity in
  let reynoldsNumber :=
    (gasDensity * relativeVelocity * dropletDiameter) / gasViscosity in
  let! diffusivity_sc := getProp pollutantData diffusivity "diffusivity" in
  let schmidtNumber := gasViscosity / (gasDensity * diffusivity_sc) in
  let sherwoodNumber :=
    SHERWOOD_CONSTANT_A
    + SHERWOOD_CONSTANT_B
      * Math_pow reynoldsNumber SHERWOOD_REYNOLDS_EXP
      * Math_pow schmidtNumber SHERWOOD_SCHMIDT_EXP in
  let! diffusivity_kg := getProp pollutantData diffusivity "diffusivity" in
  let gasFilmCoefficient :=
    (sherwoodNumber * diffusivity_kg) / dropletDiameter in
  let interfacialArea :=
    if relativeVelocity >? 0
    then (6 * liquidFlux) / (relativeVelocity * dropletDiameter)
    else 0 in
  let overallKGa :=
    orElse (kgaOverride tower)
           (calculatedKGa gasDensity gasVelocity liquidFlux) in
  Ok {| dropletDiameter := dropletDiameter;
        relativeVelocity := relativeVelocity;
        reynoldsNumber := reynoldsNumber;
        schmidtNumber := schmidtNumber;
        sherwoodNumber := sherwoodNumber;
        gasFilmCoefficient := gasFilmCoefficient;
        interfacialArea := interfacialArea;
        overallKGa := overallKGa |}.

End WithRuntime.
End MassTransfer.

(** ** lib/calculations/performance.ts *)

Module Performance.

Record PerformanceResults : Type := {
  requiredHeight : Q;         (* m *)
  gasResidenceTime : Q;       (* s *)
  outletConcentration : Q;    (* mg/Nm3 *)
  pressureDrop : Q;           (* Pa *)
  molesRemoved : Q;           (* mol/h *)
  naohConsumption : Q;        (* mol/h *)
  numberOfTransferUnits : Q;
  nozzleFlowPerNozzle : option Numeric;
  requiredNozzles : option Numeric;
}.

Section WithRuntime.
Context `{JsRuntime}.

(** The nozzle block: runs when [tower.nozzleType] is a non-empty string
    and [NOZZLE_LIBRARY[tower.nozzleType]] is truthy.  Under an inherited
    name it runs on a value without [k], and both fields are NaN. *)
Definition nozzleSizing (tower : TowerParameters) (liquidRate : Q)
  : option Numeric * option Numeric :=
  match nozzleType tower with
  | Some name =>
      if String.eqb name "" then (None, None)
      else match objectGet NOZZLE_LIBRARY name with
           | Own nozzleData =>
               let nozzleFlowPerNozzle :=
                 k nozzleData * Math_sqrt (nozzlePressure tower) in
               (Some (Rational nozzleFlowPerNozzle),
                Some (Rational (Math_ceil (liquidRate / nozzleFlowPerNozzle))))
           | Inherited => (Some NaN, Some NaN)
           | Undefined => (None, None)
           end
  | None => (None, None)
  end.

(** G_m = (P Q) / (R T), in kmol/s. *)
Definition molarGasFlow (operatingGasFlow operatingTemp : Q) : Q :=
  (101325 * operatingGasFlow) / (8314.462618 * operatingTemp).

(** V = (G_m N_G) / K_G a behind its guard. *)
Definition sprayZoneVolume (molarGasFlow numberOfTransferUnits overallKGa : Q)
  : Q :=
  if (overallKGa >? 0) && (numberOfTransferUnits >? 0)
  then (molarGasFlow * numberOfTransferUnits) / overallKGa
  else 0.

Definition calculatePerformance
  (pollutant : PollutantProperties) (tower : TowerParameters)
  (gasFlowRate gasVelocity towerDiameter gasDensity liquidRate overallKGa
   towerArea operatingGasFlow operatingTemp : Q)
  : Outcome PerformanceResults :=
  let pollutantData := objectGet POLLUTANT_LIBRARY (type pollutant) in
  let outletConcentration :=
    inletConcentration pollutant * (1 - targetEfficiency pollutant) in
  let numberOfTransferUnits :=
    if outletConcentration >? 0
    then Math_log (inletConcentration pollutant / outletConcentration)
    else 0 in
  let molarGasFlow := molarGasFlow operatingGasFlow operatingTemp in
  let sprayZoneVolume :=
    sprayZoneVolume molarGasFlow numberOfTransferUnits overallKGa in
  let requiredHeight :=
    if (towerArea >? 0) && (sprayZoneVolume >? 0)
    then sprayZoneVolume / towerArea
    else 0 in
  let gasResidenceTime :=
    if gasVelocity >? 0 then requiredHeight / gasVelocity else 0 in
  let pressureDrop :=
    frictionFactor tower * (requiredHeight / towerDiameter)
      * (gasDensity * Math_pow gasVelocity 2 / 2) in
  let concentrationDifference :=
    inletConcentration pollutant - outletConcentration in
  let! molarMass_ := getProp pollutantData molarMass "molarMass" in
  let molesRemoved :=
    (gasFlowRate * concentrationDifference / 1000) / molarMass_ * 1000 in
  let naohConsumption := molesRemoved * naohStoichiometry tower in
  let nozzle := nozzleSizing tower liquidRate in
  Ok {| requiredHeight := requiredHeight;
        gasResidenceTime := gasResidenceTime;
        outletConcentration := outletConcentration;
        pressureDrop := pressureDrop;
        molesRemoved := molesRemoved;
        naohConsumption := naohConsumption;
        numberOfTransferUnits := numberOfTransferUnits;
        nozzleFlowPerNozzle := fst nozzle;
        requiredNozzles := snd nozzle |}.

End WithRuntime.
End Performance.

(** ** lib/calculations/advanced-calculations.ts *)

Module AdvancedCalculations.

Record DropletPhysics : Type := {
  terminalVelocity : Q;
  relativeVelocity : Q;
  contactTime : Q;
  reynoldsNumber : Q;
}.

(** [euLimits], the table local to [calculateComplianceStatus]. *)
Definition euLimits : gmap string Q :=
  <["SO2" := 200]> (<["HCl" := 10]> (<["NH3" := 50]> (<["H2S" := 5]> ∅))).

(** [limit && outletConcentration > limit]: a number compares greater than
    no inherited value, neither as a number (a function or an object
    converts to NaN) nor as a string. *)
Definition exceedsLimit (limit : Property Q) (outletConcentration : Q) : bool :=
  match limit with
  | Own l => negb (Qeq_bool l 0) && (outletConcentration >? l)
  | Inherited => false
  | Undefined => false
  end.

Definition calculateComplianceStatus
  (framework : RegulatoryFramework) (outletConcentration pressure : Q)
  (pollutantType : string) : ComplianceStatus :=
  match framework with
  | EU =>
      let pressureVesselCode :=
        if pressure >? 50000 then "EU PED (>0.5 bar)"
        else "Atmospheric vessel" in
      let safetyClassification :=
        "ATEX assessment required for flammable gases" in
      let limit := objectGet euLimits pollutantType in
      let emissionLimitsMet :=
        if exceedsLimit limit outletConcentration then false else true in
      {| framework := framework;
         emissionLimitsMet := emissionLimitsMet;
         pressureVesselCode := pressureVesselCode;
         safetyClassification := Some safetyClassification |}
  | US =>
      let pressureVesselCode :=
        if pressure >? 103421 then "ASME BPVC Section VIII"
        else "Atmospheric vessel" in
      let safetyClassification := "OSHA/NFPA compliance required" in
      {| framework := framework;
         emissionLimitsMet := true;
         pressureVesselCode := pressureVesselCode;
         safetyClassification := Some safetyClassification |}
  end.

Section WithRuntime.
Context `{JsRuntime}.

(** One pass of the body of the terminal-velocity loop: the next iterate. *)
Definition newVelocity
  (dropletDiameter gasDensity gasViscosity liquidDensity terminalVelocity : Q)
  : Q :=
  let reynolds :=
    (gasDensity * terminalVelocity * dropletDiameter) / gasViscosity in
  let dragCoeff0 := 24 / reynolds * (1 + 0.15 * Math_pow reynolds 0.687) in
  let dragCoeff := if reynolds >? 1000 then 0.44 else dragCoeff0 in
  let gravity := 9.80665 in
  Math_sqrt
    ((4 * gravity * dropletDiameter * (liquidDensity - gasDensity))
     / (3 * dragCoeff * gasDensity)).

(** [for (let i = 0; i < 10; i++)] entered with [remaining = 10 - i] passes
    left and the current [terminalVelocity]; its value is [terminalVelocity]
    when the loop is left, by [break] or by [i < 10] failing. *)
Fixpoint terminalVelocityLoop
  (dropletDiameter gasDensity gasViscosity liquidDensity : Q)
  (remaining : nat) (terminalVelocity : Q) : Q :=
  match remaining with
  | O => terminalVelocity
  | S remaining' =>
      let nv := newVelocity dropletDiameter gasDensity gasViscosity
                            liquidDensity terminalVelocity in
      if Math_abs (nv - terminalVelocity) <? 0.001
      then nv
      else terminalVelocityLoop dropletDiameter gasDensity gasViscosity
             liquidDensity remaining' nv
  end.

Definition calculateDropletPhysics
  (dropletSize gasVelocity gasDensity gasViscosity liquidDensity
   sprayHeight : Q) : DropletPhysics :=
  let dropletDiameter := dropletSize * 0.001 in
  let terminalVelocity :=
    terminalVelocityLoop dropletDiameter gasDensity gasViscosity
      liquidDensity 10 1.0 in
  let relativeVelocity := Math_max 0 (terminalVelocity - gasVelocity) in
  let contactTime :=
    if relativeVelocity >? 0 then sprayHeight / relativeVelocity else 0 in
  let reynoldsNumber :=
    (gasDensity * terminalVelocity * dropletDiameter) / gasViscosity in
  {| terminalVelocity := terminalVelocity;
     relativeVelocity := relativeVelocity;
     contactTime := contactTime;
     reynoldsNumber := reynoldsNumber |}.

Definition calculateParticulateEfficiency
  (dropletSize gasVelocity liquidFlux sprayHeight relativeVelocity : Q)
  : ParticulateEfficiency :=
  let contactingPower := liquidFlux * relativeVelocity in
  let residenceTime := sprayHeight / Math_max gasVelocity 0.1 in
  let nt_coarse :=
    Math_min 10 (contactingPower * residenceTime * 50 / dropletSize) in
  let coarse_10um := Math_min 0.99 (1 - Math_exp (- nt_coarse)) in
  let nt_medium :=
    Math_min 5 (contactingPower * residenceTime * 10 / dropletSize) in
  let medium_2um := Math_min 0.80 (1 - Math_exp (- nt_medium)) in
  let nt_fine :=
    Math_min 2 (contactingPower * residenceTime * 2 / dropletSize) in
  let fine_1um := Math_min 0.20 (1 - Math_exp (- nt_fine)) in
  {| coarse_10um := coarse_10um;
     medium_2um := medium_2um;
     fine_1um := fine_1um |}.

End WithRuntime.
End AdvancedCalculations.

(** ** lib/calculations/calculator.ts *)

Module Calculator.
Section WithRuntime.
Context `{JsRuntime}.

Definition calculateSprayTower (input : CalculatorInput)
  : Outcome CalculationResults :=
  let gasProps := GasProperties.calculateGasProperties (gasStream input) in
  let towerSizing :=
    TowerSizing.calculateTowerSizing
      (GasProperties.operatingGasFlow gasProps)
      (gasVelocity (tower input))
      (lgRatio (tower input)) in
  let! massTransfer :=
    MassTransfer.calculateMassTransfer
      (pollutant input) (tower input)
      (GasProperties.gasDensity gasProps)
      (GasProperties.effectiveGasViscosity gasProps)
      (gasVelocity (tower input))
      (TowerSizing.liquidFlux towerSizing) in
  let dropletPhysics :=
    AdvancedCalculations.calculateDropletPhysics
      (dropletSize (tower input))
      (gasVelocity (tower input))
      (GasProperties.gasDensity gasProps)
      (GasProperties.effectiveGasViscosity gasProps)
      (liquidDensity (tower input))
      5.0 in
  let! performance :=
    Performance.calculatePerformance
      (pollutant input) (tower input)
      (gasFlowRate (gasStream input))
      (gasVelocity (tower input))
      (TowerSizing.towerDiameter towerSizing)
      (GasProperties.gasDensity gasProps)
      (TowerSizing.liquidRate towerSizing)
      (MassTransfer.overallKGa massTransfer)
      (TowerSizing.towerArea towerSizing)
      (GasProperties.operatingGasFlow gasProps)
      (GasProperties.operatingTemp gasProps) in
  let particulateEff :=
    AdvancedCalculations.calculateParticulateEfficiency
      (dropletSize (tower input))
      (gasVelocity (tower input))
      (TowerSizing.liquidFlux towerSizing)
      (Performance.requiredHeight performance)
      (AdvancedCalculations.relativeVelocity dropletPhysics) in
  let compliance :=
    AdvancedCalculations.calculateComplianceStatus
      (regulatoryFramework (settings input))
      (Performance.outletConcentration performance)
      (GasProperties.operatingPressure gasProps)
      (type (pollutant input)) in
  let isImperial :=
    match unitSystem (settings input) with
    | imperial => true
    | metric => false
    end in
  let convertLength value := if isImperial then value * m_to_ft else value in
  let convertArea value := if isImperial then value * m2_to_ft2 else value in
  let convertPressure value :=
    if isImperial then value * Pa_to_inH2O else value in
  let convertDensity value :=
    if isImperial then value * kg_m3_to_lb_ft3 else value in
  let convertVelocity value :=
    if isImperial then value * m_s_to_ft_s else value in
  let convertFlowRate value :=
    if isImperial then value * m3h_to_acfm else value in
  let convertLiquidRate value :=
    if isImperial then value * m3h_to_gpm else value in
  Ok {| towerDiameter := convertLength (TowerSizing.towerDiameter towerSizing);
        requiredHeight :=
          convertLength (Performance.requiredHeight performance);
        gasResidenceTime := Performance.gasResidenceTime performance;
        pressureDrop := convertPressure (Performance.pressureDrop performance);
        outletConcentration := Performance.outletConcentration performance;
        overallKGa := MassTransfer.overallKGa massTransfer;
        interfacialArea := MassTransfer.interfacialArea massTransfer;
        gasDensity := convertDensity (GasProperties.gasDensity gasProps);
        liquidRate := convertLiquidRate (TowerSizing.liquidRate towerSizing);
        naohConsumption := Performance.naohConsumption performance;
        operatingGasFlow :=
          if isImperial
          then GasProperties.operatingGasFlow gasProps * 127133
          else GasProperties.operatingGasFlow gasProps;
        towerArea := convertArea (TowerSizing.towerArea towerSizing);
        liquidFlowRate :=
          if isImperial
          then TowerSizing.liquidFlowRate towerSizing * m3h_to_gpm / 60
          else TowerSizing.liquidFlowRate towerSizing;
        nozzleFlowPerNozzle :=
          match Performance.nozzleFlowPerNozzle performance with
          | Some (Rational flow) =>
              if Qeq_bool flow 0 then None
              else Some (Rational (convertLiquidRate flow))
          | Some NaN => None
          | None => None
          end;
        requiredNozzles := Performance.requiredNozzles performance;
        molesRemoved := Performance.molesRemoved performance;
        numberOfTransferUnits :=
          Performance.numberOfTransferUnits performance;
        dropletTerminalVelocity :=
          convertVelocity
            (AdvancedCalculations.terminalVelocity dropletPhysics);
        relativeVelocity :=
          convertVelocity
            (AdvancedCalculations.relativeVelocity dropletPhysics);
        dropletContactTime := AdvancedCalculations.contactTime dropletPhysics;
        reynoldsNumber := MassTransfer.reynoldsNumber massTransfer;
        schmidtNumber := MassTransfer.schmidtNumber massTransfer;
        sherwoodNumber := MassTransfer.sherwoodNumber massTransfer;
        particulateEfficiency := Some particulateEff;
        complianceStatus := compliance |}.

End WithRuntime.
End Calculator.

(** ** lib/calculations/compliance-optimizer.ts *)

Module ComplianceOptimizer.

Record OptimizationResult : Type := {
  results : CalculationResults;
  optimizedInput : CalculatorInput;
  iterations : Z;
  convergenceReached : bool;
  optimizationLog : list string;
}.

(** The two tables local to [getEmissionLimits]. *)
Definition euLimits : gmap string Q :=
  <["SO2" := 200]> (<["HCl" := 10]> (<["NH3" := 50]> (<["H2S" := 5]> ∅))).

Definition usLimits : gmap string Q :=
  <["SO2" := 400]> (<["HCl" := 25]> (<["NH3" := 100]> (<["H2S" := 15]> ∅))).

(** [limits[pollutantType] || default]: under an inherited name the value
    returned is the inherited one, not a number. *)
Definition limitOr (limit : Property Q) (default : Q) : Outcome Q :=
  match limit with
  | Own l => Ok (if Qeq_bool l 0 then default else l)
  | Inherited => NotANumber
  | Undefined => Ok default
  end.

Definition getEmissionLimits
  (framework : RegulatoryFramework) (pollutantType : string) : Outcome Q :=
  match framework with
  | EU => limitOr (objectGet euLimits pollutantType) 100
  | US => limitOr (objectGet usLimits pollutantType) 200
  end.

(** The variables of [optimizeForCompliance] that the loop reads and
    writes. *)
Module Vars.
Record t : Type := {
  log : list string;
  currentInput : CalculatorInput;
  bestResults : option CalculationResults;
  bestInput : option CalculatorInput;
  iterations : Z;
  convergenceReached : bool;
  results : CalculationResults;
}.
End Vars.

(** How a pass of the loop body ends: it falls through to [iterations++],
    or leaves the loop by [break]. *)
Inductive Completion : Type := Normal | Break.

Section WithRuntime.
Context `{JsRuntime}.

Section Loop.
Variable input : CalculatorInput.
Variable maxIterations : Q.
Variable targetOutletConcentration : Q.
Variable requiredEfficiency : Q.

(** The three strategies: the parameter set of this iteration and its log
    line. *)
Definition adjust (iterations : Z) (currentInput : CalculatorInput)
  : CalculatorInput * string :=
  let n := inject_Z iterations in
  if n <=? maxIterations * 0.4 then
    let lgIncreaseFactor := 1 + (n * 0.1) in
    let next :=
      {| gasStream := gasStream currentInput;
         pollutant :=
           with_targetEfficiency (pollutant currentInput) requiredEfficiency;
         tower :=
           with_lgRatio (tower currentInput)
             (lgRatio (tower input) * lgIncreaseFactor);
         settings := settings currentInput |} in
    (next,
     "Iteration " +:+ Number_toString n +:+ ": Increasing L/G ratio to "
       +:+ toFixed (lgRatio (tower next)) 2)
  else if n <=? maxIterations * 0.7 then
    let velocityFactor :=
      Math_max 0.5 (1 - (n - maxIterations * 0.4) * 0.05) in
    let next :=
      with_tower currentInput
        (with_gasVelocity (tower currentInput)
           (gasVelocity (tower input) * velocityFactor)) in
    (next,
     "Iteration " +:+ Number_toString n +:+ ": Adjusting gas velocity to "
       +:+ toFixed (gasVelocity (tower next)) 2 +:+ " m/s")
  else
    let dropletFactor :=
      Math_max 0.5 (1 - (n - maxIterations * 0.7) * 0.1) in
    let next :=
      with_tower currentInput
        (with_dropletSize (tower currentInput)
           (dropletSize (tower input) * dropletFactor)) in
    (next,
     "Iteration " +:+ Number_toString n +:+ ": Reducing droplet size to "
       +:+ toFixed (dropletSize (tower next)) 2 +:+ " mm").

(** One pass of the body of the optimization loop. *)
Definition loopBody (v : Vars.t) : Outcome (Vars.t * Completion) :=
  let iterations := Vars.iterations v in
  let '(currentInput, line) := adjust iterations (Vars.currentInput v) in
  let log := push (Vars.log v) line in
  let! results := Calculator.calculateSprayTower currentInput in
  let log :=
    push log ("  Result: Outlet " +:+ toFixed (outletConcentration results) 1
              +:+ " mg/Nm³, Height " +:+ toFixed (requiredHeight results) 1
              +:+ " m, Compliance: "
              +:+ Boolean_toString
                    (emissionLimitsMet (complianceStatus results))) in
  if emissionLimitsMet (complianceStatus results) then
    Ok ({| Vars.log :=
             push log ("✓ Compliance achieved in "
                       +:+ Number_toString (inject_Z iterations)
                       +:+ " iterations");
           Vars.currentInput := currentInput;
           Vars.bestResults := Some results;
           Vars.bestInput := Some currentInput;
           Vars.iterations := iterations;
           Vars.convergenceReached := true;
           Vars.results := results |}, Break)
  else
    let improves :=
      match Vars.bestResults v with
      | None => true
      | Some best => outletConcentration results <? outletConcentration best
      end in
    let bestResults := if improves then Some results else Vars.bestResults v in
    let bestInput := if improves then Some currentInput else Vars.bestInput v in
    if (inject_Z iterations >? 5)
       && (outletConcentration results >? targetOutletConcentration * 2)
    then
      Ok ({| Vars.log :=
               push log "Optimization diverging, using best result found";
             Vars.currentInput := currentInput;
             Vars.bestResults := bestResults;
             Vars.bestInput := bestInput;
             Vars.iterations := iterations;
             Vars.convergenceReached := Vars.convergenceReached v;
             Vars.results := results |}, Break)
    else
      Ok ({| Vars.log := log;
             Vars.currentInput := currentInput;
             Vars.bestResults := bestResults;
             Vars.bestInput := bestInput;
             Vars.iterations := iterations;
             Vars.convergenceReached := Vars.convergenceReached v;
             Vars.results := results |}, Normal).

Definition increment (v : Vars.t) : Vars.t :=
  {| Vars.log := Vars.log v;
     Vars.currentInput := Vars.currentInput v;
     Vars.bestResults := Vars.bestResults v;
     Vars.bestInput := Vars.bestInput v;
     Vars.iterations := (Vars.iterations v + 1)%Z;
     Vars.convergenceReached := Vars.convergenceReached v;
     Vars.results := Vars.results v |}.

(** [for (...; iterations <= maxIterations; iterations++)].  [None] when
    the fuel runs out before the loop is left. *)
Fixpoint loop (fuel : nat) (v : Vars.t) : option (Outcome Vars.t) :=
  match fuel with
  | O => None
  | S fuel' =>
      if inject_Z (Vars.iterations v) <=? maxIterations then
        match loopBody v with
        | Throw e => Some (Throw e)
        | NotANumber => Some NotANumber
        | Ok (v', Break) => Some (Ok v')
        | Ok (v', Normal) => loop fuel' (increment v')
        end
      else Some (Ok v)
  end.

End Loop.

(** The statements after the loop. *)
Definition finish (maxIterations emissionLimits : Q) (v : Vars.t)
  : OptimizationResult :=
  match negb (Vars.convergenceReached v), Vars.bestResults v, Vars.bestInput v with
  | true, Some bestResults, Some bestInput =>
      {| results := bestResults;
         optimizedInput := bestInput;
         iterations := Vars.iterations v;
         convergenceReached := Vars.convergenceReached v;
         optimizationLog :=
           push
             (push (Vars.log v)
                ("⚠ Could not achieve full compliance in "
                 +:+ Number_toString maxIterations +:+ " iterations"))
             ("Using best result: "
              +:+ toFixed (outletConcentration bestResults) 1
              +:+ " mg/Nm³ (vs limit " +:+ Number_toString emissionLimits
              +:+ " mg/Nm³)") |}
  | _, _, _ =>
      {| results := Vars.results v;
         optimizedInput := Vars.currentInput v;
         iterations := Vars.iterations v;
         convergenceReached := Vars.convergenceReached v;
         optimizationLog := Vars.log v |}
  end.

(** Passes the loop can make before [iterations <= maxIterations] fails,
    and one more for the test that fails. *)
Definition fuelFor (maxIterations : Q) : nat :=
  S (Z.to_nat (Qfloor maxIterations)).

Definition optimizeForCompliance
  (input : CalculatorInput) (maxIterations : Q)
  : option (Outcome OptimizationResult) :=
  let log :=
    ["Starting compliance optimization for "
     +:+ RegulatoryFramework_toString (regulatoryFramework (settings input))
     +:+ " framework";
     "Target pollutant: " +:+ type (pollutant input)
     +:+ ", Target efficiency: "
     +:+ toFixed (targetEfficiency (pollutant input) * 100) 1 +:+ "%"] in
  let currentInput := input in
  match Calculator.calculateSprayTower currentInput with
  | Throw e => Some (Throw e)
  | NotANumber => Some NotANumber
  | Ok results =>
      let log :=
        push log ("Initial calculation - Outlet: "
                  +:+ toFixed (outletConcentration results) 1
                  +:+ " mg/Nm³, Compliance: "
                  +:+ Boolean_toString
                        (emissionLimitsMet (complianceStatus results))) in
      if emissionLimitsMet (complianceStatus results) then
        Some (Ok {| results := results;
                    optimizedInput := currentInput;
                    iterations := 0;
                    convergenceReached := true;
                    optimizationLog :=
                      push log "Initial design already meets regulatory requirements" |})
      else
        match
          getEmissionLimits (regulatoryFramework (settings input))
                            (type (pollutant input))
        with
        | Throw e => Some (Throw e)
        | NotANumber => Some NotANumber
        | Ok emissionLimits =>
            let targetOutletConcentration := emissionLimits * 0.9 in
            let log :=
              push log ("Regulatory limit: " +:+ Number_toString emissionLimits
                        +:+ " mg/Nm³, Target: "
                        +:+ toFixed targetOutletConcentration 1 +:+ " mg/Nm³") in
            let requiredEfficiency :=
              1 - (targetOutletConcentration
                   / inletConcentration (pollutant input)) in
            let log :=
              push log ("Required efficiency: "
                        +:+ toFixed (requiredEfficiency * 100) 1 +:+ "%") in
            match
              loop input maxIterations targetOutletConcentration
                   requiredEfficiency (fuelFor maxIterations)
                   {| Vars.log := log;
                      Vars.currentInput := currentInput;
                      Vars.bestResults := None;
                      Vars.bestInput := None;
                      Vars.iterations := 1;
                      Vars.convergenceReached := false;
                      Vars.results := results |}
            with
            | None => None
            | Some (Throw e) => Some (Throw e)
            | Some NotANumber => Some NotANumber
            | Some (Ok v) => Some (Ok (finish maxIterations emissionLimits v))
            end
        end
  end.

(** The default value of the parameter [maxIterations]. *)
Definition defaultMaxIterations : Q := 20.

Definition shouldOptimizeForCompliance (input : CalculatorInput)
  : Outcome bool :=
  let! preliminaryResults := Calculator.calculateSprayTower input in
  Ok (negb (emissionLimitsMet (complianceStatus preliminaryResults))).

End WithRuntime.
End ComplianceOptimizer.

(** ** The control flow of the optimizer over binary64

    What decides the control flow of [optimizeForCompliance] once the
    pipeline evaluates without error, for a pollutant with the entry
    [limit] under the EU framework: the outlet concentration
    (performance.ts), its comparison with the limit
    (advanced-calculations.ts), the required efficiency and the loop
    (compliance-optimizer.ts), on the numbers JavaScript computes with.
    The L/G ratio, the gas velocity and the droplet size, which the
    strategies also change, do not enter the outlet concentration and are
    left out, with the log. *)

Module Binary64.
#[local] Set Warnings "-inexact-float".
Local Open Scope float_scope.

(** [if (x)] on a number: 0 and NaN are falsy. *)
Definition truthy (x : float) : bool :=
  negb (PrimFloat.eqb x 0 || PrimFloat.is_nan x).

Definition outletConcentration (inletConcentration targetEfficiency : float)
  : float :=
  inletConcentration * (1 - targetEfficiency).

(** [emissionLimitsMet] of [calculateComplianceStatus]. *)
Definition emissionLimitsMet (limit outletConcentration : float) : bool :=
  if truthy limit && (limit <? outletConcentration) then false else true.

Definition targetOutletConcentration (emissionLimits : float) : float :=
  emissionLimits * 0.9.

Definition requiredEfficiency (emissionLimits inletConcentration : float)
  : float :=
  1 - (targetOutletConcentration emissionLimits / inletConcentration).

Record Vars : Type := {
  targetEfficiency : float;   (* of [currentInput.pollutant] *)
  bestOutlet : option float;  (* [bestResults.outletConcentration] *)
  iterations : float;
  convergenceReached : bool;
  outlet : float;             (* [results.outletConcentration] *)
}.

Section Loop.
Variables limit inletConcentration maxIterations : float.

Definition loopBody (v : Vars) : Vars * ComplianceOptimizer.Completion :=
  let targetEfficiency :=
    if iterations v <=? maxIterations * 0.4
    then requiredEfficiency limit inletConcentration
    else targetEfficiency v in
  let outlet := outletConcentration inletConcentration targetEfficiency in
  if emissionLimitsMet limit outlet then
    ({| targetEfficiency := targetEfficiency;
        bestOutlet := Some outlet;
        iterations := iterations v;
        convergenceReached := true;
        outlet := outlet |}, ComplianceOptimizer.Break)
  else
    let improves :=
      match bestOutlet v with
      | None => true
      | Some best => outlet <? best
      end in
    let bestOutlet := if improves then Some outlet else bestOutlet v in
    ({| targetEfficiency := targetEfficiency;
        bestOutlet := bestOutlet;
        iterations := iterations v;
        convergenceReached := convergenceReached v;
        outlet := outlet |},
     if (5 <? iterations v) && (targetOutletConcentration limit * 2 <? outlet)
     then ComplianceOptimizer.Break
     else ComplianceOptimizer.Normal).

Definition increment (v : Vars) : Vars :=
  {| targetEfficiency := targetEfficiency v;
     bestOutlet := bestOutlet v;
     iterations := iterations v + 1;
     convergenceReached := convergenceReached v;
     outlet := outlet v |}.

Fixpoint loop (fuel : nat) (v : Vars) : option Vars :=
  match fuel with
  | O => None
  | S fuel' =>
      if iterations v <=? maxIterations then
        match loopBody v with
        | (v', ComplianceOptimizer.Break) => Some v'
        | (v', ComplianceOptimizer.Normal) => loop fuel' (increment v')
        end
      else Some v
  end.

End Loop.

(** The fields [iterations], [convergenceReached] and
    [results.outletConcentration] of what [optimizeForCompliance]
    returns. *)
Record Returned : Type := {
  returnedIterations : float;
  returnedConvergence : bool;
  returnedOutlet : float;
}.

Definition optimizeForCompliance
  (limit inletConcentration targetEfficiency maxIterations : float)
  (fuel : nat) : option Returned :=
  let outlet := outletConcentration inletConcentration targetEfficiency in
  if emissionLimitsMet limit outlet then
    Some {| returnedIterations := 0;
            returnedConvergence := true;
            returnedOutlet := outlet |}
  else
    match
      loop limit inletConcentration maxIterations fuel
        {| targetEfficiency := targetEfficiency;
           bestOutlet := None;
           iterations := 1;
           convergenceReached := false;
           outlet := outlet |}
    with
    | None => None
    | Some v =>
        Some {| returnedIterations := iterations v;
                returnedConvergence := convergenceReached v;
                returnedOutlet :=
                  match negb (convergenceReached v), bestOutlet v with
                  | true, Some best => best
                  | _, _ => Binary64.outlet v
                  end |}
    end.

End Binary64.

(** ** The first pass of the optimizer under rounding

    The three expressions that make the outlet concentration of the first
    pass, [emissionLimits * 0.9] and
    [1 - (targetOutletConcentration / input.pollutant.inletConcentration)]
    of compliance-optimizer.ts and
    [pollutant.inletConcentration * (1 - pollutant.targetEfficiency)] of
    performance.ts, with the literal 0.9 and the result of every operation
    rounded by [rnd]. *)

Module Rounded.
Section WithRounding.
Variable rnd : Q -> Q.

Definition targetOutletConcentration (emissionLimits : Q) : Q :=
  rnd (emissionLimits * rnd 0.9).

Definition requiredEfficiency (emissionLimits inletConcentration : Q) : Q :=
  rnd (1 - rnd (targetOutletConcentration emissionLimits / inletConcentration)).

Definition outletConcentration (inletConcentration targetEfficiency : Q) : Q :=
  rnd (inletConcentration * rnd (1 - targetEfficiency)).

End WithRounding.
End Rounded.

(** ** lib/calculations/calculator.ts, the entry point with optimization *)

Module EnhancedCalculator.

Record OptimizationInfo : Type := {
  wasOptimized : bool;
  iterations : Z;
  convergenceReached : bool;
  optimizationLog : list string;
  originalInput : CalculatorInput;
  optimizedInput : CalculatorInput;
}.

(** [EnhancedCalculationResults extends CalculationResults]: the fields of
    the spread [...results] are kept together in [results]. *)
Record EnhancedCalculationResults : Type := {
  results : CalculationResults;
  optimizationInfo : option OptimizationInfo;
}.

Section WithRuntime.
Context `{JsRuntime}.

(** [None] when the optimizer runs out of fuel, as for
    [optimizeForCompliance]. *)
Definition calculateSprayTowerWithCompliance (input : CalculatorInput)
  : option (Outcome EnhancedCalculationResults) :=
  match ComplianceOptimizer.shouldOptimizeForCompliance input with
  | Throw e => Some (Throw e)
  | NotANumber => Some NotANumber
  | Ok needsOptimization =>
      if negb needsOptimization then
        match Calculator.calculateSprayTower input with
        | Throw e => Some (Throw e)
        | NotANumber => Some NotANumber
        | Ok results =>
            Some (Ok
              {| results := results;
                 optimizationInfo :=
                   Some {| wasOptimized := false;
                           iterations := 0;
                           convergenceReached := true;
                           optimizationLog :=
                             ["Design meets regulatory requirements without optimization"];
                           originalInput := input;
                           optimizedInput := input |} |})
        end
      else
        match
          ComplianceOptimizer.optimizeForCompliance input
            ComplianceOptimizer.defaultMaxIterations
        with
        | None => None
        | Some (Throw e) => Some (Throw e)
        | Some NotANumber => Some NotANumber
        | Some (Ok optimizationResult) =>
            Some (Ok
              {| results := ComplianceOptimizer.results optimizationResult;
                 optimizationInfo :=
                   Some {| wasOptimized := true;
                           iterations :=
                             ComplianceOptimizer.iterations optimizationResult;
                           convergenceReached :=
                             ComplianceOptimizer.convergenceReached
                               optimizationResult;
                           optimizationLog :=
                             ComplianceOptimizer.optimizationLog
                               optimizationResult;
                           originalInput := input;
                           optimizedInput :=
                             ComplianceOptimizer.optimizedInput
                               optimizationResult |} |})
        end
  end.

End WithRuntime.
End EnhancedCalculator.

(** ** lib/validation.ts *)

Module ValidationError.
Inductive Severity : Type := error | warning.
Record t : Type := {
  field : string;
  message : string;
  type : Severity;
}.
End ValidationError.

Module Range.
Record t : Type := { min : Q; max : Q }.
End Range.

Module Validation.

(** [VALIDATION_RANGES] of lib/constants.ts. *)
Definition gasFlowRateRange : Range.t := {| Range.min := 100; Range.max := 1000000 |}.
Definition temperatureRange : Range.t := {| Range.min := 0; Range.max := 200 |}.
Definition pressureRange : Range.t := {| Range.min := 50; Range.max := 500 |}.
Definition targetEfficiencyRange : Range.t := {| Range.min := 0.1; Range.max := 0.99 |}.
Definition lgRatioRange : Range.t := {| Range.min := 0.001; Range.max := 0.1 |}.
Definition gasVelocityRange : Range.t := {| Range.min := 1; Range.max := 10 |}.
Definition dropletSizeRange : Range.t := {| Range.min := 0.1; Range.max := 5 |}.

(** [value < range.min || value > range.max] *)
Definition outside (value : Q) (range : Range.t) : bool :=
  (value <? Range.min range) || (value >? Range.max range).

(** [errors.push(entry)] *)
Definition pushEntry (errors : list ValidationError.t) (entry : ValidationError.t)
  : list ValidationError.t :=
  (errors ++ [entry])%list.

Definition isError (entry : ValidationError.t) : bool :=
  match ValidationError.type entry with
  | ValidationError.error => true
  | ValidationError.warning => false
  end.

Definition isWarning (entry : ValidationError.t) : bool :=
  match ValidationError.type entry with
  | ValidationError.error => false
  | ValidationError.warning => true
  end.

Definition hasErrors (errors : list ValidationError.t) : bool :=
  existsb isError errors.

Definition hasWarnings (errors : list ValidationError.t) : bool :=
  existsb isWarning errors.

Section WithRuntime.
Context `{JsRuntime}.

Definition validateInput (input : CalculatorInput) : list ValidationError.t :=
  let errors : list ValidationError.t := [] in
  let gasFlowRate := gasFlowRate (gasStream input) in
  let temperature := temperature (gasStream input) in
  let pressure := pressure (gasStream input) in
  let errors :=
    if gasFlowRate <=? 0 then
      pushEntry errors
        {| ValidationError.field := "gasFlowRate";
           ValidationError.message := "Gas flow rate must be greater than 0";
           ValidationError.type := ValidationError.error |}
    else if outside gasFlowRate gasFlowRateRange then
      pushEntry errors
        {| ValidationError.field := "gasFlowRate";
           ValidationError.message :=
             "Gas flow rate should be between "
             +:+ Number_toString (Range.min gasFlowRateRange) +:+ " and "
             +:+ Number_toString (Range.max gasFlowRateRange) +:+ " Nm³/h";
           ValidationError.type := ValidationError.warning |}
    else errors in
  let errors :=
    if outside temperature temperatureRange then
      pushEntry errors
        {| ValidationError.field := "temperature";
           ValidationError.message :=
             "Temperature should be between "
             +:+ Number_toString (Range.min temperatureRange) +:+ " and "
             +:+ Number_toString (Range.max temperatureRange) +:+ " °C";
           ValidationError.type := ValidationError.warning |}
    else errors in
  let errors :=
    if pressure <=? 0 then
      pushEntry errors
        {| ValidationError.field := "pressure";
           ValidationError.message := "Pressure must be greater than 0";
           ValidationError.type := ValidationError.error |}
    else if outside pressure pressureRange then
      pushEntry errors
        {| ValidationError.field := "pressure";
           ValidationError.message :=
             "Pressure should be between "
             +:+ Number_toString (Range.min pressureRange) +:+ " and "
             +:+ Number_toString (Range.max pressureRange) +:+ " kPa";
           ValidationError.type := ValidationError.warning |}
    else errors in
  let type := type (pollutant input) in
  let inletConcentration := inletConcentration (pollutant input) in
  let targetEfficiency := targetEfficiency (pollutant input) in
  let errors :=
    if isFalsy (objectGet POLLUTANT_LIBRARY type) then
      pushEntry errors
        {| ValidationError.field := "pollutantType";
           ValidationError.message := "Invalid pollutant type selected";
           ValidationError.type := ValidationError.error |}
    else errors in
  let errors :=
    if inletConcentration <=? 0 then
      pushEntry errors
        {| ValidationError.field := "inletConcentration";
           ValidationError.message :=
             "Inlet concentration must be greater than 0";
           ValidationError.type := ValidationError.error |}
    else errors in
  let errors :=
    if outside targetEfficiency targetEfficiencyRange then
      pushEntry errors
        {| ValidationError.field := "targetEfficiency";
           ValidationError.message :=
             "Target efficiency should be between "
             +:+ Number_toString (Range.min targetEfficiencyRange * 100)
             +:+ "% and "
             +:+ Number_toString (Range.max targetEfficiencyRange * 100)
             +:+ "%";
           ValidationError.type := ValidationError.error |}
    else errors in
  let lgRatio := lgRatio (tower input) in
  let gasVelocity := gasVelocity (tower input) in
  let dropletSize := dropletSize (tower input) in
  let liquidDensity := liquidDensity (tower input) in
  let liquidViscosity := liquidViscosity (tower input) in
  let nozzlePressure := nozzlePressure (tower input) in
  let errors :=
    if lgRatio <=? 0 then
      pushEntry errors
        {| ValidationError.field := "lgRatio";
           ValidationError.message := "L/G ratio must be greater than 0";
           ValidationError.type := ValidationError.error |}
    else if outside lgRatio lgRatioRange then
      pushEntry errors
        {| ValidationError.field := "lgRatio";
           ValidationError.message :=
             "L/G ratio should be between "
             +:+ Number_toString (Range.min lgRatioRange) +:+ " and "
             +:+ Number_toString (Range.max lgRatioRange) +:+ " m³/m³";
           ValidationError.type := ValidationError.warning |}
    else errors in
  let errors :=
    if gasVelocity <=? 0 then
      pushEntry errors
        {| ValidationError.field := "gasVelocity";
           ValidationError.message := "Gas velocity must be greater than 0";
           ValidationError.type := ValidationError.error |}
    else if outside gasVelocity gasVelocityRange then
      pushEntry errors
        {| ValidationError.field := "gasVelocity";
           ValidationError.message :=
             "Gas velocity should be between "
             +:+ Number_toString (Range.min gasVelocityRange) +:+ " and "
             +:+ Number_toString (Range.max gasVelocityRange) +:+ " m/s";
           ValidationError.type := ValidationError.warning |}
    else errors in
  let errors :=
    if gasVelocity >? 2.3 then
      pushEntry errors
        {| ValidationError.field := "gasVelocity";
           ValidationError.message :=
             "Gas velocity above 2.3 m/s may cause droplet entrainment";
           ValidationError.type := ValidationError.warning |}
    else errors in
  let errors :=
    if dropletSize <=? 0 then
      pushEntry errors
        {| ValidationError.field := "dropletSize";
           ValidationError.message := "Droplet size must be greater than 0";
           ValidationError.type := ValidationError.error |}
    else if outside dropletSize dropletSizeRange then
      pushEntry errors
        {| ValidationError.field := "dropletSize";
           ValidationError.message :=
             "Droplet size should be between "
             +:+ Number_toString (Range.min dropletSizeRange) +:+ " and "
             +:+ Number_toString (Range.max dropletSizeRange) +:+ " mm";
           ValidationError.type := ValidationError.warning |}
    else errors in
  let errors :=
    if liquidDensity <=? 0 then
      pushEntry errors
        {| ValidationError.field := "liquidDensity";
           ValidationError.message := "Liquid density must be greater than 0";
           ValidationError.type := ValidationError.error |}
    else errors in
  let errors :=
    if liquidViscosity <=? 0 then
      pushEntry errors
        {| ValidationError.field := "liquidViscosity";
           ValidationError.message :=
             "Liquid viscosity must be greater than 0";
           ValidationError.type := ValidationError.error |}
    else errors in
  let errors :=
    if nozzlePressure <=? 0 then
      pushEntry errors
        {| ValidationError.field := "nozzlePressure";
           ValidationError.message := "Nozzle pressure must be greater than 0";
           ValidationError.type := ValidationError.error |}
    else errors in
  errors.

End WithRuntime.
End Validation.

(** ** lib/ai/data-validator.ts *)

Module DataValidator.






End DataValidator.

(** The input under another unit system. *)
Definition withUnitSystem (input : CalculatorInput) (units : UnitSystem)
  : CalculatorInput :=
  {| gasStream := gasStream input;
     pollutant := pollutant input;
     tower := tower input;
     settings :=
       {| unitSystem := units;
          regulatoryFramework := regulatoryFramework (settings input);
          applicationType := applicationType (settings input) |} |}.

(** ** Definitions used to state the properties *)

(** A runtime of rational stand-ins for the host functions, to run the
    model on concrete inputs.  No property below depends on it. *)
Definition rationalRuntime : JsRuntime :=
  {| Math_log := fun x => Qred (x - 1);
     Math_sqrt := fun x => Qred ((x + 1) / 2);
     Math_exp := fun x => Qred (1 + x);
     Math_pow := fun x y => Qred (1 + y * (x - 1));
     toFixed := fun _ _ => "?";
     Number_toString := fun _ => "?" |}.

(** The scenario of a design that does not comply: SO2 at 1500 mg/Nm3 with
    a target efficiency of 0.5, under the EU framework. *)
Definition nonCompliantInput : CalculatorInput :=
  with_pollutant DEFAULT_VALUES
    (with_targetEfficiency (pollutant DEFAULT_VALUES) 0.5).

(** An input whose pollutant is not in the library. *)
Definition unknownPollutantInput : CalculatorInput :=
  with_pollutant DEFAULT_VALUES
    {| type := "CO2"; inletConcentration := 1500; targetEfficiency := 0.9 |}.

(** An input whose pollutant type is not in the library either, but names
    a property every object inherits. *)
Definition inheritedNameInput : CalculatorInput :=
  with_pollutant DEFAULT_VALUES
    {| type := "constructor"; inletConcentration := 1500;
       targetEfficiency := 0.9 |}.

(** The largest magnitude of an inlet concentration, in mg/Nm3, for which
    the statements about the first pass of the optimizer are made: up to it
    the rounding of [1 - (1 - target / inlet)] in binary64 moves the outlet
    concentration by less than a thousandth of a mg/Nm3. *)
Definition largestInlet : Q := 1000000000000.

(** 2^-53, the unit roundoff of binary64. *)
Definition unitRoundoff : Q := 1 # 9007199254740992.

(** What is used of rounding to nearest in binary64: the relative error of
    a result is at most the unit roundoff (overflow and underflow
    aside). *)
Definition RoundsLikeBinary64 (rnd : Q -> Q) : Prop :=
  forall x : Q, Qabs (rnd x - x) <= unitRoundoff * Qabs x.

(** The outlet concentration the first pass evaluates to under rounding. *)
Definition roundedFirstPassOutlet
  (rnd : Q -> Q) (emissionLimits inletConcentration : Q) : Q :=
  Rounded.outletConcentration rnd inletConcentration
    (Rounded.requiredEfficiency rnd emissionLimits inletConcentration).

(** The library entry of SO2. *)
Definition so2 : PollutantData :=
  {| henryConstant := 1230; diffusivity := 0.000012; molarMass := 64.066 |}.


(** The design that does not comply under the EU framework, under the US
    one. *)
Definition usInput : CalculatorInput :=
  {| gasStream := gasStream nonCompliantInput;
     pollutant := pollutant nonCompliantInput;
     tower := tower nonCompliantInput;
     settings :=
       {| unitSystem := metric; regulatoryFramework := US;
          applicationType := gas_absorption |} |}.

(** The default tower with a KGa override of 0.05 and the nozzle type
    [name]. *)
Definition towerWithNozzle (name : string) : TowerParameters :=
  {| lgRatio := lgRatio (tower DEFAULT_VALUES);
     liquidDensity := liquidDensity (tower DEFAULT_VALUES);
     liquidViscosity := liquidViscosity (tower DEFAULT_VALUES);
     gasVelocity := gasVelocity (tower DEFAULT_VALUES);
     dropletSize := dropletSize (tower DEFAULT_VALUES);
     nozzleType := Some name;
     nozzlePressure := nozzlePressure (tower DEFAULT_VALUES);
     kgaOverride := Some 0.05;
     frictionFactor := frictionFactor (tower DEFAULT_VALUES);
     pumpHead := pumpHead (tower DEFAULT_VALUES);
     naohStoichiometry := naohStoichiometry (tower DEFAULT_VALUES) |}.

(** The [n]-th iterate of the terminal-velocity recurrence started at the
    initial guess 1.0 m/s. *)
Definition velocityIterate `{JsRuntime}
  (dropletDiameter gasDensity gasViscosity liquidDensity : Q) (n : nat) : Q :=
  Nat.iter n
    (AdvancedCalculations.newVelocity dropletDiameter gasDensity gasViscosity
       liquidDensity)
    1.0.

(** The amount removed in mol/h as the units give it: Nm3/h times mg/Nm3
    is mg/h, a thousandth of that is g/h, and g/h over g/mol is mol/h. *)
Definition molesPerHour (standardFlow concentrationDifference molarMass : Q)
  : Q :=
  (standardFlow * concentrationDifference / 1000) / molarMass.

(** The input with its two optional overrides replaced. *)
Definition withOverrides
  (input : CalculatorInput) (viscosity kga : option Q) : CalculatorInput :=
  {| gasStream :=
       {| gasFlowRate := gasFlowRate (gasStream input);
          temperature := temperature (gasStream input);
          pressure := pressure (gasStream input);
          gasViscosity := viscosity |};
     pollutant := pollutant input;
     tower :=
       {| lgRatio := lgRatio (tower input);
          liquidDensity := liquidDensity (tower input);
          liquidViscosity := liquidViscosity (tower input);
          gasVelocity := gasVelocity (tower input);
          dropletSize := dropletSize (tower input);
          nozzleType := nozzleType (tower input);
          nozzlePressure := nozzlePressure (tower input);
          kgaOverride := kga;
          frictionFactor := frictionFactor (tower input);
          pumpHead := pumpHead (tower input);
          naohStoichiometry := naohStoichiometry (tower input) |};
     settings := settings input |}.

(** *** The passes of the optimizer *)

Section OptimizerPasses.
Context `{JsRuntime}.
Variables (input : CalculatorInput) (maxIterations : Q).

(** [targetOutletConcentration] and [requiredEfficiency] as
    [optimizeForCompliance] computes them from its input; 0 stands in for a
    limit that is not a number. *)
Definition targetOutlet : Q :=
  match
    ComplianceOptimizer.getEmissionLimits
      (regulatoryFramework (settings input)) (type (pollutant input))
  with
  | Ok emissionLimits => emissionLimits * 0.9
  | _ => 0
  end.

Definition requiredEfficiencyFor : Q :=
  1 - (targetOutlet / inletConcentration (pollutant input)).

(** The parameter set pass [n] of the loop evaluates; pass 0 stands for the
    evaluation of the unmodified input before the loop. *)
Fixpoint parameterSet (n : nat) : CalculatorInput :=
  match n with
  | O => input
  | S n' =>
      fst (ComplianceOptimizer.adjust input maxIterations
             requiredEfficiencyFor (Z.of_nat n) (parameterSet n'))
  end.

(** Among passes 1 to [n], [best] is the result of one of them, [bestInput]
    is its parameter set, and no pass has a lower outlet concentration. *)
Definition BestOf
  (n : nat) (bestInput : CalculatorInput) (best : CalculationResults) : Prop :=
  exists j : nat,
    (1 <= j <= n)%nat
    /\ bestInput = parameterSet j
    /\ Calculator.calculateSprayTower (parameterSet j) = Ok best
    /\ forall (i : nat) (r : CalculationResults),
         (1 <= i <= n)%nat ->
         Calculator.calculateSprayTower (parameterSet i) = Ok r ->
         outletConcentration best <= outletConcentration r.

(** What the loop variables hold about the best result after [n] passes,
    [initial] being the result of the evaluation before the loop. *)
Definition BestTracked
  (initial : CalculationResults) (n : nat) (v : ComplianceOptimizer.Vars.t)
  : Prop :=
  match n with
  | O =>
      ComplianceOptimizer.Vars.bestResults v = None
      /\ ComplianceOptimizer.Vars.bestInput v = None
      /\ ComplianceOptimizer.Vars.results v = initial
      /\ ComplianceOptimizer.Vars.currentInput v = input
  | S _ =>
      exists bestInput best,
        ComplianceOptimizer.Vars.bestResults v = Some best
        /\ ComplianceOptimizer.Vars.bestInput v = Some bestInput
        /\ BestOf n bestInput best
  end.

(** The loop variables on entry to pass [n + 1]. *)
Definition AtPass
  (initial : CalculationResults) (n : nat) (v : ComplianceOptimizer.Vars.t)
  : Prop :=
  ComplianceOptimizer.Vars.iterations v = Z.of_nat (S n)
  /\ ComplianceOptimizer.Vars.currentInput v = parameterSet n
  /\ ComplianceOptimizer.Vars.convergenceReached v = false
  /\ BestTracked initial n v.

(** The three ways the loop is left after [n] passes, told by the value of
    [iterations] it leaves: the budget is exhausted ([iterations] has run
    past [maxIterations]); pass [n] is within the budget and reports
    divergence; pass [n] is within the budget and complies. *)
Definition Exhausted (n : nat) (iterations : Z) : Prop :=
  iterations = Z.of_nat (S n)
  /\ ~ inject_Z (Z.of_nat (S n)) <= maxIterations.

Definition Diverged (n : nat) (iterations : Z) : Prop :=
  iterations = Z.of_nat n
  /\ inject_Z (Z.of_nat n) <= maxIterations
  /\ (5 < n)%nat
  /\ exists r,
       Calculator.calculateSprayTower (parameterSet n) = Ok r
       /\ targetOutlet * 2 < outletConcentration r.

Definition Complied (n : nat) (iterations : Z) : Prop :=
  iterations = Z.of_nat n
  /\ inject_Z (Z.of_nat n) <= maxIterations
  /\ (1 <= n)%nat
  /\ exists r,
       Calculator.calculateSprayTower (parameterSet n) = Ok r
       /\ emissionLimitsMet (complianceStatus r) = true.

End OptimizerPasses.

(** ** Comparisons *)

Lemma gtb_true (x y : Q) : (x >? y) = true <-> y < x.
Proof.
  unfold gtb. rewrite negb_true_iff, <- not_true_iff_false, Qle_bool_iff.
  split; [apply Qnot_le_lt | apply Qlt_not_le].
Qed.

Lemma gtb_false (x y : Q) : (x >? y) = false <-> x <= y.
Proof.
  unfold gtb. rewrite negb_false_iff. apply Qle_bool_iff.
Qed.

Lemma ltb_true (x y : Q) : (x <? y) = true <-> x < y.
Proof. apply gtb_true. Qed.

Lemma ltb_false (x y : Q) : (x <? y) = false <-> y <= x.
Proof. apply gtb_false. Qed.

Lemma gtb_of_lt (x y : Q) : y < x -> (x >? y) = true.
Proof. apply gtb_true. Qed.

Lemma gtb_of_le (x y : Q) : x <= y -> (x >? y) = false.
Proof. apply gtb_false. Qed.

(** ** Objects used as tables *)

Lemma objectGet_own {R : Type} (object : gmap string R) (key : string) (r : R) :
  object !! key = Some r -> objectGet object key = Own r.
Proof. intros Hown. unfold objectGet. now rewrite Hown. Qed.

Lemma objectGet_undefined {R : Type} (object : gmap string R) (key : string) :
  object !! key = None -> inheritedName key = false ->
  objectGet object key = Undefined.
Proof. intros Hnone Hname. unfold objectGet. now rewrite Hnone, Hname. Qed.

Lemma objectGet_inherited {R : Type} (object : gmap string R) (key : string) :
  object !! key = None -> inheritedName key = true ->
  objectGet object key = Inherited.
Proof. intros Hnone Hname. unfold objectGet. now rewrite Hnone, Hname. Qed.

Lemma isFalsy_false {R : Type} (object : gmap string R) (key : string) :
  isFalsy (objectGet object key) = false ->
  is_Some (object !! key) \/ inheritedName key = true.
Proof.
  unfold objectGet. destruct (object !! key) as [r|]; [now left; exists r|].
  destruct (inheritedName key); [now right | discriminate].
Qed.

Lemma inheritedName_In (key : string) :
  inheritedName key = true -> In key Object_prototype_names.
Proof.
  unfold inheritedName. intros Hname.
  apply existsb_exists in Hname as (name & Hin & Heq).
  apply String.eqb_eq in Heq. now subst name.
Qed.

(** No table of the program has a key that is an inherited name, and no
    inherited name is the empty string. *)
Lemma inheritedName_no_key (key : string) :
  inheritedName key = true ->
  POLLUTANT_LIBRARY !! key = None
  /\ NOZZLE_LIBRARY !! key = None
  /\ AdvancedCalculations.euLimits !! key = None
  /\ ComplianceOptimizer.euLimits !! key = None
  /\ ComplianceOptimizer.usLimits !! key = None
  /\ String.eqb key "" = false.
Proof.
  intros Hname. apply inheritedName_In in Hname. cbn [In Object_prototype_names] in Hname.
  repeat (destruct Hname as [<- | Hname]; [repeat split|]).
  contradiction.
Qed.

(** ** The performance calculation *)

Section PerformanceProperties.
Context `{JsRuntime}.

Variables (pollutant : PollutantProperties) (tower : TowerParameters).
Variables gasFlowRate gasVelocity towerDiameter gasDensity liquidRate
          overallKGa towerArea operatingGasFlow operatingTemp : Q.

Local Abbreviation run :=
  (Performance.calculatePerformance pollutant tower gasFlowRate gasVelocity
     towerDiameter gasDensity liquidRate overallKGa towerArea operatingGasFlow
     operatingTemp).

(** With a pollutant of the library the calculation returns, and its
    fields are the local constants of the function. *)
Lemma calculatePerformance_known (data : PollutantData) :
  POLLUTANT_LIBRARY !! type pollutant = Some data ->
  exists r, run = Ok r
    /\ Performance.outletConcentration r
       = inletConcentration pollutant * (1 - targetEfficiency pollutant)
    /\ Performance.numberOfTransferUnits r
       = (if Performance.outletConcentration r >? 0
          then Math_log (inletConcentration pollutant
                         / Performance.outletConcentration r)
          else 0)
    /\ Performance.requiredHeight r
       = (let volume :=
            Performance.sprayZoneVolume
              (Performance.molarGasFlow operatingGasFlow operatingTemp)
              (Performance.numberOfTransferUnits r) overallKGa in
          if (towerArea >? 0) && (volume >? 0) then volume / towerArea else 0)
    /\ Performance.molesRemoved r
       = (gasFlowRate
          * (inletConcentration pollutant - Performance.outletConcentration r)
          / 1000) / molarMass data * 1000
    /\ Performance.naohConsumption r
       = Performance.molesRemoved r * naohStoichiometry tower.
Proof.
  intros Hdata. unfold Performance.calculatePerformance.
  rewrite (objectGet_own _ _ _ Hdata). cbn [getProp bind].
  eexists. split; [reflexivity|]. cbn. repeat split.
Qed.

(** With a pollutant type that reads as [undefined] it throws when it
    reads [molarMass]. *)
Lemma calculatePerformance_unknown :
  POLLUTANT_LIBRARY !! type pollutant = None ->
  inheritedName (type pollutant) = false ->
  run = Throw (TypeError
                 "Cannot read properties of undefined (reading 'molarMass')").
Proof.
  intros Hnone Hname. unfold Performance.calculatePerformance.
  rewrite (objectGet_undefined _ _ Hnone Hname). reflexivity.
Qed.

(** With one named after an inherited property nothing is thrown, and the
    amount removed is NaN. *)
Lemma calculatePerformance_inherited :
  POLLUTANT_LIBRARY !! type pollutant = None ->
  inheritedName (type pollutant) = true ->
  run = NotANumber.
Proof.
  intros Hnone Hname. unfold Performance.calculatePerformance.
  rewrite (objectGet_inherited _ _ Hnone Hname). reflexivity.
Qed.

(** C1 (mass balance).  For an inlet concentration above 0 and a target
    efficiency strictly between 0 and 1 the performance calculation returns
    [outletConcentration = inletConcentration * (1 - targetEfficiency)],
    with [0 <= outletConcentration <= inletConcentration].  The outlet is
    the substitution of the target efficiency: the formula has no
    occurrence of [overallKGa], which is arbitrary here. *)
Theorem mass_balance (data : PollutantData) :
  POLLUTANT_LIBRARY !! type pollutant = Some data ->
  0 < inletConcentration pollutant ->
  0 < targetEfficiency pollutant ->
  targetEfficiency pollutant < 1 ->
  exists r, run = Ok r
    /\ Performance.outletConcentration r
       = inletConcentration pollutant * (1 - targetEfficiency pollutant)
    /\ 0 <= Performance.outletConcentration r
    /\ Performance.outletConcentration r <= inletConcentration pollutant.
Proof.
  intros Hdata Hin He0 He1.
  destruct (calculatePerformance_known data Hdata) as (r & Hrun & Hout & _).
  exists r. rewrite Hout. repeat split; [exact Hrun | nra | nra].
Qed.



(** The reported [molesRemoved] is a thousand times the amount in mol/h,
    and [naohConsumption] is [molesRemoved] times the stoichiometric
    ratio. *)
Lemma moles_removed_scaled (data : PollutantData) :
  POLLUTANT_LIBRARY !! type pollutant = Some data ->
  ~ molarMass data == 0 ->
  exists r, run = Ok r
    /\ Performance.molesRemoved r
       == 1000 * molesPerHour gasFlowRate
                   (inletConcentration pollutant
                    - Performance.outletConcentration r)
                   (molarMass data)
    /\ Performance.naohConsumption r
       = Performance.molesRemoved r * naohStoichiometry tower.
Proof.
  intros Hdata Hmass.
  destruct (calculatePerformance_known data Hdata)
    as (r & Hrun & _ & _ & _ & Hmoles & Hnaoh).
  exists r. split; [exact Hrun|]. split; [|exact Hnaoh].
  rewrite Hmoles. unfold molesPerHour. field. exact Hmass.
Qed.

End PerformanceProperties.

Section PerformanceAtDefaults.
Context `{JsRuntime}.

(** C6 (moles removed and reagent consumption), at the default input:
    20000 Nm3/h of gas from 1500 to 150 mg/Nm3 of SO2 is 27 kg/h, which is
    27000 / 64.066 (about 421.4) mol/h.  The calculation reports a thousand
    times that, 27000000 / 64.066 (about 421440), as [molesRemoved], and
    the same figure times the stoichiometric ratio 1 as [naohConsumption]. *)
Theorem moles_removed_default_input
  (gasVelocity towerDiameter gasDensity liquidRate overallKGa towerArea
   operatingGasFlow operatingTemp : Q) :
  exists r,
    Performance.calculatePerformance
      (pollutant DEFAULT_VALUES) (tower DEFAULT_VALUES)
      (gasFlowRate (gasStream DEFAULT_VALUES)) gasVelocity towerDiameter
      gasDensity liquidRate overallKGa towerArea operatingGasFlow
      operatingTemp = Ok r
    /\ Performance.outletConcentration r == 150
    /\ molesPerHour 20000 (1500 - Performance.outletConcentration r) 64.066
       == 27000 / 64.066
    /\ Performance.molesRemoved r == 27000000 / 64.066
    /\ Performance.naohConsumption r == 27000000 / 64.066
    /\ ~ Performance.molesRemoved r
         == molesPerHour 20000 (1500 - Performance.outletConcentration r)
              64.066.
Proof.
  destruct (calculatePerformance_known
              (pollutant DEFAULT_VALUES) (tower DEFAULT_VALUES)
              (gasFlowRate (gasStream DEFAULT_VALUES)) gasVelocity
              towerDiameter gasDensity liquidRate overallKGa towerArea
              operatingGasFlow operatingTemp
              {| henryConstant := 1230; diffusivity := 0.000012;
                 molarMass := 64.066 |} eq_refl)
    as (r & Hrun & Hout & _ & _ & Hmoles & Hnaoh).
  exists r. split; [exact Hrun|].
  rewrite Hnaoh, Hmoles, Hout. cbn. unfold molesPerHour.
  repeat split; try reflexivity. intros Heq. vm_compute in Heq. discriminate.
Qed.

End PerformanceAtDefaults.

(** ** The compliance evaluator *)

Lemma euLimits_entries (pollutantType : string) (limit : Q) :
  AdvancedCalculations.euLimits !! pollutantType = Some limit ->
  limit = 200 \/ limit = 10 \/ limit = 50 \/ limit = 5.
Proof.
  unfold AdvancedCalculations.euLimits.
  rewrite !lookup_insert, lookup_empty.
  repeat case_decide; intros Hl; inversion Hl; tauto.
Qed.

Lemma euLimits_nonzero (pollutantType : string) (limit : Q) :
  AdvancedCalculations.euLimits !! pollutantType = Some limit ->
  Qeq_bool limit 0 = false.
Proof.
  intros Hl. destruct (euLimits_entries _ _ Hl) as [-> | [-> | [-> | ->]]];
    reflexivity.
Qed.

Lemma euLimits_positive (pollutantType : string) (limit : Q) :
  AdvancedCalculations.euLimits !! pollutantType = Some limit -> 0 < limit.
Proof.
  intros Hl. destruct (euLimits_entries _ _ Hl) as [-> | [-> | [-> | ->]]];
    reflexivity.
Qed.

(** A limit is exceeded only under the EU framework, by an outlet
    concentration above the entry of the pollutant. *)
Lemma emissionLimitsMet_false
  (framework : RegulatoryFramework) (outletConcentration pressure : Q)
  (pollutantType : string) :
  emissionLimitsMet
    (AdvancedCalculations.calculateComplianceStatus
       framework outletConcentration pressure pollutantType) = false ->
  framework = EU
  /\ exists limit,
       AdvancedCalculations.euLimits !! pollutantType = Some limit
       /\ limit < outletConcentration.
Proof.
  destruct framework; [|discriminate].
  unfold AdvancedCalculations.calculateComplianceStatus, objectGet.
  cbn [emissionLimitsMet].
  destruct (AdvancedCalculations.euLimits !! pollutantType) as [limit|] eqn:Hl;
    [|destruct (inheritedName pollutantType); discriminate].
  cbn [AdvancedCalculations.exceedsLimit].
  rewrite (euLimits_nonzero _ _ Hl). cbn [negb andb].
  destruct (outletConcentration >? limit) eqn:Hgt; [|discriminate].
  apply gtb_true in Hgt. intros _. split; [reflexivity|]. now exists limit.
Qed.

Lemma emissionLimitsMet_exceeded
  (outletConcentration pressure : Q) (pollutantType : string) (limit : Q) :
  AdvancedCalculations.euLimits !! pollutantType = Some limit ->
  limit < outletConcentration ->
  emissionLimitsMet
    (AdvancedCalculations.calculateComplianceStatus
       EU outletConcentration pressure pollutantType) = false.
Proof.
  intros Hl Hlt. unfold AdvancedCalculations.calculateComplianceStatus.
  cbn [emissionLimitsMet]. rewrite (objectGet_own _ _ _ Hl).
  cbn [AdvancedCalculations.exceedsLimit].
  rewrite (euLimits_nonzero _ _ Hl), (gtb_of_lt _ _ Hlt). reflexivity.
Qed.

Lemma emissionLimitsMet_within
  (outletConcentration pressure : Q) (pollutantType : string) (limit : Q) :
  AdvancedCalculations.euLimits !! pollutantType = Some limit ->
  outletConcentration <= limit ->
  emissionLimitsMet
    (AdvancedCalculations.calculateComplianceStatus
       EU outletConcentration pressure pollutantType) = true.
Proof.
  intros Hl Hle. unfold AdvancedCalculations.calculateComplianceStatus.
  cbn [emissionLimitsMet]. rewrite (objectGet_own _ _ _ Hl).
  cbn [AdvancedCalculations.exceedsLimit].
  rewrite (gtb_of_le _ _ Hle), andb_false_r. reflexivity.
Qed.

(** C8 (compliance default-met policy).  [emissionLimitsMet] is [false]
    exactly when the table the evaluator consults has an entry for the
    pollutant and the outlet concentration exceeds it.  Only the EU branch
    consults a table; the US branch has none, so no US entry exists.  With
    no entry for the pollutant the limits are reported as met. *)
Theorem compliance_default_met
  (framework : RegulatoryFramework) (outletConcentration pressure : Q)
  (pollutantType : string) :
  (emissionLimitsMet
     (AdvancedCalculations.calculateComplianceStatus
        framework outletConcentration pressure pollutantType) = false
   <-> framework = EU
       /\ exists limit,
            AdvancedCalculations.euLimits !! pollutantType = Some limit
            /\ limit < outletConcentration)
  /\ (framework = US
      \/ AdvancedCalculations.euLimits !! pollutantType = None ->
      emissionLimitsMet
        (AdvancedCalculations.calculateComplianceStatus
           framework outletConcentration pressure pollutantType) = true).
Proof.
  split.
  - split; [apply emissionLimitsMet_false|].
    intros [-> (limit & Hl & Hlt)]. now apply emissionLimitsMet_exceeded with limit.
  - intros Hnone.
    destruct (emissionLimitsMet _) eqn:Hmet; [reflexivity|].
    apply emissionLimitsMet_false in Hmet as [-> (limit & Hl & _)].
    destruct Hnone as [Hus | Hnone]; [discriminate | congruence].
Qed.

(** ** Overrides given as zero *)

Section ZeroOverrides.
Context `{JsRuntime}.

Lemma calculateMassTransfer_known
  (pollutant : PollutantProperties) (tower : TowerParameters)
  (gasDensity gasViscosity gasVelocity liquidFlux : Q) (data : PollutantData) :
  POLLUTANT_LIBRARY !! type pollutant = Some data ->
  exists r,
    MassTransfer.calculateMassTransfer pollutant tower gasDensity gasViscosity
      gasVelocity liquidFlux = Ok r
    /\ MassTransfer.overallKGa r
       = orElse (kgaOverride tower)
           (MassTransfer.calculatedKGa gasDensity gasVelocity liquidFlux).
Proof.
  intros Hdata. unfold MassTransfer.calculateMassTransfer.
  rewrite (objectGet_own _ _ _ Hdata). cbn [getProp bind].
  eexists. split; reflexivity.
Qed.

Lemma calculateMassTransfer_unknown
  (pollutant : PollutantProperties) (tower : TowerParameters)
  (gasDensity gasViscosity gasVelocity liquidFlux : Q) :
  POLLUTANT_LIBRARY !! type pollutant = None ->
  inheritedName (type pollutant) = false ->
  MassTransfer.calculateMassTransfer pollutant tower gasDensity gasViscosity
    gasVelocity liquidFlux
  = Throw (TypeError
             "Cannot read properties of undefined (reading 'diffusivity')").
Proof.
  intros Hnone Hname. unfold MassTransfer.calculateMassTransfer.
  rewrite (objectGet_undefined _ _ Hnone Hname). reflexivity.
Qed.

Lemma calculateMassTransfer_inherited
  (pollutant : PollutantProperties) (tower : TowerParameters)
  (gasDensity gasViscosity gasVelocity liquidFlux : Q) :
  POLLUTANT_LIBRARY !! type pollutant = None ->
  inheritedName (type pollutant) = true ->
  MassTransfer.calculateMassTransfer pollutant tower gasDensity gasViscosity
    gasVelocity liquidFlux
  = NotANumber.
Proof.
  intros Hnone Hname. unfold MassTransfer.calculateMassTransfer.
  rewrite (objectGet_inherited _ _ Hnone Hname). reflexivity.
Qed.

(** C10 (a zero override is an absent one).  With [gasViscosity] given as
    0 the effective gas viscosity is the default 1.85e-5 Pa.s; with
    [kgaOverride] given as 0 the overall KGa is the value of the empirical
    correlation; and the pipeline returns the same result for overrides
    given as 0 as for overrides left out. *)
Theorem zero_override_is_absent :
  (forall flow temp press : Q,
     GasProperties.effectiveGasViscosity
       (GasProperties.calculateGasProperties
          {| gasFlowRate := flow; temperature := temp; pressure := press;
             gasViscosity := Some 0 |})
     = MU_GAS_DEFAULT
     /\ MU_GAS_DEFAULT = 0.0000185)
  /\ (forall pollutant tower gasDensity gasViscosity gasVelocity liquidFlux
             data,
        POLLUTANT_LIBRARY !! type pollutant = Some data ->
        kgaOverride tower = Some 0 ->
        exists r,
          MassTransfer.calculateMassTransfer pollutant tower gasDensity
            gasViscosity gasVelocity liquidFlux = Ok r
          /\ MassTransfer.overallKGa r
             = MassTransfer.calculatedKGa gasDensity gasVelocity liquidFlux)
  /\ (forall input viscosity kga,
        Calculator.calculateSprayTower
          (withOverrides input (Some 0) kga)
        = Calculator.calculateSprayTower (withOverrides input None kga)
        /\ Calculator.calculateSprayTower
             (withOverrides input viscosity (Some 0))
           = Calculator.calculateSprayTower
               (withOverrides input viscosity None)).
Proof.
  split; [|split].
  - intros flow temp press. split; reflexivity.
  - intros pollutant tower gasDensity gasViscosity gasVelocity liquidFlux
           data Hdata Hzero.
    destruct (calculateMassTransfer_known pollutant tower gasDensity
                gasViscosity gasVelocity liquidFlux data Hdata)
      as (r & Hrun & Hkga).
    exists r. split; [exact Hrun|]. rewrite Hkga, Hzero. reflexivity.
  - intros input viscosity kga. split; reflexivity.
Qed.

End ZeroOverrides.

(** ** Unknown pollutants *)

Section UnknownPollutant.
Context `{JsRuntime}.

Lemma calculateSprayTower_unknown (input : CalculatorInput) :
  POLLUTANT_LIBRARY !! type (pollutant input) = None ->
  inheritedName (type (pollutant input)) = false ->
  Calculator.calculateSprayTower input
  = Throw (TypeError
             "Cannot read properties of undefined (reading 'diffusivity')").
Proof.
  intros Hnone Hname. unfold Calculator.calculateSprayTower.
  rewrite calculateMassTransfer_unknown by assumption. reflexivity.
Qed.

Lemma calculateSprayTower_inherited (input : CalculatorInput) :
  POLLUTANT_LIBRARY !! type (pollutant input) = None ->
  inheritedName (type (pollutant input)) = true ->
  Calculator.calculateSprayTower input = NotANumber.
Proof.
  intros Hnone Hname. unfold Calculator.calculateSprayTower.
  rewrite calculateMassTransfer_inherited by assumption. reflexivity.
Qed.

(** C7 (an unknown pollutant fails loudly), as the code has it.  When the
    pollutant type is not a key of [POLLUTANT_LIBRARY] and is not the name
    of a property every object inherits, the pipeline throws at the first
    read of a property of the missing entry and returns no result: so do
    the optimizer, which starts with a pipeline evaluation, and each of the
    two stages that read the table; no default stands in for the Henry
    constant, the diffusivity or the molar mass.  When it is such a name,
    the lookup gives the inherited value: nothing is thrown, and the
    pipeline and the optimizer return with NaN where the diffusivity and
    the molar mass enter. *)
Theorem unknown_pollutant_throws (input : CalculatorInput) :
  POLLUTANT_LIBRARY !! type (pollutant input) = None ->
  (inheritedName (type (pollutant input)) = false ->
   Calculator.calculateSprayTower input
   = Throw (TypeError
              "Cannot read properties of undefined (reading 'diffusivity')")
   /\ (forall maxIterations,
         ComplianceOptimizer.optimizeForCompliance input maxIterations
         = Some (Throw (TypeError
              "Cannot read properties of undefined (reading 'diffusivity')")))
   /\ (forall gasDensity gasViscosity gasVelocity liquidFlux,
         MassTransfer.calculateMassTransfer (pollutant input) (tower input)
           gasDensity gasViscosity gasVelocity liquidFlux
         = Throw (TypeError
              "Cannot read properties of undefined (reading 'diffusivity')"))
   /\ (forall gasFlowRate gasVelocity towerDiameter gasDensity liquidRate
              overallKGa towerArea operatingGasFlow operatingTemp,
         Performance.calculatePerformance (pollutant input) (tower input)
           gasFlowRate gasVelocity towerDiameter gasDensity liquidRate
           overallKGa towerArea operatingGasFlow operatingTemp
         = Throw (TypeError
              "Cannot read properties of undefined (reading 'molarMass')")))
  /\ (inheritedName (type (pollutant input)) = true ->
      Calculator.calculateSprayTower input = NotANumber
      /\ forall maxIterations,
           ComplianceOptimizer.optimizeForCompliance input maxIterations
           = Some NotANumber).
Proof.
  intros Hnone. split; intros Hname.
  - repeat split.
    + now apply calculateSprayTower_unknown.
    + intros maxIterations. unfold ComplianceOptimizer.optimizeForCompliance.
      cbv zeta. now rewrite calculateSprayTower_unknown.
    + intros. now apply calculateMassTransfer_unknown.
    + intros. now apply calculatePerformance_unknown.
  - split; [now apply calculateSprayTower_inherited|].
    intros maxIterations. unfold ComplianceOptimizer.optimizeForCompliance.
    cbv zeta. now rewrite calculateSprayTower_inherited.
Qed.

End UnknownPollutant.

(** ** The droplet solver *)

Section DropletSolver.
Context `{JsRuntime}.

Variables dropletDiameter gasDensity gasViscosity liquidDensity : Q.

Local Abbreviation step :=
  (AdvancedCalculations.newVelocity dropletDiameter gasDensity gasViscosity
     liquidDensity).
Local Abbreviation solve :=
  (AdvancedCalculations.terminalVelocityLoop dropletDiameter gasDensity
     gasViscosity liquidDensity).

(** The loop entered with [S remaining] passes left makes [n] of them,
    between 1 and [S remaining]: it returns the [n]-th iterate; no earlier
    pass met the tolerance; and the [n]-th met it unless it was the last
    one allowed. *)
Lemma terminalVelocityLoop_passes (remaining : nat) (start : Q) :
  exists n : nat,
    (1 <= n <= S remaining)%nat
    /\ solve (S remaining) start = Nat.iter n step start
    /\ (Math_abs (Nat.iter n step start - Nat.iter (n - 1) step start) < 0.001
        \/ n = S remaining)
    /\ (forall j : nat, (1 <= j < n)%nat ->
          ~ Math_abs (Nat.iter j step start - Nat.iter (j - 1) step start)
            < 0.001).
Proof.
  revert start. induction remaining as [|remaining IH]; intros start.
  - exists 1%nat. cbn [AdvancedCalculations.terminalVelocityLoop].
    split; [lia|]. split; [|split].
    + destruct (_ <? _); reflexivity.
    + now right.
    + intros j Hj. lia.
  - cbn [AdvancedCalculations.terminalVelocityLoop]. cbv zeta.
    destruct (Math_abs (step start - start) <? 0.001) eqn:Hconv.
    + exists 1%nat. split; [lia|]. split; [|split].
      * reflexivity.
      * left. cbn. now apply ltb_true.
      * intros j Hj. lia.
    + destruct (IH (step start)) as (n & Hn & Hval & Hstop & Hearlier).
      exists (S n). rewrite !Nat.iter_succ_r. split; [lia|].
      split; [|split].
      * exact Hval.
      * destruct Hstop as [Hstop | ->]; [left | now right].
        replace (S n - 1)%nat with (S (n - 1)) by lia.
        rewrite Nat.iter_succ_r. exact Hstop.
      * intros j Hj. destruct j as [|[|j]]; [lia| |].
        -- cbn. apply ltb_false in Hconv. now apply Qle_not_lt.
        -- assert (Hj' : (1 <= S j < n)%nat) by lia.
           specialize (Hearlier (S j) Hj').
           replace (S j - 1)%nat with j in Hearlier by lia.
           replace (S (S j) - 1)%nat with (S j) by lia.
           rewrite (Nat.iter_succ_r (S j) step start),
                   (Nat.iter_succ_r j step start).
           exact Hearlier.
Qed.

End DropletSolver.

(** C3 (bounded convergence of the droplet solver).  The terminal-velocity
    iteration makes [n] passes with [1 <= n <= 10]; the velocity reported
    is the [n]-th iterate; it is within 1e-3 m/s of the previous iterate or
    it is the 10th; and it is the first iterate to be within the
    tolerance.  This holds for every input, the physically valid ones
    among them. *)
Theorem droplet_solver_bounded `{JsRuntime}
  (dropletSize gasVelocity gasDensity gasViscosity liquidDensity
   sprayHeight : Q) :
  let iterate :=
    velocityIterate (dropletSize * 0.001) gasDensity gasViscosity
      liquidDensity in
  exists n : nat,
    (1 <= n <= 10)%nat
    /\ AdvancedCalculations.terminalVelocity
         (AdvancedCalculations.calculateDropletPhysics dropletSize gasVelocity
            gasDensity gasViscosity liquidDensity sprayHeight)
       = iterate n
    /\ (Math_abs (iterate n - iterate (n - 1)%nat) < 0.001 \/ n = 10%nat)
    /\ (forall j : nat, (1 <= j < n)%nat ->
          ~ Math_abs (iterate j - iterate (j - 1)%nat) < 0.001).
Proof.
  cbv zeta. unfold AdvancedCalculations.calculateDropletPhysics.
  cbn [AdvancedCalculations.terminalVelocity]. unfold velocityIterate.
  apply terminalVelocityLoop_passes.
Qed.

(** ** The pipeline on a known pollutant *)

Section Pipeline.
Context `{JsRuntime}.

Lemma calculateSprayTower_known (input : CalculatorInput) (data : PollutantData) :
  POLLUTANT_LIBRARY !! type (pollutant input) = Some data ->
  exists r,
    Calculator.calculateSprayTower input = Ok r
    /\ outletConcentration r
       = inletConcentration (pollutant input)
         * (1 - targetEfficiency (pollutant input))
    /\ complianceStatus r
       = AdvancedCalculations.calculateComplianceStatus
           (regulatoryFramework (settings input))
           (outletConcentration r)
           (pressure (gasStream input) * kPa_to_Pa)
           (type (pollutant input)).
Proof.
  intros Hdata. unfold Calculator.calculateSprayTower. cbv zeta.
  match goal with
  | |- context [MassTransfer.calculateMassTransfer ?p ?t ?a ?b ?c ?d] =>
      destruct (calculateMassTransfer_known p t a b c d data Hdata)
        as (m & -> & _)
  end.
  cbn [bind].
  match goal with
  | |- context [Performance.calculatePerformance
                  ?p ?t ?a ?b ?c ?d ?e ?f ?g ?h ?i] =>
      destruct (calculatePerformance_known p t a b c d e f g h i data Hdata)
        as (perf & -> & Hout & _)
  end.
  cbn [bind]. eexists. split; [reflexivity|].
  cbn [outletConcentration complianceStatus]. split; [exact Hout | reflexivity].
Qed.

Lemma calculateSprayTower_Ok_known (input : CalculatorInput) (r : CalculationResults) :
  Calculator.calculateSprayTower input = Ok r ->
  exists data, POLLUTANT_LIBRARY !! type (pollutant input) = Some data.
Proof.
  intros Hrun.
  destruct (POLLUTANT_LIBRARY !! type (pollutant input)) as [data|] eqn:Hdata.
  - now exists data.
  - destruct (inheritedName (type (pollutant input))) eqn:Hname.
    + rewrite calculateSprayTower_inherited in Hrun by assumption.
      discriminate.
    + rewrite calculateSprayTower_unknown in Hrun by assumption.
      discriminate.
Qed.

End Pipeline.

(** ** The first pass of the optimizer under rounding *)

Section Rounding.
Variable rnd : Q -> Q.
Hypothesis Hrnd : RoundsLikeBinary64 rnd.

Lemma rounded_near (x : Q) :
  x - unitRoundoff * Qabs x <= rnd x /\ rnd x <= x + unitRoundoff * Qabs x.
Proof.
  pose proof (Hrnd x) as Hx. apply Qabs_Qle_condition in Hx.
  destruct Hx as [Hlow Hhigh]. split; lra.
Qed.

(** The error of a rounded factor, scaled by the other factor. *)
Lemma rounded_scaled (a z : Q) :
  a * z - unitRoundoff * Qabs (a * z) <= a * rnd z
  /\ a * rnd z <= a * z + unitRoundoff * Qabs (a * z).
Proof.
  assert (Hz : Qabs (a * rnd z - a * z) <= unitRoundoff * Qabs (a * z)).
  { assert (Heq : a * rnd z - a * z == a * (rnd z - z)) by ring.
    rewrite Heq, !Qabs_Qmult.
    pose proof (Hrnd z) as Herr. pose proof (Qabs_nonneg a) as Ha.
    nra. }
  apply Qabs_Qle_condition in Hz. destruct Hz as [Hlow Hhigh]. split; lra.
Qed.

(** Under rounding the first pass evaluates to the target but for
    [unitRoundoff] times the inlet concentration and a few
    [unitRoundoff] of the target: for a limit of the table and an inlet
    concentration up to [largestInlet] it stays between 89% and 91% of the
    limit. *)
Lemma rounded_first_pass_band (limit inlet : Q) :
  5 <= limit -> limit <= 200 ->
  ~ inlet == 0 -> Qabs inlet <= largestInlet ->
  0.89 * limit <= roundedFirstPassOutlet rnd limit inlet
  /\ roundedFirstPassOutlet rnd limit inlet <= 0.91 * limit.
Proof.
  intros Hlow Hhigh Hinlet Hbound.
  unfold roundedFirstPassOutlet, Rounded.outletConcentration,
    Rounded.requiredEfficiency, Rounded.targetOutletConcentration,
    largestInlet in *.
  set (c := rnd 0.9).
  set (t := rnd (limit * c)).
  set (x := rnd (t / inlet)).
  set (r := rnd (1 - x)).
  set (y := rnd (1 - r)).
  pose proof (Qabs_nonneg inlet) as Hm.
  (* the literal and the target *)
  destruct (rounded_near 0.9) as [Hc1 Hc2]. fold c in Hc1, Hc2.
  rewrite (Qabs_pos 0.9) in Hc1, Hc2 by lra.
  assert (Hp1 : limit * (0.9 - unitRoundoff * 0.9) <= limit * c)
    by (apply Qmult_le_l; lra).
  assert (Hp2 : limit * c <= limit * (0.9 + unitRoundoff * 0.9))
    by (apply Qmult_le_l; lra).
  assert (Hcpos : 0 <= limit * c) by (unfold unitRoundoff in *; lra).
  destruct (rounded_near (limit * c)) as [Ht1 Ht2]. fold t in Ht1, Ht2.
  rewrite (Qabs_pos _ Hcpos) in Ht1, Ht2.
  assert (Htl : 0.9 * limit * (1 - 3 * unitRoundoff) <= t)
    by (unfold unitRoundoff in *; lra).
  assert (Hth : t <= 0.9 * limit * (1 + 3 * unitRoundoff))
    by (unfold unitRoundoff in *; lra).
  (* the quotient, scaled by the inlet concentration *)
  destruct (rounded_scaled inlet (t / inlet)) as [Hx1 Hx2]. fold x in Hx1, Hx2.
  assert (Hq : inlet * (t / inlet) == t) by (field; exact Hinlet).
  rewrite Hq in Hx1, Hx2.
  rewrite (Qabs_pos t) in Hx1, Hx2 by (unfold unitRoundoff in *; lra).
  (* the two subtractions from 1 *)
  destruct (rounded_scaled inlet (1 - x)) as [Hr1 Hr2]. fold r in Hr1, Hr2.
  assert (Hd : Qabs (inlet * (1 - x)) <= Qabs inlet + inlet * x).
  { assert (Heq : inlet * (1 - x) == inlet + - (inlet * x)) by ring.
    rewrite Heq. eapply Qle_trans; [apply Qabs_triangle|].
    rewrite Qabs_opp, (Qabs_pos (inlet * x)); [apply Qle_refl|].
    unfold unitRoundoff in *; lra. }
  destruct (rounded_scaled inlet (1 - r)) as [Hy1 Hy2]. fold y in Hy1, Hy2.
  assert (He : Qabs (inlet * (1 - r)) == inlet * (1 - r)).
  { apply Qabs_pos. unfold unitRoundoff in *. lra. }
  rewrite He in Hy1, Hy2.
  (* the product *)
  destruct (rounded_near (inlet * y)) as [Ho1 Ho2].
  rewrite (Qabs_pos (inlet * y)) in Ho1, Ho2 by (unfold unitRoundoff in *; lra).
  unfold unitRoundoff in *. split; lra.
Qed.

(** For a pollutant with a limit it is within the limit. *)
Lemma rounded_first_pass_within_limit
  (pollutantType : string) (limit inlet : Q) :
  AdvancedCalculations.euLimits !! pollutantType = Some limit ->
  ~ inlet == 0 -> Qabs inlet <= largestInlet ->
  roundedFirstPassOutlet rnd limit inlet <= limit.
Proof.
  intros Hl Hinlet Hbound.
  destruct (rounded_first_pass_band limit inlet) as [_ Hhigh];
    try assumption.
  - destruct (euLimits_entries _ _ Hl) as [-> | [-> | [-> | ->]]];
      discriminate.
  - destruct (euLimits_entries _ _ Hl) as [-> | [-> | [-> | ->]]];
      discriminate.
  - pose proof (euLimits_positive _ _ Hl). lra.
Qed.

End Rounding.

(** ** The optimizer *)

Section OptimizerProperties.
Context `{JsRuntime}.
Variables (input : CalculatorInput) (maxIterations : Q).

Local Abbreviation target := (targetOutlet input).
Local Abbreviation required := (requiredEfficiencyFor input).
Local Abbreviation pass := (parameterSet input maxIterations).
Local Abbreviation adjusted :=
  (ComplianceOptimizer.adjust input maxIterations (requiredEfficiencyFor input)).
Local Abbreviation body :=
  (ComplianceOptimizer.loopBody input maxIterations (targetOutlet input)
     (requiredEfficiencyFor input)).
Local Abbreviation run :=
  (ComplianceOptimizer.loop input maxIterations (targetOutlet input)
     (requiredEfficiencyFor input)).

(** What the three strategies leave untouched. *)
Lemma adjust_keeps (iterations : Z) (current : CalculatorInput) :
  let next := fst (adjusted iterations current) in
  type (pollutant next) = type (pollutant current)
  /\ inletConcentration (pollutant next) = inletConcentration (pollutant current)
  /\ settings next = settings current
  /\ gasStream next = gasStream current.
Proof.
  unfold ComplianceOptimizer.adjust. cbv zeta.
  destruct (_ <=? _); [|destruct (_ <=? _)]; cbn; repeat split.
Qed.

(** Strategy 1 pins the target efficiency and scales the L/G ratio. *)
Lemma adjust_first_phase (iterations : Z) (current : CalculatorInput) :
  (inject_Z iterations <=? maxIterations * 0.4) = true ->
  fst (adjusted iterations current)
  = {| gasStream := gasStream current;
       pollutant := with_targetEfficiency (pollutant current) required;
       tower :=
         with_lgRatio (tower current)
           (lgRatio (tower input) * (1 + inject_Z iterations * 0.1));
       settings := settings current |}.
Proof.
  intros Hphase. unfold ComplianceOptimizer.adjust. cbv zeta.
  rewrite Hphase. reflexivity.
Qed.

(** Strategies 2 and 3 leave the pollutant as it is. *)
Lemma adjust_later_phase (iterations : Z) (current : CalculatorInput) :
  (inject_Z iterations <=? maxIterations * 0.4) = false ->
  pollutant (fst (adjusted iterations current)) = pollutant current.
Proof.
  intros Hphase. unfold ComplianceOptimizer.adjust. cbv zeta.
  rewrite Hphase.
  destruct (inject_Z iterations <=? maxIterations * 0.7); reflexivity.
Qed.

Lemma parameterSet_keeps (n : nat) :
  type (pollutant (pass n)) = type (pollutant input)
  /\ inletConcentration (pollutant (pass n)) = inletConcentration (pollutant input)
  /\ settings (pass n) = settings input
  /\ gasStream (pass n) = gasStream input.
Proof.
  induction n as [|n (IHt & IHi & IHs & IHg)]; [repeat split|].
  cbn [parameterSet].
  destruct (adjust_keeps (Z.of_nat (S n)) (pass n)) as (Ht & Hi & Hs & Hg).
  rewrite Ht, Hi, Hs, Hg. repeat split; assumption.
Qed.

(** Every pass evaluates: the pollutant type never changes. *)
Lemma pass_evaluates (data : PollutantData) (n : nat) :
  POLLUTANT_LIBRARY !! type (pollutant input) = Some data ->
  exists r, Calculator.calculateSprayTower (pass n) = Ok r.
Proof.
  intros Hdata.
  destruct (calculateSprayTower_known (pass n) data) as (r & Hrun & _).
  - destruct (parameterSet_keeps n) as (-> & _). exact Hdata.
  - now exists r.
Qed.

(** One pass of the loop body, given the result of its evaluation. *)
Lemma loopBody_pass (v : ComplianceOptimizer.Vars.t) (r : CalculationResults) :
  let current :=
    fst (adjusted (ComplianceOptimizer.Vars.iterations v)
           (ComplianceOptimizer.Vars.currentInput v)) in
  Calculator.calculateSprayTower current = Ok r ->
  exists v' c,
    body v = Ok (v', c)
    /\ ComplianceOptimizer.Vars.iterations v'
       = ComplianceOptimizer.Vars.iterations v
    /\ ComplianceOptimizer.Vars.currentInput v' = current
    /\ ComplianceOptimizer.Vars.results v' = r
    /\ (if emissionLimitsMet (complianceStatus r)
        then c = ComplianceOptimizer.Break
             /\ ComplianceOptimizer.Vars.convergenceReached v' = true
        else
          ComplianceOptimizer.Vars.convergenceReached v'
          = ComplianceOptimizer.Vars.convergenceReached v
          /\ c = (if (inject_Z (ComplianceOptimizer.Vars.iterations v) >? 5)
                     && (outletConcentration r >? target * 2)
                  then ComplianceOptimizer.Break
                  else ComplianceOptimizer.Normal)
          /\ (ComplianceOptimizer.Vars.bestResults v',
              ComplianceOptimizer.Vars.bestInput v')
             = (if match ComplianceOptimizer.Vars.bestResults v with
                   | None => true
                   | Some best =>
                       outletConcentration r <? outletConcentration best
                   end
                then (Some r, Some current)
                else (ComplianceOptimizer.Vars.bestResults v,
                      ComplianceOptimizer.Vars.bestInput v))).
Proof.
  cbv zeta. intros Hrun. unfold ComplianceOptimizer.loopBody.
  destruct (adjusted _ _) as [current line]. cbn [fst] in Hrun |- *.
  rewrite Hrun. cbn [bind].
  destruct (emissionLimitsMet (complianceStatus r)).
  - eexists _, _. split; [reflexivity|]. cbn. repeat split.
  - destruct ((inject_Z _ >? 5) && (_ >? _)).
    + eexists _, _. split; [reflexivity|]. cbn. repeat split.
      destruct (match ComplianceOptimizer.Vars.bestResults v with
                | None => true | Some _ => _ end); reflexivity.
    + eexists _, _. split; [reflexivity|]. cbn. repeat split.
      destruct (match ComplianceOptimizer.Vars.bestResults v with
                | None => true | Some _ => _ end); reflexivity.
Qed.

(** The best result after one more pass. *)
Lemma BestTracked_next
  (initial : CalculationResults) (n : nat)
  (v v' : ComplianceOptimizer.Vars.t) (r : CalculationResults) :
  BestTracked input maxIterations initial n v ->
  Calculator.calculateSprayTower (pass (S n)) = Ok r ->
  (ComplianceOptimizer.Vars.bestResults v',
   ComplianceOptimizer.Vars.bestInput v')
  = (if match ComplianceOptimizer.Vars.bestResults v with
        | None => true
        | Some best => outletConcentration r <? outletConcentration best
        end
     then (Some r, Some (pass (S n)))
     else (ComplianceOptimizer.Vars.bestResults v,
           ComplianceOptimizer.Vars.bestInput v)) ->
  BestTracked input maxIterations initial (S n) v'.
Proof.
  intros Hbest Hr Hnew. destruct n as [|n].
  - destruct Hbest as (Hnone & _). rewrite Hnone in Hnew.
    injection Hnew as Hb Hi. exists (pass 1), r. repeat split; try assumption.
    exists 1%nat. repeat split; try lia; try assumption.
    intros i r' Hi' Hr'. assert (i = 1%nat) as -> by lia.
    rewrite Hr in Hr'. injection Hr' as <-. apply Qle_refl.
  - destruct Hbest as (bestInput & best & Hb & Hi & j & Hj & Hji & Hjr & Hmin).
    rewrite Hb, Hi in Hnew.
    destruct (outletConcentration r <? outletConcentration best) eqn:Hlt;
      injection Hnew as Hb' Hi'.
    + apply ltb_true in Hlt.
      exists (pass (S (S n))), r. repeat split; try assumption.
      exists (S (S n)). repeat split; try lia; try assumption.
      intros i r' Hi'' Hr'. destruct (Nat.eq_dec i (S (S n))) as [-> | Hne].
      * rewrite Hr in Hr'. injection Hr' as <-. apply Qle_refl.
      * apply Qle_trans with (outletConcentration best).
        -- now apply Qlt_le_weak.
        -- apply (Hmin i r'); [lia | exact Hr'].
    + apply ltb_false in Hlt.
      exists bestInput, best. repeat split; try assumption.
      exists j. repeat split; try lia; try assumption.
      intros i r' Hi'' Hr'. destruct (Nat.eq_dec i (S (S n))) as [-> | Hne].
      * rewrite Hr in Hr'. injection Hr' as <-. exact Hlt.
      * apply (Hmin i r'); [lia | exact Hr'].
Qed.

Lemma Qle_floor (z : Z) (q : Q) : inject_Z z <= q -> (z <= Qfloor q)%Z.
Proof.
  intros Hle. rewrite <- (Qfloor_Z z). now apply Qfloor_resp_le.
Qed.

(** The loop is left with enough fuel, and when it is left without
    compliance the variables track the best of the passes made. *)
Lemma loop_leaves (initial : CalculationResults) (data : PollutantData) :
  POLLUTANT_LIBRARY !! type (pollutant input) = Some data ->
  forall (fuel n : nat) (v : ComplianceOptimizer.Vars.t),
    AtPass input maxIterations initial n v ->
    (Z.max 0 (Qfloor maxIterations - Z.of_nat n) < Z.of_nat fuel)%Z ->
    exists v',
      run fuel v = Some (Ok v')
      /\ (ComplianceOptimizer.Vars.convergenceReached v' = true
          /\ (exists m : nat,
                Complied input maxIterations m
                  (ComplianceOptimizer.Vars.iterations v'))
          \/ ComplianceOptimizer.Vars.convergenceReached v' = false
             /\ exists m : nat,
                  (n <= m)%nat
                  /\ (Exhausted maxIterations m
                        (ComplianceOptimizer.Vars.iterations v')
                      \/ Diverged input maxIterations m
                           (ComplianceOptimizer.Vars.iterations v'))
                  /\ BestTracked input maxIterations initial m v').
Proof.
  intros Hdata fuel.
  induction fuel as [|fuel IH]; intros n v (Hit & Hcur & Hconv & Hbest) Hfuel;
    [lia|].
  cbn [ComplianceOptimizer.loop]. rewrite Hit.
  destruct (inject_Z (Z.of_nat (S n)) <=? maxIterations) eqn:Hguard.
  - apply Qle_bool_iff in Hguard. pose proof (Qle_floor _ _ Hguard) as Hfloor.
    destruct (pass_evaluates data (S n) Hdata) as (r & Hr).
    assert (Hnext : fst (adjusted (ComplianceOptimizer.Vars.iterations v)
                           (ComplianceOptimizer.Vars.currentInput v))
                    = pass (S n)) by (rewrite Hit, Hcur; reflexivity).
    destruct (loopBody_pass v r) as (v' & c & Hbody & Hit' & Hcur' & _ & Hcase).
    { rewrite Hnext. exact Hr. }
    rewrite Hbody. rewrite Hnext in Hcur', Hcase.
    destruct (emissionLimitsMet (complianceStatus r)) eqn:Hmet.
    + destruct Hcase as (-> & Hconv'). exists v'. split; [reflexivity|].
      left. split; [exact Hconv'|]. exists (S n).
      split; [congruence|]. split; [exact Hguard|]. split; [lia|].
      now exists r.
    + destruct Hcase as (Hconv' & Hc & Hbest').
      pose proof (BestTracked_next initial n v v' r Hbest Hr Hbest') as HbestS.
      rewrite Hit in Hc.
      destruct ((inject_Z (Z.of_nat (S n)) >? 5)
                && (outletConcentration r >? target * 2)) eqn:Hdiv; subst c.
      * exists v'. split; [reflexivity|]. right. split; [congruence|].
        exists (S n). split; [lia|]. split; [right | exact HbestS].
        apply andb_true_iff in Hdiv as [Hfive Hout].
        apply gtb_true in Hfive, Hout.
        split; [congruence|]. split; [exact Hguard|]. split.
        -- change 5 with (inject_Z 5) in Hfive. rewrite <- Zlt_Qlt in Hfive. lia.
        -- now exists r.
      * destruct (IH (S n) (ComplianceOptimizer.increment v'))
          as (v'' & Hrun & Hpost).
        -- repeat split; cbn; [rewrite Hit', Hit; lia | exact Hcur' | congruence
                              | exact HbestS].
        -- lia.
        -- exists v''. split; [exact Hrun|].
           destruct Hpost as [Hyes | (Hno & m & Hm & Hexit & Htrack)];
             [left; exact Hyes | right].
           split; [exact Hno|]. exists m. split; [lia|]. now split.
  - exists v. split; [reflexivity|]. right. split; [exact Hconv|].
    exists n. split; [lia|]. split; [left | exact Hbest].
    split; [exact Hit|]. intros Hle. apply Qle_bool_iff in Hle. congruence.
Qed.

(** Both copies of the EU table hold the same entries, none of them 0. *)
Lemma getEmissionLimits_EU (pollutantType : string) (limit : Q) :
  AdvancedCalculations.euLimits !! pollutantType = Some limit ->
  ComplianceOptimizer.getEmissionLimits EU pollutantType = Ok limit.
Proof.
  intros Hl. unfold ComplianceOptimizer.getEmissionLimits.
  change ComplianceOptimizer.euLimits with AdvancedCalculations.euLimits.
  rewrite (objectGet_own _ _ _ Hl). cbn [ComplianceOptimizer.limitOr].
  now rewrite (euLimits_nonzero _ _ Hl).
Qed.

Lemma targetOutlet_EU (limit : Q) :
  regulatoryFramework (settings input) = EU ->
  AdvancedCalculations.euLimits !! type (pollutant input) = Some limit ->
  target = limit * 0.9.
Proof.
  intros Hfw Hl. unfold targetOutlet.
  now rewrite Hfw, (getEmissionLimits_EU _ _ Hl).
Qed.

(** An evaluation that does not comply is one under the EU framework of a
    pollutant with a limit, which [getEmissionLimits] then returns. *)
Lemma noncompliant_limit (initial : CalculationResults) :
  Calculator.calculateSprayTower input = Ok initial ->
  emissionLimitsMet (complianceStatus initial) = false ->
  exists limit,
    regulatoryFramework (settings input) = EU
    /\ AdvancedCalculations.euLimits !! type (pollutant input) = Some limit
    /\ limit < outletConcentration initial
    /\ ComplianceOptimizer.getEmissionLimits
         (regulatoryFramework (settings input)) (type (pollutant input))
       = Ok limit
    /\ target = limit * 0.9.
Proof.
  intros Hinit Hmet.
  destruct (calculateSprayTower_Ok_known input initial Hinit) as (data & Hdata).
  destruct (calculateSprayTower_known input data Hdata)
    as (r0 & Hrun0 & _ & Hstatus0).
  rewrite Hinit in Hrun0. injection Hrun0 as <-.
  rewrite Hstatus0 in Hmet.
  apply emissionLimitsMet_false in Hmet as (Hfw & limit & Hl & Hlt).
  exists limit. repeat split; try assumption.
  - rewrite Hfw. now apply getEmissionLimits_EU.
  - now apply targetOutlet_EU.
Qed.

(** Over exact rationals a first pass under strategy 1 evaluates to 90% of
    the limit, which complies. *)
Lemma first_pass_complies (initial : CalculationResults) :
  Calculator.calculateSprayTower input = Ok initial ->
  emissionLimitsMet (complianceStatus initial) = false ->
  (inject_Z 1 <=? maxIterations * 0.4) = true ->
  exists limit r,
    regulatoryFramework (settings input) = EU
    /\ AdvancedCalculations.euLimits !! type (pollutant input) = Some limit
    /\ limit < outletConcentration initial
    /\ Calculator.calculateSprayTower (pass 1) = Ok r
    /\ outletConcentration r == 0.9 * limit
    /\ emissionLimitsMet (complianceStatus r) = true.
Proof.
  intros Hinit Hmet Hphase.
  destruct (calculateSprayTower_Ok_known input initial Hinit) as (data & Hdata).
  destruct (calculateSprayTower_known input data Hdata)
    as (r0 & Hrun0 & Hout0 & Hstatus0).
  rewrite Hinit in Hrun0. injection Hrun0 as <-.
  rewrite Hstatus0 in Hmet.
  apply emissionLimitsMet_false in Hmet as (Hfw & limit & Hl & Hlt).
  pose proof (euLimits_positive _ _ Hl) as Hpos.
  assert (Hpass : pass 1
                  = {| gasStream := gasStream input;
                       pollutant :=
                         with_targetEfficiency (pollutant input) required;
                       tower :=
                         with_lgRatio (tower input)
                           (lgRatio (tower input) * (1 + inject_Z 1 * 0.1));
                       settings := settings input |}).
  { cbn [parameterSet]. now apply adjust_first_phase. }
  destruct (calculateSprayTower_known (pass 1) data) as (r & Hrun & Hout & Hstatus).
  { rewrite Hpass. exact Hdata. }
  assert (Hvalue : outletConcentration r == 0.9 * limit).
  { rewrite Hout, Hpass. cbn. unfold requiredEfficiencyFor.
    rewrite (targetOutlet_EU limit Hfw Hl). field.
    intros Hzero. rewrite Hout0, Hzero in Hlt. lra. }
  exists limit, r. repeat split; try assumption.
  rewrite Hstatus, Hpass. cbn [settings pollutant with_targetEfficiency type].
  rewrite Hfw. apply emissionLimitsMet_within with limit; [exact Hl|].
  rewrite Hvalue. lra.
Qed.

(** Over exact rationals, with strategy 1 available to the first pass, the
    optimizer returns after that pass, compliant. *)
Lemma optimize_first_pass (initial : CalculationResults) :
  Calculator.calculateSprayTower input = Ok initial ->
  emissionLimitsMet (complianceStatus initial) = false ->
  (inject_Z 1 <=? maxIterations * 0.4) = true ->
  exists limit r,
    AdvancedCalculations.euLimits !! type (pollutant input) = Some limit
    /\ Calculator.calculateSprayTower (pass 1) = Ok r
    /\ outletConcentration r == 0.9 * limit
    /\ emissionLimitsMet (complianceStatus r) = true
    /\ ComplianceOptimizer.optimizeForCompliance input maxIterations
       = Some (Ok
           {| ComplianceOptimizer.results := r;
              ComplianceOptimizer.optimizedInput := pass 1;
              ComplianceOptimizer.iterations := 1;
              ComplianceOptimizer.convergenceReached := true;
              ComplianceOptimizer.optimizationLog :=
                [ "Starting compliance optimization for EU framework";
                  "Target pollutant: " +:+ type (pollutant input)
                  +:+ ", Target efficiency: "
                  +:+ toFixed (targetEfficiency (pollutant input) * 100) 1
                  +:+ "%";
                  "Initial calculation - Outlet: "
                  +:+ toFixed (outletConcentration initial) 1
                  +:+ " mg/Nm³, Compliance: false";
                  "Regulatory limit: "
                  +:+ Number_toString limit
                  +:+ " mg/Nm³, Target: " +:+ toFixed target 1 +:+ " mg/Nm³";
                  "Required efficiency: "
                  +:+ toFixed (required * 100) 1 +:+ "%";
                  "Iteration " +:+ Number_toString 1
                  +:+ ": Increasing L/G ratio to "
                  +:+ toFixed (lgRatio (tower input) * (1 + 1 * 0.1)) 2;
                  "  Result: Outlet " +:+ toFixed (outletConcentration r) 1
                  +:+ " mg/Nm³, Height " +:+ toFixed (requiredHeight r) 1
                  +:+ " m, Compliance: true";
                  "✓ Compliance achieved in " +:+ Number_toString 1
                  +:+ " iterations" ] |}).
Proof.
  intros Hinit Hmet Hphase.
  destruct (first_pass_complies initial Hinit Hmet Hphase)
    as (limit & r & Hfw & Hl & _ & Hrun & Hvalue & Hmet1).
  exists limit, r. repeat (split; [assumption|]).
  assert (Hguard : (inject_Z 1 <=? maxIterations) = true).
  { apply Qle_bool_iff in Hphase. apply Qle_bool_iff.
    change (inject_Z 1) with 1 in *. lra. }
  pose proof (targetOutlet_EU limit Hfw Hl) as Htarget.
  unfold ComplianceOptimizer.optimizeForCompliance. cbv zeta.
  rewrite Hinit, Hmet, Hfw, (getEmissionLimits_EU _ _ Hl).
  rewrite <- Htarget. unfold ComplianceOptimizer.fuelFor.
  cbn [ComplianceOptimizer.loop ComplianceOptimizer.Vars.iterations].
  rewrite Hguard. unfold ComplianceOptimizer.loopBody.
  cbn [ComplianceOptimizer.Vars.iterations
       ComplianceOptimizer.Vars.currentInput ComplianceOptimizer.Vars.log].
  cbn [parameterSet] in Hrun |- *.
  change (Z.of_nat 1) with 1%Z in Hrun |- *.
  fold required.
  destruct (adjusted 1%Z input) as [next line] eqn:Hadj.
  cbn [fst] in Hrun |- *. rewrite Hrun. cbn [bind]. rewrite Hmet1.
  cbn [ComplianceOptimizer.finish ComplianceOptimizer.Vars.convergenceReached
       negb ComplianceOptimizer.Vars.results
       ComplianceOptimizer.Vars.currentInput
       ComplianceOptimizer.Vars.iterations ComplianceOptimizer.Vars.log].
  unfold ComplianceOptimizer.adjust in Hadj. cbv zeta in Hadj.
  rewrite Hphase in Hadj. injection Hadj as <- <-.
  reflexivity.
Qed.

(** Without strategy 1 at the first pass no pass has it, and every pass
    evaluates to the outlet concentration of the unmodified input. *)
Lemma later_passes_keep_pollutant (n : nat) :
  (inject_Z 1 <=? maxIterations * 0.4) = false ->
  pollutant (pass n) = pollutant input.
Proof.
  intros Hphase. induction n as [|n IH]; [reflexivity|].
  cbn [parameterSet]. rewrite adjust_later_phase; [exact IH|].
  apply not_true_iff_false. rewrite Qle_bool_iff.
  apply not_true_iff_false in Hphase. rewrite Qle_bool_iff in Hphase.
  intros Hle. apply Hphase. apply Qle_trans with (inject_Z (Z.of_nat (S n)));
    [|exact Hle].
  rewrite <- Zle_Qle. lia.
Qed.

Lemma later_passes_same_outlet (initial r : CalculationResults) (n : nat) :
  (inject_Z 1 <=? maxIterations * 0.4) = false ->
  Calculator.calculateSprayTower input = Ok initial ->
  Calculator.calculateSprayTower (pass n) = Ok r ->
  outletConcentration r = outletConcentration initial.
Proof.
  intros Hphase Hinit Hrun.
  destruct (calculateSprayTower_Ok_known input initial Hinit) as (data & Hdata).
  destruct (calculateSprayTower_known input data Hdata)
    as (r0 & Hrun0 & Hout0 & _).
  destruct (calculateSprayTower_known (pass n) data) as (r1 & Hrun1 & Hout1 & _).
  { rewrite (later_passes_keep_pollutant n Hphase). exact Hdata. }
  rewrite Hinit in Hrun0. injection Hrun0 as <-.
  rewrite Hrun in Hrun1. injection Hrun1 as <-.
  rewrite Hout1, Hout0, (later_passes_keep_pollutant n Hphase). reflexivity.
Qed.



(** What [finish] returns when the loop is left without compliance after
    [n] passes, none of them under strategy 1. *)
Lemma finish_best
  (initial : CalculationResults) (n : nat) (v : ComplianceOptimizer.Vars.t)
  (emissionLimits : Q) :
  Calculator.calculateSprayTower input = Ok initial ->
  (inject_Z 1 <=? maxIterations * 0.4) = false ->
  ComplianceOptimizer.Vars.convergenceReached v = false ->
  BestTracked input maxIterations initial n v ->
  let res := ComplianceOptimizer.finish maxIterations emissionLimits v in
  ComplianceOptimizer.iterations res = ComplianceOptimizer.Vars.iterations v
  /\ ComplianceOptimizer.convergenceReached res = false
  /\ (exists j : nat,
        (j <= n)%nat
        /\ ComplianceOptimizer.optimizedInput res = pass j
        /\ Calculator.calculateSprayTower (pass j)
           = Ok (ComplianceOptimizer.results res))
  /\ (forall (i : nat) (r : CalculationResults),
        (i <= n)%nat ->
        Calculator.calculateSprayTower (pass i) = Ok r ->
        outletConcentration (ComplianceOptimizer.results res)
        <= outletConcentration r).
Proof.
  intros Hinit Hphase Hno Htrack. cbv zeta. unfold ComplianceOptimizer.finish.
  rewrite Hno. cbn [negb]. destruct n as [|n].
  - destruct Htrack as (Hb & Hi & Hres & Hcur). rewrite Hb.
    cbn [ComplianceOptimizer.iterations ComplianceOptimizer.results
         ComplianceOptimizer.optimizedInput
         ComplianceOptimizer.convergenceReached].
    split; [reflexivity|]. split; [reflexivity|]. split.
    + exists 0%nat. rewrite Hres, Hcur. now repeat split.
    + intros i r Hi' Hr. assert (i = 0%nat) as -> by lia.
      cbn [parameterSet] in Hr. rewrite Hinit in Hr. injection Hr as <-.
      rewrite Hres. apply Qle_refl.
  - destruct Htrack as (bestInput & best & Hb & Hi & j & Hj & Hji & Hjr & Hmin).
    rewrite Hb, Hi.
    cbn [ComplianceOptimizer.iterations ComplianceOptimizer.results
         ComplianceOptimizer.optimizedInput
         ComplianceOptimizer.convergenceReached].
    split; [reflexivity|]. split; [reflexivity|]. split.
    + exists j. repeat split; [lia | exact Hji | exact Hjr].
    + intros i r Hi' Hr. destruct i as [|i].
      * cbn [parameterSet] in Hr. rewrite Hinit in Hr. injection Hr as <-.
        rewrite (later_passes_same_outlet initial best j Hphase Hinit Hjr).
        apply Qle_refl.
      * apply (Hmin (S i) r); [lia | exact Hr].
Qed.


End OptimizerProperties.


(** The divergence exit is never taken: a budget that reaches iteration 6
    gives the first pass strategy 1, and over exact rationals the optimizer
    returns at iteration 0 or 1. *)
Remark divergence_never_detected `{JsRuntime}
  (input : CalculatorInput) (maxIterations : Q)
  (res : ComplianceOptimizer.OptimizationResult) (n : nat) :
  ComplianceOptimizer.optimizeForCompliance input maxIterations
  = Some (Ok res) ->
  ~ Diverged input maxIterations n (ComplianceOptimizer.iterations res).
Proof.
  intros Hopt (Hit & Hin & Hfive & _).
  destruct (Calculator.calculateSprayTower input) as [initial|e|] eqn:Hinit.
  2,3: unfold ComplianceOptimizer.optimizeForCompliance in Hopt;
       cbv zeta in Hopt; rewrite Hinit in Hopt; discriminate.
  destruct (emissionLimitsMet (complianceStatus initial)) eqn:Hmet.
  { unfold ComplianceOptimizer.optimizeForCompliance in Hopt.
    cbv zeta in Hopt. rewrite Hinit, Hmet in Hopt.
    injection Hopt as <-. cbn in Hit. lia. }
  assert (Hphase : (inject_Z 1 <=? maxIterations * 0.4) = true).
  { apply Qle_bool_iff. change (inject_Z 1) with 1.
    assert (Hsix : inject_Z 6 <= inject_Z (Z.of_nat n))
      by (rewrite <- Zle_Qle; lia).
    change (inject_Z 6) with 6 in Hsix. lra. }
  destruct (optimize_first_pass input maxIterations initial Hinit Hmet Hphase)
    as (limit & r & _ & _ & _ & _ & Hopt').
  rewrite Hopt' in Hopt. injection Hopt as <-. cbn in Hit. lia.
Qed.

(** C9 (one pass under the EU framework), as the code has it.  For an
    input under the EU framework whose pollutant has an EU limit, whose
    initial evaluation is not compliant and whose inlet concentration is at
    most 1e12 mg/Nm3 in magnitude, the optimizer with the default budget of
    20 returns after exactly 1 iteration with [convergenceReached = true]:
    the first pass is under strategy 1, which pins the target efficiency to
    the required one, so the outlet concentration evaluates to
    [inlet * (1 - (1 - target / inlet))] whatever the L/G ratio, which is
    90% of the limit up to rounding and here between 89% and 91% of it.
    The parameter set returned differs from the input in the target
    efficiency and the L/G ratio only, and the log holds the lines of that
    single pass: neither strategy 2, nor strategy 3, nor the divergence
    test has run.  The optimizer is evaluated over exact rationals; the
    bound on the inlet concentration is what keeps the outlet concentration
    of the first pass between 89% and 91% of the limit, hence compliant,
    when the literal 0.9 and every operation are rounded with a relative
    error of at most 2^-53 as in binary64. *)
Theorem eu_noncompliant_one_pass `{JsRuntime}
  (input : CalculatorInput) (initial : CalculationResults) (limit : Q) :
  regulatoryFramework (settings input) = EU ->
  AdvancedCalculations.euLimits !! type (pollutant input) = Some limit ->
  Calculator.calculateSprayTower input = Ok initial ->
  emissionLimitsMet (complianceStatus initial) = false ->
  Qabs (inletConcentration (pollutant input)) <= largestInlet ->
  exists res,
    ComplianceOptimizer.optimizeForCompliance input
      ComplianceOptimizer.defaultMaxIterations = Some (Ok res)
    /\ ComplianceOptimizer.iterations res = 1%Z
    /\ ComplianceOptimizer.convergenceReached res = true
    /\ emissionLimitsMet (complianceStatus (ComplianceOptimizer.results res))
       = true
    /\ outletConcentration (ComplianceOptimizer.results res)
       = inletConcentration (pollutant input)
         * (1 - requiredEfficiencyFor input)
    /\ 0.89 * limit <= outletConcentration (ComplianceOptimizer.results res)
    /\ outletConcentration (ComplianceOptimizer.results res) <= 0.91 * limit
    /\ (forall rnd : Q -> Q,
          RoundsLikeBinary64 rnd ->
          0.89 * limit
          <= roundedFirstPassOutlet rnd limit
               (inletConcentration (pollutant input))
          /\ roundedFirstPassOutlet rnd limit
               (inletConcentration (pollutant input))
             <= 0.91 * limit)
    /\ Calculator.calculateSprayTower (ComplianceOptimizer.optimizedInput res)
       = Ok (ComplianceOptimizer.results res)
    /\ ComplianceOptimizer.optimizedInput res
       = {| gasStream := gasStream input;
            pollutant :=
              with_targetEfficiency (pollutant input)
                (requiredEfficiencyFor input);
            tower :=
              with_lgRatio (tower input)
                (lgRatio (tower input) * (1 + 1 * 0.1));
            settings := settings input |}
    /\ ComplianceOptimizer.optimizationLog res
       = [ "Starting compliance optimization for EU framework";
           "Target pollutant: " +:+ type (pollutant input)
           +:+ ", Target efficiency: "
           +:+ toFixed (targetEfficiency (pollutant input) * 100) 1 +:+ "%";
           "Initial calculation - Outlet: "
           +:+ toFixed (outletConcentration initial) 1
           +:+ " mg/Nm³, Compliance: false";
           "Regulatory limit: " +:+ Number_toString limit
           +:+ " mg/Nm³, Target: " +:+ toFixed (targetOutlet input) 1
           +:+ " mg/Nm³";
           "Required efficiency: "
           +:+ toFixed (requiredEfficiencyFor input * 100) 1 +:+ "%";
           "Iteration " +:+ Number_toString 1
           +:+ ": Increasing L/G ratio to "
           +:+ toFixed (lgRatio (tower input) * (1 + 1 * 0.1)) 2;
           "  Result: Outlet "
           +:+ toFixed (outletConcentration (ComplianceOptimizer.results res)) 1
           +:+ " mg/Nm³, Height "
           +:+ toFixed (requiredHeight (ComplianceOptimizer.results res)) 1
           +:+ " m, Compliance: true";
           "✓ Compliance achieved in " +:+ Number_toString 1
           +:+ " iterations" ].
Proof.
  intros Hfw Hl Hinit Hmet Hbound.
  destruct (optimize_first_pass input ComplianceOptimizer.defaultMaxIterations
              initial Hinit Hmet eq_refl)
    as (limit' & r & Hl' & Hrun & Hvalue & Hmet1 & Hopt).
  assert (limit' = limit) as -> by congruence.
  pose proof (euLimits_positive _ _ Hl) as Hpos.
  assert (Hrounded : forall rnd : Q -> Q,
            RoundsLikeBinary64 rnd ->
            0.89 * limit
            <= roundedFirstPassOutlet rnd limit
                 (inletConcentration (pollutant input))
            /\ roundedFirstPassOutlet rnd limit
                 (inletConcentration (pollutant input))
               <= 0.91 * limit).
  { intros rnd Hrnd.
    destruct (noncompliant_limit input initial Hinit Hmet)
      as (limit' & _ & Hl'' & Hlt & _).
    assert (limit' = limit) as -> by congruence.
    destruct (calculateSprayTower_Ok_known _ _ Hinit) as (data0 & Hdata0).
    destruct (calculateSprayTower_known _ data0 Hdata0)
      as (r0 & Hrun0 & Hout0 & _).
    rewrite Hinit in Hrun0. injection Hrun0 as <-.
    apply (rounded_first_pass_band rnd Hrnd); try assumption.
    - destruct (euLimits_entries _ _ Hl) as [-> | [-> | [-> | ->]]];
        discriminate.
    - destruct (euLimits_entries _ _ Hl) as [-> | [-> | [-> | ->]]];
        discriminate.
    - intros Hzero. rewrite Hout0, Hzero in Hlt. lra. }
  destruct (calculateSprayTower_Ok_known _ _ Hrun) as (data & Hdata).
  destruct (calculateSprayTower_known _ data Hdata) as (r' & Hrun' & Hout & _).
  rewrite Hrun in Hrun'. injection Hrun' as <-.
  cbn [parameterSet] in Hout.
  rewrite (adjust_first_phase input ComplianceOptimizer.defaultMaxIterations
             1 input eq_refl) in Hout.
  cbn [pollutant with_targetEfficiency inletConcentration targetEfficiency]
    in Hout.
  eexists. split; [exact Hopt|].
  cbn [ComplianceOptimizer.iterations ComplianceOptimizer.convergenceReached
       ComplianceOptimizer.results ComplianceOptimizer.optimizedInput
       ComplianceOptimizer.optimizationLog].
  split; [reflexivity|]. split; [reflexivity|]. split; [exact Hmet1|].
  split; [exact Hout|].
  split; [rewrite Hvalue; lra|]. split; [rewrite Hvalue; lra|].
  split; [exact Hrounded|].
  split; [exact Hrun|]. split; reflexivity.
Qed.

(** ** The theorems at concrete inputs *)

Lemma mass_balance_witness :
  exists r,
    @Performance.calculatePerformance rationalRuntime
      (pollutant DEFAULT_VALUES) (tower DEFAULT_VALUES)
      20000 3 1.644 1.127 343.9 0.05 2.123 6.369 313.15 = Ok r
    /\ Performance.outletConcentration r = 1500 * (1 - 0.9)
    /\ 0 <= Performance.outletConcentration r
    /\ Performance.outletConcentration r <= 1500.
Proof.
  apply (@mass_balance rationalRuntime
           (pollutant DEFAULT_VALUES) (tower DEFAULT_VALUES)
           20000 3 1.644 1.127 343.9 0.05 2.123 6.369 313.15
           {| henryConstant := 1230; diffusivity := 0.000012;
              molarMass := 64.066 |});
    reflexivity.
Defined.



Lemma unknown_pollutant_throws_witness :
  @Calculator.calculateSprayTower rationalRuntime unknownPollutantInput
  = Throw (TypeError
             "Cannot read properties of undefined (reading 'diffusivity')").
Proof.
  destruct (@unknown_pollutant_throws rationalRuntime unknownPollutantInput
              eq_refl) as [Hthrows _].
  apply Hthrows. reflexivity.
Defined.

(** The pollutant type "constructor" is not a key of the library, and the
    pipeline does not throw on it: the lookup gives the function every
    object inherits under that name, whose [diffusivity] and [molarMass]
    are [undefined], and the result holds NaN. *)
Lemma inherited_name_does_not_throw :
  POLLUTANT_LIBRARY !! type (pollutant inheritedNameInput) = None
  /\ @Calculator.calculateSprayTower rationalRuntime inheritedNameInput
     = NotANumber
  /\ @Calculator.calculateSprayTower rationalRuntime inheritedNameInput
     <> Throw (TypeError
                 "Cannot read properties of undefined (reading 'diffusivity')").
Proof.
  split; [reflexivity|]. split; [reflexivity | discriminate].
Qed.

Lemma eu_noncompliant_one_pass_witness :
  exists res,
    @ComplianceOptimizer.optimizeForCompliance rationalRuntime
      nonCompliantInput ComplianceOptimizer.defaultMaxIterations
    = Some (Ok res)
    /\ ComplianceOptimizer.iterations res = 1%Z
    /\ ComplianceOptimizer.convergenceReached res = true
    /\ outletConcentration (ComplianceOptimizer.results res) <= 0.91 * 200.
Proof.
  destruct (@Calculator.calculateSprayTower rationalRuntime nonCompliantInput)
    as [initial|e|] eqn:Hinit; [|vm_compute in Hinit; discriminate..].
  destruct (@eu_noncompliant_one_pass rationalRuntime nonCompliantInput
              initial 200 eq_refl eq_refl Hinit)
    as (res & Hopt & Hiter & Hconv & _ & _ & _ & Hout & _).
  - vm_compute in Hinit. injection Hinit as <-. reflexivity.
  - vm_compute. discriminate.
  - exists res. repeat split; assumption.
Defined.

(** SO2 at 2.7e18 mg/Nm3 with a target efficiency of 0.5, limit 200 and
    budget 20, as JavaScript computes it: [1 - 180 / 2.7e18] rounds to
    [1 - 2^-53], so the first pass evaluates to [2.7e18 * 2^-53], about
    299.76 mg/Nm3, not to 180; that exceeds the limit, no pass complies,
    and the optimizer returns after its 20 passes with [iterations = 21]
    and [convergenceReached = false]. *)
Lemma one_pass_fails_at_large_inlet :
  Binary64.emissionLimitsMet 200 (Binary64.outletConcentration 2.7e18 0.5)
  = false
  /\ Binary64.requiredEfficiency 200 2.7e18 = (1 - 0x1p-53)%float
  /\ Binary64.outletConcentration 2.7e18
       (Binary64.requiredEfficiency 200 2.7e18)
     = (2.7e18 * 0x1p-53)%float
  /\ PrimFloat.ltb 299 (2.7e18 * 0x1p-53) = true
  /\ Binary64.emissionLimitsMet 200
       (Binary64.outletConcentration 2.7e18
          (Binary64.requiredEfficiency 200 2.7e18))
     = false
  /\ Binary64.optimizeForCompliance 200 2.7e18 0.5 20 21
     = Some {| Binary64.returnedIterations := 21;
               Binary64.returnedConvergence := false;
               Binary64.returnedOutlet := (2.7e18 * 0x1p-53)%float |}.
Proof. repeat split; vm_compute; reflexivity. Qed.

(** ** Runs of the model *)

(** The default design complies as it stands: outlet 150 mg/Nm3 under the
    200 mg/Nm3 limit, so the optimizer returns it after 0 iterations. *)
Example default_design_complies :
  exists res,
    @ComplianceOptimizer.optimizeForCompliance rationalRuntime
      DEFAULT_VALUES ComplianceOptimizer.defaultMaxIterations = Some (Ok res)
    /\ ComplianceOptimizer.iterations res = 0%Z
    /\ ComplianceOptimizer.convergenceReached res = true
    /\ outletConcentration (ComplianceOptimizer.results res) == 150.
Proof.
  eexists. split; [vm_compute; reflexivity|]. now repeat split.
Qed.

(** With a budget of 2 the first pass is under strategy 2 and the second
    under strategy 3: the outlet stays at 750 mg/Nm3, the budget is
    exhausted with [iterations = 3], and the first pass is returned. *)
Example budget_of_two_is_exhausted :
  exists res,
    @ComplianceOptimizer.optimizeForCompliance rationalRuntime
      nonCompliantInput 2 = Some (Ok res)
    /\ ComplianceOptimizer.iterations res = 3%Z
    /\ ComplianceOptimizer.convergenceReached res = false
    /\ outletConcentration (ComplianceOptimizer.results res) == 750
    /\ ComplianceOptimizer.optimizedInput res
       = @parameterSet rationalRuntime nonCompliantInput 2 1
    /\ @Exhausted 2 2 (ComplianceOptimizer.iterations res).
Proof.
  eexists. split; [vm_compute; reflexivity|].
  repeat split; try reflexivity. intros Hle. vm_compute in Hle. now apply Hle.
Qed.

(** A zero viscosity override and a zero KGa override give the result of
    the default design, which has neither. *)
Example zero_overrides_run :
  @Calculator.calculateSprayTower rationalRuntime
    (withOverrides DEFAULT_VALUES (Some 0) (Some 0))
  = @Calculator.calculateSprayTower rationalRuntime DEFAULT_VALUES.
Proof. reflexivity. Qed.

(** Under the stand-in runtime the droplet solver leaves its loop at the
    4th pass on the default design. *)
Example droplet_solver_run :
  AdvancedCalculations.terminalVelocity
    (@AdvancedCalculations.calculateDropletPhysics rationalRuntime
       0.8 3 1.127 0.0000185 1000 5)
  = @velocityIterate rationalRuntime (0.8 * 0.001) 1.127 0.0000185 1000 4.
Proof. vm_compute. reflexivity. Qed.

(** [validateInput] lets the pollutant type "constructor" through:
    [POLLUTANT_LIBRARY["constructor"]] is the inherited function, which is
    truthy. *)
Example validator_passes_inherited_name :
  Validation.hasErrors
    (@Validation.validateInput rationalRuntime inheritedNameInput) = false.
Proof. reflexivity. Qed.

(** Under the nozzle type "constructor" the nozzle block runs on the
    inherited function: the performance calculation returns NaN for both
    nozzle results, and the pipeline passes the count on and, NaN being
    falsy, leaves the flow per nozzle undefined. *)
Example nozzle_named_after_inherited_property :
  exists r,
    @Calculator.calculateSprayTower rationalRuntime
      (with_tower DEFAULT_VALUES (towerWithNozzle "constructor")) = Ok r
    /\ nozzleFlowPerNozzle r = None
    /\ requiredNozzles r = Some NaN.
Proof. eexists. split; [vm_compute; reflexivity|]. split; reflexivity. Qed.

(** The design that does not comply, as JavaScript computes it: one pass,
    which evaluates to 180 mg/Nm3 and complies. *)
Example binary64_one_pass :
  Binary64.optimizeForCompliance 200 1500 0.5 20 21
  = Some {| Binary64.returnedIterations := 1;
            Binary64.returnedConvergence := true;
            Binary64.returnedOutlet := 180 |}.
Proof. vm_compute. reflexivity. Qed.

(** At the largest inlet concentration the statements about the first pass
    cover, with the lowest limit of the table (H2S, 5 mg/Nm3, target 4.5):
    one pass, which evaluates to about 4.49996 mg/Nm3, within 2^-14 of
    the target, and complies. *)
Example binary64_largest_inlet :
  exists outlet,
    Binary64.optimizeForCompliance 5 1e12 0.5 20 21
    = Some {| Binary64.returnedIterations := 1;
              Binary64.returnedConvergence := true;
              Binary64.returnedOutlet := outlet |}
    /\ PrimFloat.ltb 4.49993896484375 outlet = true
    /\ PrimFloat.ltb outlet 4.50006103515625 = true.
Proof. eexists. split; [vm_compute; reflexivity|]. split; reflexivity. Qed.

(** * Further properties of the calculation stages *)

Lemma Math_min_le_l (x y : Q) : Math_min x y <= x.
Proof.
  unfold Math_min. destruct (x <=? y) eqn:Hle; [apply Qle_refl|].
  apply Qlt_le_weak, Qnot_le_lt. intros Hxy. apply Qle_bool_iff in Hxy.
  congruence.
Qed.

Lemma Math_max_bounds (x y : Q) : x <= Math_max x y /\ y <= Math_max x y.
Proof.
  unfold Math_max. destruct (x <=? y) eqn:Hle.
  - apply Qle_bool_iff in Hle. split; [exact Hle | apply Qle_refl].
  - split; [apply Qle_refl|]. apply Qlt_le_weak, Qnot_le_lt. intros Hxy.
    apply Qle_bool_iff in Hxy. congruence.
Qed.

Lemma Math_max_cases (x y : Q) : Math_max x y = x \/ Math_max x y = y.
Proof. unfold Math_max. destruct (x <=? y); [now right | now left]. Qed.

Lemma Qdiv_pos (x y : Q) : 0 < x -> 0 < y -> 0 < x / y.
Proof.
  intros Hx Hy. apply Qlt_shift_div_l; [exact Hy|]. now rewrite Qmult_0_l.
Qed.

Lemma Qdiv_nonneg (x y : Q) : 0 <= x -> 0 < y -> 0 <= x / y.
Proof.
  intros Hx Hy. apply Qle_shift_div_l; [exact Hy|]. now rewrite Qmult_0_l.
Qed.

(** ** Gas properties *)

(** X1.  For a positive standard flow, a temperature above absolute zero,
    a positive pressure and a viscosity override that is not negative, the
    five operating properties are positive. *)
Theorem gas_properties_positive (gasStream : GasStreamProperties) :
  0 < gasFlowRate gasStream ->
  - (273.15) < temperature gasStream ->
  0 < pressure gasStream ->
  (forall mu, gasViscosity gasStream = Some mu -> 0 <= mu) ->
  let r := GasProperties.calculateGasProperties gasStream in
  0 < GasProperties.operatingTemp r
  /\ 0 < GasProperties.operatingPressure r
  /\ 0 < GasProperties.gasDensity r
  /\ 0 < GasProperties.operatingGasFlow r
  /\ 0 < GasProperties.effectiveGasViscosity r.
Proof.
  intros Hflow Htemp Hpress Hmu. cbv zeta.
  unfold GasProperties.calculateGasProperties. cbn.
  unfold C_to_K, kPa_to_Pa, M_AIR, R_GAS, h_to_s, STANDARD_TEMP,
    STANDARD_PRESSURE.
  assert (HT : 0 < temperature gasStream + 273.15) by lra.
  assert (HP : 0 < pressure gasStream * 1000) by lra.
  repeat split; try assumption.
  - apply Qdiv_pos; nra.
  - apply Qmult_lt_0_compat; [apply Qmult_lt_0_compat|]; apply Qdiv_pos; lra.
  - unfold orElse, MU_GAS_DEFAULT.
    destruct (gasViscosity gasStream) as [mu|]; [|reflexivity].
    destruct (Qeq_bool mu 0) eqn:Hzero; [reflexivity|].
    specialize (Hmu mu eq_refl).
    apply not_true_iff_false in Hzero. rewrite Qeq_bool_iff in Hzero.
    apply Qle_lteq in Hmu as [Hlt | Heq]; [exact Hlt|].
    exfalso. apply Hzero. now symmetry.
Qed.

(** X2.  The conversion to operating conditions keeps P Q / T: operating
    pressure times operating flow over operating temperature is the
    standard pressure times the standard flow (per second) over the
    standard temperature; the density obeys the ideal gas law; and at 0
    degrees C and 101.325 kPa the operating flow is the standard flow. *)
Theorem gas_flow_conversion (gasStream : GasStreamProperties) :
  ~ pressure gasStream == 0 ->
  ~ temperature gasStream == - (273.15) ->
  let r := GasProperties.calculateGasProperties gasStream in
  GasProperties.operatingPressure r * GasProperties.operatingGasFlow r
  * STANDARD_TEMP
  == STANDARD_PRESSURE * (gasFlowRate gasStream / 3600)
     * GasProperties.operatingTemp r
  /\ GasProperties.gasDensity r * R_GAS * GasProperties.operatingTemp r
     == GasProperties.operatingPressure r * M_AIR
  /\ (temperature gasStream == 0 -> pressure gasStream == 101.325 ->
      GasProperties.operatingGasFlow r == gasFlowRate gasStream / 3600).
Proof.
  intros Hpress Htemp. cbv zeta.
  unfold GasProperties.calculateGasProperties. cbn.
  unfold C_to_K, kPa_to_Pa, M_AIR, R_GAS, h_to_s, STANDARD_TEMP,
    STANDARD_PRESSURE.
  assert (HT : ~ temperature gasStream + 273.15 == 0)
    by (intros Heq; apply Htemp; lra).
  repeat split.
  - field. exact Hpress.
  - field. exact HT.
  - intros Hzero Hstd. rewrite Hzero, Hstd. field.
Qed.

(** ** Tower sizing *)

(** X3.  For a gas velocity and an operating flow that are not 0, the
    area times the velocity is the flow, the liquid flux is the L/G ratio
    times the gas velocity, and the hourly liquid rate is 3600 times the
    L/G ratio times the flow. *)
Theorem tower_sizing_continuity `{JsRuntime}
  (operatingGasFlow gasVelocity lgRatio : Q) :
  ~ gasVelocity == 0 ->
  ~ operatingGasFlow == 0 ->
  let r := TowerSizing.calculateTowerSizing operatingGasFlow gasVelocity
             lgRatio in
  TowerSizing.towerArea r * gasVelocity == operatingGasFlow
  /\ TowerSizing.liquidFlux r == lgRatio * gasVelocity
  /\ TowerSizing.liquidRate r == 3600 * lgRatio * operatingGasFlow
  /\ TowerSizing.towerDiameter r
     = Math_sqrt (4 * TowerSizing.towerArea r / Math_PI).
Proof.
  intros Hv Hflow. cbv zeta. unfold TowerSizing.calculateTowerSizing. cbn.
  repeat split.
  - field. exact Hv.
  - field. split; assumption.
  - ring.
Qed.

(** ** Mass transfer *)

(** X4.  On a pollutant of the library: an override of KGa that is not 0
    is returned as it is; without an override and with a liquid flux that
    is not positive the overall KGa is 0; and with a gas velocity that is
    not positive the interfacial area is 0. *)
Theorem mass_transfer_guards `{JsRuntime}
  (pollutant : PollutantProperties) (tower : TowerParameters)
  (gasDensity gasViscosity gasVelocity liquidFlux : Q) (data : PollutantData) :
  POLLUTANT_LIBRARY !! type pollutant = Some data ->
  exists r,
    MassTransfer.calculateMassTransfer pollutant tower gasDensity gasViscosity
      gasVelocity liquidFlux = Ok r
    /\ (forall kga, kgaOverride tower = Some kga -> ~ kga == 0 ->
        MassTransfer.overallKGa r = kga)
    /\ (kgaOverride tower = None -> liquidFlux <= 0 ->
        MassTransfer.overallKGa r = 0)
    /\ (gasVelocity <= 0 -> MassTransfer.interfacialArea r = 0)
    /\ (0 < gasVelocity ->
        MassTransfer.interfacialArea r
        = 6 * liquidFlux / (gasVelocity * (dropletSize tower * mm_to_m))).
Proof.
  intros Hdata. unfold MassTransfer.calculateMassTransfer.
  rewrite (objectGet_own _ _ _ Hdata). cbn [getProp bind].
  eexists. split; [reflexivity|].
  cbn [MassTransfer.overallKGa MassTransfer.interfacialArea]. repeat split.
  - intros kga -> Hkga. unfold orElse.
    destruct (Qeq_bool kga 0) eqn:Hzero; [|reflexivity].
    apply Qeq_bool_iff in Hzero. contradiction.
  - intros -> Hflux. unfold orElse, MassTransfer.calculatedKGa.
    now rewrite (gtb_of_le _ _ Hflux).
  - intros Hv. now rewrite (gtb_of_le _ _ Hv).
  - intros Hv. now rewrite (gtb_of_lt _ _ Hv).
Qed.

(** ** Droplet physics *)

(** X5.  The relative velocity is never negative.  When the terminal
    velocity does not exceed the gas velocity the relative velocity is 0
    and so is the contact time; otherwise the relative velocity is their
    difference and the contact time the spray height over it. *)
Theorem droplet_relative_velocity `{JsRuntime}
  (dropletSize gasVelocity gasDensity gasViscosity liquidDensity
   sprayHeight : Q) :
  let r := AdvancedCalculations.calculateDropletPhysics dropletSize gasVelocity
             gasDensity gasViscosity liquidDensity sprayHeight in
  0 <= AdvancedCalculations.relativeVelocity r
  /\ (AdvancedCalculations.terminalVelocity r <= gasVelocity ->
      AdvancedCalculations.relativeVelocity r == 0
      /\ AdvancedCalculations.contactTime r = 0)
  /\ (gasVelocity < AdvancedCalculations.terminalVelocity r ->
      AdvancedCalculations.relativeVelocity r
      = AdvancedCalculations.terminalVelocity r - gasVelocity
      /\ AdvancedCalculations.contactTime r
         = sprayHeight
           / (AdvancedCalculations.terminalVelocity r - gasVelocity)).
Proof.
  cbv zeta. unfold AdvancedCalculations.calculateDropletPhysics.
  cbn [AdvancedCalculations.relativeVelocity
       AdvancedCalculations.terminalVelocity AdvancedCalculations.contactTime].
  set (vt := AdvancedCalculations.terminalVelocityLoop _ _ _ _ _ _).
  split; [apply Math_max_bounds|]. split.
  - intros Hle.
    assert (Hzero : Math_max 0 (vt - gasVelocity) == 0).
    { unfold Math_max. destruct (0 <=? vt - gasVelocity) eqn:Hcmp;
        [|reflexivity].
      apply Qle_bool_iff in Hcmp. lra. }
    split; [exact Hzero|]. rewrite gtb_of_le; [reflexivity|].
    rewrite Hzero. apply Qle_refl.
  - intros Hlt.
    assert (Hmax : Math_max 0 (vt - gasVelocity) = vt - gasVelocity).
    { unfold Math_max. destruct (0 <=? vt - gasVelocity) eqn:Hcmp;
        [reflexivity|].
      apply not_true_iff_false in Hcmp. rewrite Qle_bool_iff in Hcmp.
      exfalso. apply Hcmp. lra. }
    rewrite Hmax. split; [reflexivity|]. rewrite gtb_of_lt; [reflexivity|].
    lra.
Qed.

(** ** Particulate efficiency *)

(** X6.  Whatever the inputs and whatever [Math.exp] returns, the three
    efficiencies stay under their ceilings: 0.99 for coarse, 0.80 for
    medium and 0.20 for fine particles. *)
Theorem particulate_ceilings `{JsRuntime}
  (dropletSize gasVelocity liquidFlux sprayHeight relativeVelocity : Q) :
  let r := AdvancedCalculations.calculateParticulateEfficiency dropletSize
             gasVelocity liquidFlux sprayHeight relativeVelocity in
  coarse_10um r <= 0.99 /\ medium_2um r <= 0.80 /\ fine_1um r <= 0.20.
Proof.
  cbv zeta. unfold AdvancedCalculations.calculateParticulateEfficiency.
  cbn [coarse_10um medium_2um fine_1um].
  repeat split; apply Math_min_le_l.
Qed.

(** ** Performance *)

Section PerformanceFurther.
Context `{JsRuntime}.

Variables (pollutant : PollutantProperties) (tower : TowerParameters).
Variables gasFlowRate gasVelocity towerDiameter gasDensity liquidRate
          overallKGa towerArea operatingGasFlow operatingTemp : Q.

Local Abbreviation run :=
  (Performance.calculatePerformance pollutant tower gasFlowRate gasVelocity
     towerDiameter gasDensity liquidRate overallKGa towerArea operatingGasFlow
     operatingTemp).

Lemma calculatePerformance_more (data : PollutantData) :
  POLLUTANT_LIBRARY !! type pollutant = Some data ->
  exists r, run = Ok r
    /\ Performance.requiredHeight r
       = (let volume :=
            Performance.sprayZoneVolume
              (Performance.molarGasFlow operatingGasFlow operatingTemp)
              (Performance.numberOfTransferUnits r) overallKGa in
          if (towerArea >? 0) && (volume >? 0) then volume / towerArea else 0)
    /\ Performance.gasResidenceTime r
       = (if gasVelocity >? 0
          then Performance.requiredHeight r / gasVelocity else 0)
    /\ Performance.nozzleFlowPerNozzle r
       = fst (Performance.nozzleSizing tower liquidRate)
    /\ Performance.requiredNozzles r
       = snd (Performance.nozzleSizing tower liquidRate).
Proof.
  intros Hdata. unfold Performance.calculatePerformance.
  rewrite (objectGet_own _ _ _ Hdata). cbn [getProp bind].
  eexists. split; [reflexivity|]. cbn. repeat split.
Qed.

(** X7.  On a pollutant of the library the required height and the gas
    residence time are never negative, whatever the signs of the flows,
    the coefficient and the area passed in. *)
Theorem height_and_residence_nonnegative (data : PollutantData) :
  POLLUTANT_LIBRARY !! type pollutant = Some data ->
  exists r, run = Ok r
    /\ 0 <= Performance.requiredHeight r
    /\ 0 <= Performance.gasResidenceTime r.
Proof.
  intros Hdata.
  destruct (calculatePerformance_more data Hdata)
    as (r & Hrun & Hheight & Htime & _).
  exists r. split; [exact Hrun|].
  assert (Hnonneg : 0 <= Performance.requiredHeight r).
  { rewrite Hheight. cbv zeta.
    destruct (towerArea >? 0) eqn:Harea; [|apply Qle_refl].
    destruct (_ >? 0) eqn:Hvol in |- *; [|apply Qle_refl].
    apply gtb_true in Harea, Hvol. cbn [andb].
    apply Qdiv_nonneg; [now apply Qlt_le_weak | exact Harea]. }
  split; [exact Hnonneg|]. rewrite Htime.
  destruct (gasVelocity >? 0) eqn:Hv; [|apply Qle_refl].
  apply gtb_true in Hv. now apply Qdiv_nonneg.
Qed.

(** X8.  With a nozzle type of the library and a positive flow per
    nozzle, the nozzle count is a whole number whose nozzles carry the
    liquid rate, while one nozzle fewer would not. *)
Theorem nozzle_count_suffices
  (data : PollutantData) (name : string) (nozzle : NozzleData) :
  POLLUTANT_LIBRARY !! type pollutant = Some data ->
  nozzleType tower = Some name ->
  name <> "" ->
  NOZZLE_LIBRARY !! name = Some nozzle ->
  0 < k nozzle * Math_sqrt (nozzlePressure tower) ->
  exists r (count : Z),
    run = Ok r
    /\ Performance.nozzleFlowPerNozzle r
       = Some (Rational (k nozzle * Math_sqrt (nozzlePressure tower)))
    /\ Performance.requiredNozzles r = Some (Rational (inject_Z count))
    /\ liquidRate
       <= inject_Z count * (k nozzle * Math_sqrt (nozzlePressure tower))
    /\ inject_Z (count - 1) * (k nozzle * Math_sqrt (nozzlePressure tower))
       < liquidRate.
Proof.
  intros Hdata Htype Hname Hnozzle Hflow.
  destruct (calculatePerformance_more data Hdata)
    as (r & Hrun & _ & _ & Hper & Hcount).
  unfold Performance.nozzleSizing in Hper, Hcount.
  rewrite Htype, (objectGet_own _ _ _ Hnozzle) in Hper, Hcount.
  apply String.eqb_neq in Hname. rewrite Hname in Hper, Hcount.
  cbn [fst snd] in Hper, Hcount. unfold Math_ceil in Hcount.
  set (flow := k nozzle * Math_sqrt (nozzlePressure tower)) in *.
  exists r, (Qceiling (liquidRate / flow)).
  repeat (split; [assumption|]).
  assert (Hrate : liquidRate == liquidRate / flow * flow)
    by (field; intros Hzero; rewrite Hzero in Hflow; now apply Qlt_irrefl in Hflow).
  pose proof (Qle_ceiling (liquidRate / flow)) as Hup.
  pose proof (Qceiling_lt (liquidRate / flow)) as Hdown.
  split.
  - rewrite Hrate at 1. apply Qmult_le_compat_r; [exact Hup|].
    now apply Qlt_le_weak.
  - rewrite Hrate at 2. now apply Qmult_lt_compat_r.
Qed.

(** X9.  Without a nozzle type, with the empty string, or with a type
    that is neither a key of the library nor the name of a property every
    object inherits, the nozzle block is skipped: nothing is thrown and
    both nozzle results are left undefined.  With a type that is such a
    name the block runs on the inherited value, which has no [k]: nothing
    is thrown and both nozzle results are NaN. *)
Theorem nozzle_block_skipped (data : PollutantData) :
  POLLUTANT_LIBRARY !! type pollutant = Some data ->
  exists r, run = Ok r
    /\ (nozzleType tower = None
        \/ nozzleType tower = Some ""
        \/ (exists name, nozzleType tower = Some name
                         /\ NOZZLE_LIBRARY !! name = None
                         /\ inheritedName name = false) ->
        Performance.nozzleFlowPerNozzle r = None
        /\ Performance.requiredNozzles r = None)
    /\ (forall name,
          nozzleType tower = Some name -> inheritedName name = true ->
          Performance.nozzleFlowPerNozzle r = Some NaN
          /\ Performance.requiredNozzles r = Some NaN).
Proof.
  intros Hdata.
  destruct (calculatePerformance_more data Hdata)
    as (r & Hrun & _ & _ & Hper & Hcount).
  exists r. split; [exact Hrun|]. rewrite Hper, Hcount.
  unfold Performance.nozzleSizing. split.
  - intros [-> | [-> | (name & -> & Hnone & Hname)]]; [split; reflexivity..|].
    rewrite (objectGet_undefined _ _ Hnone Hname).
    destruct (String.eqb name ""); split; reflexivity.
  - intros name -> Hname.
    destruct (inheritedName_no_key name Hname) as (_ & Hnone & _ & _ & _ & ->).
    rewrite (objectGet_inherited _ _ Hnone Hname). split; reflexivity.
Qed.

End PerformanceFurther.

(** ** The pipeline *)

Section PipelineFurther.
Context `{JsRuntime}.

(** X10.  The unit system changes neither what is thrown nor any
    computed quantity: every length, area, pressure, density, velocity
    and flow of the imperial result is the metric one times its fixed
    factor, and the outlet concentration, the compliance status and the
    other results are the same. *)
Theorem unit_system_projection
  (input : CalculatorInput) (metricResults : CalculationResults) :
  Calculator.calculateSprayTower (withUnitSystem input metric)
  = Ok metricResults ->
  exists r,
    Calculator.calculateSprayTower (withUnitSystem input imperial) = Ok r
    /\ towerDiameter r = towerDiameter metricResults * m_to_ft
    /\ requiredHeight r = requiredHeight metricResults * m_to_ft
    /\ pressureDrop r = pressureDrop metricResults * Pa_to_inH2O
    /\ gasDensity r = gasDensity metricResults * kg_m3_to_lb_ft3
    /\ liquidRate r = liquidRate metricResults * m3h_to_gpm
    /\ operatingGasFlow r = operatingGasFlow metricResults * 127133
    /\ towerArea r = towerArea metricResults * m2_to_ft2
    /\ liquidFlowRate r = liquidFlowRate metricResults * m3h_to_gpm / 60
    /\ dropletTerminalVelocity r
       = dropletTerminalVelocity metricResults * m_s_to_ft_s
    /\ relativeVelocity r = relativeVelocity metricResults * m_s_to_ft_s
    /\ nozzleFlowPerNozzle r
       = option_map (Numeric_map (fun flow => flow * m3h_to_gpm))
           (nozzleFlowPerNozzle metricResults)
    /\ outletConcentration r = outletConcentration metricResults
    /\ complianceStatus r = complianceStatus metricResults
    /\ numberOfTransferUnits r = numberOfTransferUnits metricResults
    /\ gasResidenceTime r = gasResidenceTime metricResults
    /\ overallKGa r = overallKGa metricResults
    /\ interfacialArea r = interfacialArea metricResults
    /\ molesRemoved r = molesRemoved metricResults
    /\ naohConsumption r = naohConsumption metricResults
    /\ requiredNozzles r = requiredNozzles metricResults
    /\ dropletContactTime r = dropletContactTime metricResults
    /\ reynoldsNumber r = reynoldsNumber metricResults
    /\ schmidtNumber r = schmidtNumber metricResults
    /\ sherwoodNumber r = sherwoodNumber metricResults
    /\ particulateEfficiency r = particulateEfficiency metricResults.
Proof.
  unfold Calculator.calculateSprayTower. cbv zeta.
  cbn [withUnitSystem gasStream pollutant tower settings unitSystem
       regulatoryFramework].
  destruct (MassTransfer.calculateMassTransfer _ _ _ _ _ _) as [m|e|];
    [|discriminate..].
  cbn [bind].
  destruct (Performance.calculatePerformance _ _ _ _ _ _ _ _ _ _ _)
    as [perf|e|]; [|discriminate..].
  cbn [bind]. intros Hmetric. injection Hmetric as <-.
  eexists. split; [reflexivity|]. cbn.
  repeat split.
  destruct (Performance.nozzleFlowPerNozzle perf) as [[flow|]|];
    [|reflexivity..].
  cbn. destruct (Qeq_bool flow 0); reflexivity.
Qed.

(** X11.  The pressure-vessel code of a result depends on the framework
    and the gas pressure alone: under the EU framework the Pressure
    Equipment Directive applies above 50 kPa, under the US framework
    ASME Section VIII applies above 103.421 kPa, and the vessel is
    atmospheric otherwise; the framework of the status is the one of the
    settings. *)
Theorem pressure_vessel_code
  (input : CalculatorInput) (r : CalculationResults) :
  Calculator.calculateSprayTower input = Ok r ->
  framework (complianceStatus r) = regulatoryFramework (settings input)
  /\ pressureVesselCode (complianceStatus r)
     = match regulatoryFramework (settings input) with
       | EU => if pressure (gasStream input) >? 50
               then "EU PED (>0.5 bar)" else "Atmospheric vessel"
       | US => if pressure (gasStream input) >? 103.421
               then "ASME BPVC Section VIII" else "Atmospheric vessel"
       end.
Proof.
  intros Hrun.
  destruct (calculateSprayTower_Ok_known input r Hrun) as (data & Hdata).
  destruct (calculateSprayTower_known input data Hdata)
    as (r' & Hrun' & _ & Hstatus).
  rewrite Hrun in Hrun'. injection Hrun' as <-. rewrite Hstatus.
  unfold kPa_to_Pa.
  assert (Hscale : forall p t : Q, (p * 1000 >? t * 1000) = (p >? t)).
  { intros p t. destruct (p >? t) eqn:Hcmp.
    - apply gtb_true in Hcmp. apply gtb_true. lra.
    - apply gtb_false in Hcmp. apply gtb_false. lra. }
  assert (Heu : forall p : Q, (p * 1000 >? 50000) = (p >? 50)).
  { intros p. rewrite <- (Hscale p 50).
    destruct (p * 1000 >? 50 * 1000) eqn:Hcmp.
    - apply gtb_true in Hcmp. apply gtb_true. lra.
    - apply gtb_false in Hcmp. apply gtb_false. lra. }
  assert (Hus : forall p : Q, (p * 1000 >? 103421) = (p >? 103.421)).
  { intros p. rewrite <- (Hscale p 103.421).
    destruct (p * 1000 >? 103.421 * 1000) eqn:Hcmp.
    - apply gtb_true in Hcmp. apply gtb_true. lra.
    - apply gtb_false in Hcmp. apply gtb_false. lra. }
  unfold AdvancedCalculations.calculateComplianceStatus.
  destruct (regulatoryFramework (settings input));
    cbn [framework pressureVesselCode]; split; try reflexivity.
  - now rewrite Heu.
  - now rewrite Hus.
Qed.

End PipelineFurther.

(** ** Emission limits of the optimizer *)

(** X12.  For a pollutant type that is not the name of a property every
    object inherits, [getEmissionLimits] returns a positive limit: the
    entry of the pollutant, or 100 (EU) and 200 (US) mg/Nm3 for a
    pollutant without one.  The EU limit never exceeds the US one, and for
    a pollutant the compliance evaluator has an entry for, the EU limit is
    that entry.  For a pollutant type that is such a name it returns the
    inherited value, which is no number. *)
Theorem emission_limits_defaults (pollutantType : string) :
  (inheritedName pollutantType = false ->
   exists eu us : Q,
     ComplianceOptimizer.getEmissionLimits EU pollutantType = Ok eu
     /\ ComplianceOptimizer.getEmissionLimits US pollutantType = Ok us
     /\ 0 < eu
     /\ eu <= us
     /\ (ComplianceOptimizer.euLimits !! pollutantType = None -> eu = 100)
     /\ (ComplianceOptimizer.usLimits !! pollutantType = None -> us = 200)
     /\ (forall limit,
           AdvancedCalculations.euLimits !! pollutantType = Some limit ->
           eu = limit))
  /\ (inheritedName pollutantType = true ->
      forall framework,
        ComplianceOptimizer.getEmissionLimits framework pollutantType
        = NotANumber).
Proof.
  split.
  2:{ intros Hname framework.
      destruct (inheritedName_no_key _ Hname) as (_ & _ & _ & Heu & Hus & _).
      unfold ComplianceOptimizer.getEmissionLimits.
      rewrite (objectGet_inherited _ _ Heu Hname),
              (objectGet_inherited _ _ Hus Hname).
      now destruct framework. }
  intros Hname.
  destruct (ComplianceOptimizer.euLimits !! pollutantType) as [eu|] eqn:Heu.
  - assert (Hkey : pollutantType = "SO2" \/ pollutantType = "HCl"
                   \/ pollutantType = "NH3" \/ pollutantType = "H2S").
    { revert Heu. unfold ComplianceOptimizer.euLimits.
      rewrite !lookup_insert, lookup_empty.
      repeat case_decide; intros; simplify_eq; tauto. }
    destruct Hkey as [-> | [-> | [-> | ->]]]; vm_compute in Heu;
      injection Heu as <-; eexists _, _;
      (split; [reflexivity|]); (split; [reflexivity|]);
      (split; [reflexivity|]); (split; [discriminate|]);
      (split; [discriminate|]); (split; [discriminate|]);
      intros limit Hl; vm_compute in Hl; now injection Hl.
  - assert (Hus : ComplianceOptimizer.usLimits !! pollutantType = None).
    { revert Heu. unfold ComplianceOptimizer.euLimits, ComplianceOptimizer.usLimits.
      rewrite !lookup_insert, !lookup_empty.
      repeat case_decide; intros; simplify_eq; reflexivity. }
    exists 100, 200. unfold ComplianceOptimizer.getEmissionLimits.
    rewrite (objectGet_undefined _ _ Heu Hname),
            (objectGet_undefined _ _ Hus Hname).
    repeat split; try reflexivity.
    + discriminate.
    + intros limit Hl.
      change AdvancedCalculations.euLimits with ComplianceOptimizer.euLimits in Hl.
      congruence.
Qed.

(** * Further properties of the optimizer *)

Section OptimizerFurther.
Context `{JsRuntime}.
Variables (input : CalculatorInput) (maxIterations : Q).

Local Abbreviation pass := (parameterSet input maxIterations).

(** Without strategy 1 at the first pass, every pass has the compliance
    status of the unmodified input. *)
Lemma later_passes_same_status (initial r : CalculationResults) (n : nat) :
  (inject_Z 1 <=? maxIterations * 0.4) = false ->
  Calculator.calculateSprayTower input = Ok initial ->
  Calculator.calculateSprayTower (pass n) = Ok r ->
  complianceStatus r = complianceStatus initial.
Proof.
  intros Hphase Hinit Hrun.
  pose proof (later_passes_same_outlet input maxIterations initial r n
                Hphase Hinit Hrun) as Hout.
  destruct (calculateSprayTower_Ok_known input initial Hinit) as (data & Hdata).
  destruct (calculateSprayTower_known input data Hdata)
    as (r0 & Hrun0 & _ & Hstatus0).
  destruct (parameterSet_keeps input maxIterations n)
    as (Htype & _ & Hsettings & Hgas).
  destruct (calculateSprayTower_known (pass n) data)
    as (r1 & Hrun1 & _ & Hstatus1).
  { rewrite Htype. exact Hdata. }
  rewrite Hinit in Hrun0. injection Hrun0 as <-.
  rewrite Hrun in Hrun1. injection Hrun1 as <-.
  rewrite Hstatus1, Hstatus0, Htype, Hsettings, Hgas, Hout. reflexivity.
Qed.

(** What the optimizer returns on an input the pipeline evaluates. *)
Lemma optimize_outcome (initial : CalculationResults) :
  Calculator.calculateSprayTower input = Ok initial ->
  exists res (j : nat),
    ComplianceOptimizer.optimizeForCompliance input maxIterations
    = Some (Ok res)
    /\ ComplianceOptimizer.optimizedInput res = pass j
    /\ Calculator.calculateSprayTower (pass j)
       = Ok (ComplianceOptimizer.results res)
    /\ ComplianceOptimizer.convergenceReached res
       = emissionLimitsMet
           (complianceStatus (ComplianceOptimizer.results res)).
Proof.
  intros Hinit.
  destruct (emissionLimitsMet (complianceStatus initial)) eqn:Hmet.
  { unfold ComplianceOptimizer.optimizeForCompliance. cbv zeta.
    rewrite Hinit, Hmet. eexists. exists 0%nat. split; [reflexivity|].
    cbn. now repeat split. }
  destruct (inject_Z 1 <=? maxIterations * 0.4) eqn:Hphase.
  { destruct (optimize_first_pass input maxIterations initial Hinit Hmet Hphase)
      as (limit & r & _ & Hrun & _ & Hmet1 & Hopt).
    eexists. exists 1%nat. split; [exact Hopt|]. cbn. now repeat split. }
  destruct (calculateSprayTower_Ok_known input initial Hinit) as (data & Hdata).
  destruct (noncompliant_limit input initial Hinit Hmet)
    as (limit & _ & _ & _ & Hlimit & Htarget).
  unfold ComplianceOptimizer.optimizeForCompliance. cbv zeta.
  rewrite Hinit, Hmet, Hlimit. rewrite <- Htarget.
  match goal with
  | |- context [ComplianceOptimizer.loop ?a ?b ?c ?d ?f ?v0] =>
      destruct (loop_leaves input maxIterations initial data Hdata f 0 v0)
        as (v' & Hrun & Hpost);
      [ repeat split
      | unfold ComplianceOptimizer.fuelFor; lia
      | assert (Hrun' : ComplianceOptimizer.loop a b c d f v0 = Some (Ok v'))
          by exact Hrun;
        rewrite Hrun'; clear Hrun Hrun' ]
  end.
  destruct Hpost as [(_ & m & _ & _ & _ & r & Hr & Hmet')
                    | (Hno & m & _ & _ & Htrack)].
  - rewrite (later_passes_same_status initial r m Hphase Hinit Hr) in Hmet'.
    congruence.
  - match goal with
    | |- context [ComplianceOptimizer.finish _ ?l v'] =>
        destruct (finish_best input maxIterations initial m v' l
                    Hinit Hphase Hno Htrack)
          as (_ & Hconv & (j & _ & Hji & Hjr) & _)
    end.
    eexists. exists j. split; [reflexivity|].
    repeat (split; [assumption|]). rewrite Hconv.
    now rewrite (later_passes_same_status initial _ j Hphase Hinit Hjr).
Qed.

(** Strategy 2 and strategy 3 factors lie between 0.5 and 1 once the
    iteration is past the start of their phase. *)
Lemma scaled_factor_bounds (start rate iteration value : Q) :
  start < iteration -> 0 < rate -> 0 <= value ->
  let factor := Math_max 0.5 (1 - (iteration - start) * rate) in
  0.5 * value <= value * factor /\ value * factor <= value.
Proof.
  intros Hpast Hrate Hvalue. cbv zeta.
  pose proof (Math_max_bounds 0.5 (1 - (iteration - start) * rate)) as [Hlow _].
  assert (Hhigh : Math_max 0.5 (1 - (iteration - start) * rate) <= 1).
  { destruct (Math_max_cases 0.5 (1 - (iteration - start) * rate)) as [-> | ->];
      nra. }
  split; nra.
Qed.

End OptimizerFurther.

(** X13.  Under the US framework the evaluator reports every design of a
    known pollutant as compliant, so the optimizer makes no pass: it
    returns the input and its evaluation with 0 iterations, whatever the
    outlet concentration and the budget. *)
Theorem us_framework_never_optimized `{JsRuntime}
  (input : CalculatorInput) (maxIterations : Q) (data : PollutantData) :
  regulatoryFramework (settings input) = US ->
  POLLUTANT_LIBRARY !! type (pollutant input) = Some data ->
  exists r res,
    Calculator.calculateSprayTower input = Ok r
    /\ emissionLimitsMet (complianceStatus r) = true
    /\ ComplianceOptimizer.shouldOptimizeForCompliance input = Ok false
    /\ ComplianceOptimizer.optimizeForCompliance input maxIterations
       = Some (Ok res)
    /\ ComplianceOptimizer.results res = r
    /\ ComplianceOptimizer.optimizedInput res = input
    /\ ComplianceOptimizer.iterations res = 0%Z
    /\ ComplianceOptimizer.convergenceReached res = true.
Proof.
  intros Hus Hdata.
  destruct (calculateSprayTower_known input data Hdata)
    as (r & Hrun & _ & Hstatus).
  assert (Hmet : emissionLimitsMet (complianceStatus r) = true)
    by (rewrite Hstatus, Hus; reflexivity).
  exists r. eexists. repeat (split; [eassumption|]).
  split.
  { unfold ComplianceOptimizer.shouldOptimizeForCompliance.
    rewrite Hrun. cbn [bind]. now rewrite Hmet. }
  unfold ComplianceOptimizer.optimizeForCompliance. cbv zeta.
  rewrite Hrun, Hmet. split; [reflexivity|]. now repeat split.
Qed.

(** X14.  With a budget of at least 2.5 iterations the first pass is
    under strategy 1, and the optimizer converges on every input with a
    known pollutant and an inlet concentration of at most 1e12 mg/Nm3 in
    magnitude: it returns after 0 or 1 iterations with
    [convergenceReached = true] and a compliant result, which is the
    evaluation of the parameter set it returns.  The optimizer is
    evaluated over exact rationals; the bound on the inlet concentration
    is what keeps the outlet concentration of the first pass within the
    limit when the literal 0.9 and every operation are rounded with a
    relative error of at most 2^-53 as in binary64. *)
Theorem budget_reaching_strategy_one_converges `{JsRuntime}
  (input : CalculatorInput) (maxIterations : Q) (data : PollutantData) :
  POLLUTANT_LIBRARY !! type (pollutant input) = Some data ->
  2.5 <= maxIterations ->
  Qabs (inletConcentration (pollutant input)) <= largestInlet ->
  (exists res,
     ComplianceOptimizer.optimizeForCompliance input maxIterations
     = Some (Ok res)
     /\ ComplianceOptimizer.convergenceReached res = true
     /\ (ComplianceOptimizer.iterations res = 0%Z
         \/ ComplianceOptimizer.iterations res = 1%Z)
     /\ emissionLimitsMet (complianceStatus (ComplianceOptimizer.results res))
        = true
     /\ Calculator.calculateSprayTower (ComplianceOptimizer.optimizedInput res)
        = Ok (ComplianceOptimizer.results res))
  /\ (forall (rnd : Q -> Q) (limit : Q),
        RoundsLikeBinary64 rnd ->
        AdvancedCalculations.euLimits !! type (pollutant input) = Some limit ->
        ~ inletConcentration (pollutant input) == 0 ->
        roundedFirstPassOutlet rnd limit (inletConcentration (pollutant input))
        <= limit).
Proof.
  intros Hdata Hbudget Hbound. split.
  2:{ intros rnd limit Hrnd Hl Hinlet.
      now apply (rounded_first_pass_within_limit rnd Hrnd
                   (type (pollutant input))). }
  destruct (calculateSprayTower_known input data Hdata) as (initial & Hinit & _).
  destruct (emissionLimitsMet (complianceStatus initial)) eqn:Hmet.
  - unfold ComplianceOptimizer.optimizeForCompliance. cbv zeta.
    rewrite Hinit, Hmet. eexists. split; [reflexivity|]. cbn.
    repeat split; try assumption. now left.
  - assert (Hphase : (inject_Z 1 <=? maxIterations * 0.4) = true).
    { apply Qle_bool_iff. change (inject_Z 1) with 1. lra. }
    destruct (optimize_first_pass input maxIterations initial Hinit Hmet Hphase)
      as (limit & r & _ & Hrun & _ & Hmet1 & Hopt).
    eexists. split; [exact Hopt|]. cbn.
    repeat split; try assumption. now right.
Qed.

(** X15.  With a budget below 1 the loop makes no pass: a design that
    does not comply comes back as it went in, with its own evaluation,
    [iterations = 1], [convergenceReached = false] and the five lines the
    log holds before the loop. *)
Theorem budget_below_one_returns_input `{JsRuntime}
  (input : CalculatorInput) (maxIterations : Q)
  (initial : CalculationResults) :
  Calculator.calculateSprayTower input = Ok initial ->
  emissionLimitsMet (complianceStatus initial) = false ->
  maxIterations < 1 ->
  exists res,
    ComplianceOptimizer.optimizeForCompliance input maxIterations
    = Some (Ok res)
    /\ ComplianceOptimizer.results res = initial
    /\ ComplianceOptimizer.optimizedInput res = input
    /\ ComplianceOptimizer.iterations res = 1%Z
    /\ ComplianceOptimizer.convergenceReached res = false
    /\ length (ComplianceOptimizer.optimizationLog res) = 5%nat.
Proof.
  intros Hinit Hmet Hbudget.
  assert (Hguard : (inject_Z 1 <=? maxIterations) = false).
  { apply not_true_iff_false. rewrite Qle_bool_iff.
    change (inject_Z 1) with 1. lra. }
  destruct (noncompliant_limit input initial Hinit Hmet)
    as (limit & _ & _ & _ & Hlimit & _).
  unfold ComplianceOptimizer.optimizeForCompliance. cbv zeta.
  rewrite Hinit, Hmet, Hlimit. unfold ComplianceOptimizer.fuelFor.
  cbn [ComplianceOptimizer.loop ComplianceOptimizer.Vars.iterations].
  rewrite Hguard. eexists. split; [reflexivity|]. cbn. now repeat split.
Qed.

(** X16.  The flag can be trusted: on every input the pipeline
    evaluates, and for every budget, [convergenceReached] is [true]
    exactly when the result returned meets the emission limits. *)
Theorem convergence_flag_is_compliance `{JsRuntime}
  (input : CalculatorInput) (maxIterations : Q)
  (initial : CalculationResults) :
  Calculator.calculateSprayTower input = Ok initial ->
  exists res,
    ComplianceOptimizer.optimizeForCompliance input maxIterations
    = Some (Ok res)
    /\ ComplianceOptimizer.convergenceReached res
       = emissionLimitsMet
           (complianceStatus (ComplianceOptimizer.results res)).
Proof.
  intros Hinit.
  destruct (optimize_outcome input maxIterations initial Hinit)
    as (res & j & Hopt & _ & _ & Hflag).
  now exists res.
Qed.

(** X17.  The result and the parameter set returned belong together: on
    every input the pipeline evaluates, the optimizer returns the
    parameter set of one of its passes (pass 0 being the input itself),
    and the result returned is the pipeline's evaluation of that
    parameter set. *)
Theorem results_match_optimized_input `{JsRuntime}
  (input : CalculatorInput) (maxIterations : Q)
  (initial : CalculationResults) :
  Calculator.calculateSprayTower input = Ok initial ->
  exists res (j : nat),
    ComplianceOptimizer.optimizeForCompliance input maxIterations
    = Some (Ok res)
    /\ ComplianceOptimizer.optimizedInput res
       = parameterSet input maxIterations j
    /\ Calculator.calculateSprayTower (ComplianceOptimizer.optimizedInput res)
       = Ok (ComplianceOptimizer.results res).
Proof.
  intros Hinit.
  destruct (optimize_outcome input maxIterations initial Hinit)
    as (res & j & Hopt & Hset & Hrun & _).
  exists res, j. rewrite Hset. now repeat split.
Qed.

(** X18.  The passes stay near the design they start from.  For an input
    whose gas velocity, droplet size and L/G ratio are not negative, the
    parameter set of every pass has a gas velocity and a droplet size
    between half the original and the original, an L/G ratio between the
    original and the original times (1 + 0.1 n), and the other tower
    parameters, the gas stream and the settings of the input. *)
Theorem passes_bounded_mutations `{JsRuntime}
  (input : CalculatorInput) (maxIterations : Q) (n : nat) :
  0 <= gasVelocity (tower input) ->
  0 <= dropletSize (tower input) ->
  0 <= lgRatio (tower input) ->
  let t := tower (parameterSet input maxIterations n) in
  (0.5 * gasVelocity (tower input) <= gasVelocity t
   /\ gasVelocity t <= gasVelocity (tower input))
  /\ (0.5 * dropletSize (tower input) <= dropletSize t
      /\ dropletSize t <= dropletSize (tower input))
  /\ (lgRatio (tower input) <= lgRatio t
      /\ lgRatio t
         <= lgRatio (tower input) * (1 + 0.1 * inject_Z (Z.of_nat n)))
  /\ liquidDensity t = liquidDensity (tower input)
  /\ liquidViscosity t = liquidViscosity (tower input)
  /\ nozzleType t = nozzleType (tower input)
  /\ nozzlePressure t = nozzlePressure (tower input)
  /\ kgaOverride t = kgaOverride (tower input)
  /\ frictionFactor t = frictionFactor (tower input)
  /\ pumpHead t = pumpHead (tower input)
  /\ naohStoichiometry t = naohStoichiometry (tower input)
  /\ gasStream (parameterSet input maxIterations n) = gasStream input
  /\ settings (parameterSet input maxIterations n) = settings input.
Proof.
  intros Hv Hd Hlg. cbv zeta.
  induction n as [|n IH].
  - cbn [parameterSet]. change (inject_Z (Z.of_nat 0)) with 0.
    repeat split; try reflexivity; lra.
  - destruct IH as ((Hv1 & Hv2) & (Hd1 & Hd2) & (Hl1 & Hl2) & Hrest).
    assert (Hk : inject_Z (Z.of_nat (S n)) == inject_Z (Z.of_nat n) + 1).
    { rewrite Nat2Z.inj_succ. unfold Z.succ. rewrite inject_Z_plus.
      reflexivity. }
    assert (Hkn : 0 <= inject_Z (Z.of_nat n)).
    { change 0 with (inject_Z 0). rewrite <- Zle_Qle. lia. }
    cbn [parameterSet]. unfold ComplianceOptimizer.adjust. cbv zeta.
    set (kn := inject_Z (Z.of_nat n)) in *.
    set (ks := inject_Z (Z.of_nat (S n))) in *.
    destruct (ks <=? maxIterations * 0.4) eqn:Hone.
    + cbn [fst tower with_lgRatio gasVelocity dropletSize lgRatio
           liquidDensity liquidViscosity nozzleType nozzlePressure
           kgaOverride frictionFactor pumpHead naohStoichiometry gasStream
           settings].
      repeat split; try tauto; try assumption.
      * rewrite Hk. nra.
      * rewrite Hk. nra.
    + apply not_true_iff_false in Hone. rewrite Qle_bool_iff in Hone.
      apply Qnot_le_lt in Hone.
      destruct (ks <=? maxIterations * 0.7) eqn:Htwo.
      * cbn [fst tower with_tower with_gasVelocity gasVelocity dropletSize
             lgRatio liquidDensity liquidViscosity nozzleType nozzlePressure
             kgaOverride frictionFactor pumpHead naohStoichiometry gasStream
             settings].
        destruct (scaled_factor_bounds (maxIterations * 0.4) 0.05 ks
                    (gasVelocity (tower input)) Hone eq_refl Hv)
          as (Hlow & Hhigh).
        repeat split; try tauto; try assumption.
        rewrite Hk. nra.
      * apply not_true_iff_false in Htwo. rewrite Qle_bool_iff in Htwo.
        apply Qnot_le_lt in Htwo.
        cbn [fst tower with_tower with_dropletSize gasVelocity dropletSize
             lgRatio liquidDensity liquidViscosity nozzleType nozzlePressure
             kgaOverride frictionFactor pumpHead naohStoichiometry gasStream
             settings].
        destruct (scaled_factor_bounds (maxIterations * 0.7) 0.1 ks
                    (dropletSize (tower input)) Htwo eq_refl Hd)
          as (Hlow & Hhigh).
        repeat split; try tauto; try assumption.
        rewrite Hk. nra.
Qed.

(** * The entry point with optimization *)

(** X19.  On every input with a known pollutant and an inlet
    concentration of at most 1e12 mg/Nm3 in magnitude
    [calculateSprayTowerWithCompliance] returns a compliant design: either
    the input already complies, and it is returned with its evaluation,
    not optimized, after 0 iterations; or the optimizer was run with its
    default budget and converged after 1 iteration.  Either way the result
    is the evaluation of the parameter set reported as optimized, and the
    original input is reported as it was.  The entry point is evaluated
    over exact rationals; the bound on the inlet concentration is what
    keeps the outlet concentration of the optimizer's first pass within
    the limit when the literal 0.9 and every operation are rounded with a
    relative error of at most 2^-53 as in binary64. *)
Theorem enhanced_calculation_complies `{JsRuntime}
  (input : CalculatorInput) (data : PollutantData) :
  POLLUTANT_LIBRARY !! type (pollutant input) = Some data ->
  Qabs (inletConcentration (pollutant input)) <= largestInlet ->
  (exists res info,
     EnhancedCalculator.calculateSprayTowerWithCompliance input = Some (Ok res)
     /\ EnhancedCalculator.optimizationInfo res = Some info
     /\ emissionLimitsMet (complianceStatus (EnhancedCalculator.results res))
        = true
     /\ EnhancedCalculator.convergenceReached info = true
     /\ EnhancedCalculator.originalInput info = input
     /\ Calculator.calculateSprayTower (EnhancedCalculator.optimizedInput info)
        = Ok (EnhancedCalculator.results res)
     /\ (EnhancedCalculator.wasOptimized info = false
         /\ EnhancedCalculator.iterations info = 0%Z
         /\ EnhancedCalculator.optimizedInput info = input
         \/ EnhancedCalculator.wasOptimized info = true
            /\ EnhancedCalculator.iterations info = 1%Z))
  /\ (forall (rnd : Q -> Q) (limit : Q),
        RoundsLikeBinary64 rnd ->
        AdvancedCalculations.euLimits !! type (pollutant input) = Some limit ->
        ~ inletConcentration (pollutant input) == 0 ->
        roundedFirstPassOutlet rnd limit (inletConcentration (pollutant input))
        <= limit).
Proof.
  intros Hdata Hbound. split.
  2:{ intros rnd limit Hrnd Hl Hinlet.
      now apply (rounded_first_pass_within_limit rnd Hrnd
                   (type (pollutant input))). }
  destruct (calculateSprayTower_known input data Hdata) as (initial & Hinit & _).
  unfold EnhancedCalculator.calculateSprayTowerWithCompliance,
    ComplianceOptimizer.shouldOptimizeForCompliance.
  rewrite Hinit. cbn [bind].
  destruct (emissionLimitsMet (complianceStatus initial)) eqn:Hmet; cbn [negb].
  - eexists. eexists. split; [reflexivity|]. cbn.
    repeat split; try assumption. left. now repeat split.
  - destruct (optimize_first_pass input ComplianceOptimizer.defaultMaxIterations
                initial Hinit Hmet eq_refl)
      as (limit & r & _ & Hrun & _ & Hmet1 & Hopt).
    rewrite Hopt. eexists. eexists. split; [reflexivity|]. cbn.
    repeat split; try assumption. right. now split.
Qed.

(** A pollutant type that reads as [undefined] makes the entry point throw
    what the pipeline throws. *)
Lemma enhanced_calculation_unknown `{JsRuntime} (input : CalculatorInput) :
  POLLUTANT_LIBRARY !! type (pollutant input) = None ->
  inheritedName (type (pollutant input)) = false ->
  EnhancedCalculator.calculateSprayTowerWithCompliance input
  = Some (Throw (TypeError
             "Cannot read properties of undefined (reading 'diffusivity')")).
Proof.
  intros Hnone Hname.
  unfold EnhancedCalculator.calculateSprayTowerWithCompliance,
    ComplianceOptimizer.shouldOptimizeForCompliance.
  now rewrite calculateSprayTower_unknown.
Qed.

(** * Validation *)

Lemma hasErrors_pushEntry
  (errors : list ValidationError.t) (entry : ValidationError.t) :
  Validation.hasErrors (Validation.pushEntry errors entry)
  = Validation.hasErrors errors || Validation.isError entry.
Proof.
  unfold Validation.hasErrors, Validation.pushEntry.
  rewrite existsb_app. cbn. now rewrite orb_false_r.
Qed.

Lemma hasErrors_if_error
  (c : bool) (errors : list ValidationError.t) (f m : string) :
  Validation.hasErrors
    (if c
     then Validation.pushEntry errors
            {| ValidationError.field := f; ValidationError.message := m;
               ValidationError.type := ValidationError.error |}
     else errors) = false ->
  c = false /\ Validation.hasErrors errors = false.
Proof.
  destruct c; [|now split]. rewrite hasErrors_pushEntry. cbn.
  rewrite orb_true_r. discriminate.
Qed.

Lemma hasErrors_if_warning
  (c : bool) (errors : list ValidationError.t) (f m : string) :
  Validation.hasErrors
    (if c
     then Validation.pushEntry errors
            {| ValidationError.field := f; ValidationError.message := m;
               ValidationError.type := ValidationError.warning |}
     else errors) = false ->
  Validation.hasErrors errors = false.
Proof.
  destruct c; [|easy]. rewrite hasErrors_pushEntry. cbn.
  now rewrite orb_false_r.
Qed.

Lemma hasErrors_if_error_warning
  (c1 c2 : bool) (errors : list ValidationError.t) (f1 m1 f2 m2 : string) :
  Validation.hasErrors
    (if c1
     then Validation.pushEntry errors
            {| ValidationError.field := f1; ValidationError.message := m1;
               ValidationError.type := ValidationError.error |}
     else if c2
     then Validation.pushEntry errors
            {| ValidationError.field := f2; ValidationError.message := m2;
               ValidationError.type := ValidationError.warning |}
     else errors) = false ->
  c1 = false /\ Validation.hasErrors errors = false.
Proof.
  destruct c1.
  - rewrite hasErrors_pushEntry. cbn. rewrite orb_true_r. discriminate.
  - intros Hno. split; [reflexivity|]. destruct c2; [|exact Hno].
    rewrite hasErrors_pushEntry in Hno. cbn in Hno.
    now rewrite orb_false_r in Hno.
Qed.




Lemma outside_false (value : Q) (range : Range.t) :
  Validation.outside value range = false ->
  Range.min range <= value /\ value <= Range.max range.
Proof.
  unfold Validation.outside. intros Hin.
  apply orb_false_iff in Hin as [Hlow Hhigh].
  apply ltb_false in Hlow. apply gtb_false in Hhigh. now split.
Qed.

Lemma Qle_bool_false (x y : Q) : (x <=? y) = false -> y < x.
Proof.
  intros Hle. apply Qnot_le_lt. intros Hxy. apply Qle_bool_iff in Hxy.
  congruence.
Qed.

(** Names the value of the outermost [let] of [H], one at a time. *)
Ltac name_lets H :=
  repeat match type of H with
         | context C [let x := ?X in @?body x] =>
             let E := fresh "E" in
             pose (E := X);
             let t := context C [body E] in
             change t in H; cbv beta in H
         end.

Section ValidationProperties.
Context `{JsRuntime}.

(** What an input has to satisfy for [validateInput] to report no entry of
    type [error]. *)
Lemma validateInput_no_errors (input : CalculatorInput) :
  Validation.hasErrors (Validation.validateInput input) = false ->
  0 < gasFlowRate (gasStream input)
  /\ 0 < pressure (gasStream input)
  /\ (is_Some (POLLUTANT_LIBRARY !! type (pollutant input))
      \/ inheritedName (type (pollutant input)) = true)
  /\ 0 < inletConcentration (pollutant input)
  /\ (0.1 <= targetEfficiency (pollutant input)
      /\ targetEfficiency (pollutant input) <= 0.99)
  /\ 0 < lgRatio (tower input)
  /\ 0 < gasVelocity (tower input)
  /\ 0 < dropletSize (tower input)
  /\ 0 < liquidDensity (tower input)
  /\ 0 < liquidViscosity (tower input)
  /\ 0 < nozzlePressure (tower input).
Proof.
  intros Hno. cbv beta delta [Validation.validateInput] in Hno.
  name_lets Hno.
  repeat match type of Hno with
         | Validation.hasErrors ?E = false =>
             unfold E in Hno; clear E;
             first [ apply hasErrors_if_error_warning in Hno as [? Hno]
                   | apply hasErrors_if_error in Hno as [? Hno]
                   | apply hasErrors_if_warning in Hno ]
         end.
  repeat match goal with E := _ |- _ => subst E end.
  repeat match goal with
         | Hc : (_ <=? _) = false |- _ => apply Qle_bool_false in Hc
         | Hc : Validation.outside _ _ = false |- _ =>
             apply outside_false in Hc; cbn in Hc
         | Hc : isFalsy _ = false |- _ => apply isFalsy_false in Hc
         end.
  repeat split; try assumption; tauto.
Qed.


(** X21.  A pollutant type that is neither a key of the library nor the
    name of a property every object inherits, or a gas velocity, L/G
    ratio, droplet size, flow, pressure or inlet concentration that is not
    positive, or a target efficiency outside 0.1 to 0.99, is always
    reported as an error. *)
Theorem validateInput_flags_errors (input : CalculatorInput) :
  (POLLUTANT_LIBRARY !! type (pollutant input) = None
   /\ inheritedName (type (pollutant input)) = false)
  \/ gasFlowRate (gasStream input) <= 0
  \/ pressure (gasStream input) <= 0
  \/ inletConcentration (pollutant input) <= 0
  \/ targetEfficiency (pollutant input) < 0.1
  \/ 0.99 < targetEfficiency (pollutant input)
  \/ lgRatio (tower input) <= 0
  \/ gasVelocity (tower input) <= 0
  \/ dropletSize (tower input) <= 0 ->
  Validation.hasErrors (Validation.validateInput input) = true.
Proof.
  intros Hbad.
  destruct (Validation.hasErrors (Validation.validateInput input)) eqn:Hno;
    [reflexivity|exfalso].
  destruct (validateInput_no_errors input Hno)
    as (Hf & Hp & Hknown & Hin & (He1 & He2) & Hlg & Hv & Hd & _).
  destruct Hbad as [(Hnone & Hname)|[Hb|[Hb|[Hb|[Hb|[Hb|[Hb|[Hb|Hb]]]]]]]];
    try lra.
  destruct Hknown as [[data Hdata] | Hknown]; congruence.
Qed.

End ValidationProperties.

Section CleanInput.
Context `{JsRuntime}.


End CleanInput.









(** * The further properties at concrete inputs *)

Lemma gas_properties_positive_witness :
  0 < GasProperties.gasDensity
        (GasProperties.calculateGasProperties (gasStream DEFAULT_VALUES))
  /\ 0 < GasProperties.operatingGasFlow
           (GasProperties.calculateGasProperties (gasStream DEFAULT_VALUES)).
Proof.
  assert (Hmu : forall mu, gasViscosity (gasStream DEFAULT_VALUES) = Some mu ->
                           0 <= mu) by discriminate.
  destruct (gas_properties_positive (gasStream DEFAULT_VALUES)
              eq_refl eq_refl eq_refl Hmu)
    as (_ & _ & Hdensity & Hflow & _).
  split; assumption.
Defined.

Lemma gas_flow_conversion_witness :
  GasProperties.gasDensity
    (GasProperties.calculateGasProperties (gasStream DEFAULT_VALUES))
  * R_GAS
  * GasProperties.operatingTemp
      (GasProperties.calculateGasProperties (gasStream DEFAULT_VALUES))
  == GasProperties.operatingPressure
       (GasProperties.calculateGasProperties (gasStream DEFAULT_VALUES))
     * M_AIR.
Proof.
  apply (gas_flow_conversion (gasStream DEFAULT_VALUES)); discriminate.
Defined.

Lemma tower_sizing_continuity_witness :
  TowerSizing.liquidFlux
    (@TowerSizing.calculateTowerSizing rationalRuntime 6.369 3 0.015)
  == 0.015 * 3.
Proof.
  apply (@tower_sizing_continuity rationalRuntime 6.369 3 0.015); discriminate.
Defined.

Lemma mass_transfer_guards_witness :
  exists r,
    @MassTransfer.calculateMassTransfer rationalRuntime
      (pollutant DEFAULT_VALUES) (towerWithNozzle "FullCone-1/2-15")
      1.127 0.0000185 3 0.045 = Ok r
    /\ MassTransfer.overallKGa r = 0.05.
Proof.
  destruct (@mass_transfer_guards rationalRuntime
              (pollutant DEFAULT_VALUES) (towerWithNozzle "FullCone-1/2-15")
              1.127 0.0000185 3 0.045 so2 eq_refl)
    as (r & Hrun & Hoverride & _).
  exists r. split; [exact Hrun|]. apply Hoverride; [reflexivity | discriminate].
Defined.

Lemma height_and_residence_nonnegative_witness :
  exists r,
    @Performance.calculatePerformance rationalRuntime
      (pollutant DEFAULT_VALUES) (tower DEFAULT_VALUES)
      20000 3 1.644 1.127 343.9 0.05 2.123 6.369 313.15 = Ok r
    /\ 0 <= Performance.requiredHeight r
    /\ 0 <= Performance.gasResidenceTime r.
Proof.
  apply (@height_and_residence_nonnegative rationalRuntime
           (pollutant DEFAULT_VALUES) (tower DEFAULT_VALUES)
           20000 3 1.644 1.127 343.9 0.05 2.123 6.369 313.15 so2).
  reflexivity.
Defined.

Lemma nozzle_count_suffices_witness :
  exists r (count : Z),
    @Performance.calculatePerformance rationalRuntime
      (pollutant DEFAULT_VALUES) (towerWithNozzle "FullCone-1/2-15")
      20000 3 1.644 1.127 343.9 0.05 2.123 6.369 313.15 = Ok r
    /\ Performance.requiredNozzles r = Some (Rational (inject_Z count))
    /\ 343.9 <= inject_Z count
                * (1.5 * @Math_sqrt rationalRuntime 1.5).
Proof.
  destruct (@nozzle_count_suffices rationalRuntime
              (pollutant DEFAULT_VALUES) (towerWithNozzle "FullCone-1/2-15")
              20000 3 1.644 1.127 343.9 0.05 2.123 6.369 313.15 so2
              "FullCone-1/2-15"
              {| nozzle_type := "FullCone-1/2-15"; k := 1.5;
                 description := "Medium flow" |}
              eq_refl eq_refl)
    as (r & count & Hrun & _ & Hcount & Hcarry & _);
    [discriminate | reflexivity | reflexivity |].
  exists r, count. repeat split; assumption.
Defined.

Lemma nozzle_block_skipped_witness :
  exists r,
    @Performance.calculatePerformance rationalRuntime
      (pollutant DEFAULT_VALUES) (towerWithNozzle "Flat-1/4-5")
      20000 3 1.644 1.127 343.9 0.05 2.123 6.369 313.15 = Ok r
    /\ Performance.nozzleFlowPerNozzle r = None
    /\ Performance.requiredNozzles r = None.
Proof.
  destruct (@nozzle_block_skipped rationalRuntime
              (pollutant DEFAULT_VALUES) (towerWithNozzle "Flat-1/4-5")
              20000 3 1.644 1.127 343.9 0.05 2.123 6.369 313.15 so2 eq_refl)
    as (r & Hrun & Hskipped & _).
  exists r. split; [exact Hrun|]. apply Hskipped.
  right. right. exists "Flat-1/4-5". repeat split; reflexivity.
Defined.

Lemma unit_system_projection_witness :
  exists metricResults r,
    @Calculator.calculateSprayTower rationalRuntime
      (withUnitSystem DEFAULT_VALUES metric) = Ok metricResults
    /\ @Calculator.calculateSprayTower rationalRuntime
         (withUnitSystem DEFAULT_VALUES imperial) = Ok r
    /\ towerDiameter r = towerDiameter metricResults * m_to_ft
    /\ complianceStatus r = complianceStatus metricResults.
Proof.
  destruct (@Calculator.calculateSprayTower rationalRuntime
              (withUnitSystem DEFAULT_VALUES metric))
    as [metricResults|e|] eqn:Hmetric; [|vm_compute in Hmetric; discriminate..].
  destruct (@unit_system_projection rationalRuntime DEFAULT_VALUES
              metricResults Hmetric)
    as (r & Hrun & Hdiameter & Hrest).
  exists metricResults, r. repeat split; try assumption.
  apply Hrest.
Defined.

Lemma pressure_vessel_code_witness :
  exists r,
    @Calculator.calculateSprayTower rationalRuntime DEFAULT_VALUES = Ok r
    /\ pressureVesselCode (complianceStatus r) = "EU PED (>0.5 bar)".
Proof.
  destruct (@Calculator.calculateSprayTower rationalRuntime DEFAULT_VALUES)
    as [r|e|] eqn:Hrun; [|vm_compute in Hrun; discriminate..].
  exists r. split; [reflexivity|].
  apply (@pressure_vessel_code rationalRuntime DEFAULT_VALUES r Hrun).
Defined.

Lemma us_framework_never_optimized_witness :
  exists res,
    @ComplianceOptimizer.optimizeForCompliance rationalRuntime usInput 20
    = Some (Ok res)
    /\ ComplianceOptimizer.iterations res = 0%Z
    /\ ComplianceOptimizer.convergenceReached res = true
    /\ outletConcentration (ComplianceOptimizer.results res) == 750.
Proof.
  destruct (@us_framework_never_optimized rationalRuntime usInput 20 so2
              eq_refl eq_refl)
    as (r & res & Hrun & _ & _ & Hopt & Hres & _ & Hiter & Hconv).
  exists res. repeat split; try assumption.
  rewrite Hres. vm_compute in Hrun. injection Hrun as <-. reflexivity.
Defined.

Lemma budget_reaching_strategy_one_converges_witness :
  exists res,
    @ComplianceOptimizer.optimizeForCompliance rationalRuntime
      nonCompliantInput 3 = Some (Ok res)
    /\ ComplianceOptimizer.convergenceReached res = true.
Proof.
  destruct (@budget_reaching_strategy_one_converges rationalRuntime
              nonCompliantInput 3 so2 eq_refl)
    as ((res & Hopt & Hconv & _) & _);
    [discriminate | vm_compute; discriminate |].
  exists res. split; assumption.
Defined.

Lemma budget_below_one_returns_input_witness :
  exists res,
    @ComplianceOptimizer.optimizeForCompliance rationalRuntime
      nonCompliantInput 0 = Some (Ok res)
    /\ ComplianceOptimizer.optimizedInput res = nonCompliantInput
    /\ ComplianceOptimizer.iterations res = 1%Z
    /\ ComplianceOptimizer.convergenceReached res = false.
Proof.
  destruct (@Calculator.calculateSprayTower rationalRuntime nonCompliantInput)
    as [initial|e|] eqn:Hinit; [|vm_compute in Hinit; discriminate..].
  destruct (@budget_below_one_returns_input rationalRuntime nonCompliantInput
              0 initial Hinit)
    as (res & Hopt & _ & Hinput & Hiter & Hconv & _).
  - vm_compute in Hinit. injection Hinit as <-. reflexivity.
  - reflexivity.
  - exists res. repeat split; assumption.
Defined.

Lemma convergence_flag_is_compliance_witness :
  exists res,
    @ComplianceOptimizer.optimizeForCompliance rationalRuntime
      nonCompliantInput 2 = Some (Ok res)
    /\ ComplianceOptimizer.convergenceReached res
       = emissionLimitsMet
           (complianceStatus (ComplianceOptimizer.results res)).
Proof.
  destruct (@Calculator.calculateSprayTower rationalRuntime nonCompliantInput)
    as [initial|e|] eqn:Hinit; [|vm_compute in Hinit; discriminate..].
  exact (@convergence_flag_is_compliance rationalRuntime nonCompliantInput 2
           initial Hinit).
Defined.

Lemma results_match_optimized_input_witness :
  exists res (j : nat),
    @ComplianceOptimizer.optimizeForCompliance rationalRuntime
      nonCompliantInput 2 = Some (Ok res)
    /\ ComplianceOptimizer.optimizedInput res
       = @parameterSet rationalRuntime nonCompliantInput 2 j
    /\ @Calculator.calculateSprayTower rationalRuntime
         (ComplianceOptimizer.optimizedInput res)
       = Ok (ComplianceOptimizer.results res).
Proof.
  destruct (@Calculator.calculateSprayTower rationalRuntime nonCompliantInput)
    as [initial|e|] eqn:Hinit; [|vm_compute in Hinit; discriminate..].
  exact (@results_match_optimized_input rationalRuntime nonCompliantInput 2
           initial Hinit).
Defined.

Lemma passes_bounded_mutations_witness :
  0.5 * 3
  <= gasVelocity (tower (@parameterSet rationalRuntime nonCompliantInput 20 12))
  /\ gasVelocity (tower (@parameterSet rationalRuntime nonCompliantInput 20 12))
     <= 3.
Proof.
  apply (@passes_bounded_mutations rationalRuntime nonCompliantInput 20 12);
    discriminate.
Defined.

Lemma enhanced_calculation_complies_witness :
  exists res info,
    @EnhancedCalculator.calculateSprayTowerWithCompliance rationalRuntime
      nonCompliantInput = Some (Ok res)
    /\ EnhancedCalculator.optimizationInfo res = Some info
    /\ emissionLimitsMet (complianceStatus (EnhancedCalculator.results res))
       = true
    /\ EnhancedCalculator.convergenceReached info = true.
Proof.
  destruct (@enhanced_calculation_complies rationalRuntime nonCompliantInput
              so2 eq_refl)
    as ((res & info & Hrun & Hinfo & Hmet & Hconv & _) & _);
    [vm_compute; discriminate|].
  exists res, info. repeat split; assumption.
Defined.


Lemma validateInput_flags_errors_witness :
  Validation.hasErrors
    (@Validation.validateInput rationalRuntime unknownPollutantInput) = true.
Proof.
  apply (@validateInput_flags_errors rationalRuntime unknownPollutantInput).
  left. split; reflexivity.
Defined.



